(** * Visitor management backend: the visit-request lifecycle

    A shallow embedding of the request handlers of
    [visitor_management_backend] that create, approve, deny, cancel,
    complete and verify visit requests, together with the blacklist they
    consult.  The FastAPI handlers ([app/api/resident.py],
    [app/api/security.py], [app/api/visitor.py], [app/api/admin.py]) run in
    a SQLAlchemy session; the Django views ([apps/visitors/views.py]) save
    rows one at a time.  Both are modelled by explicit state passing over a
    record of tables. *)

From Stdlib Require Import List String ZArith Bool Arith Lia DecimalString.
Import ListNotations.
Open Scope string_scope.
Open Scope nat_scope.

(** ** Values shared by the handlers *)

(** [User.role]: the handlers compare it with the literals "resident",
    "security" and "admin". *)
Inductive Role := role_resident | role_security | role_admin.

Definition Role_eqb (a b : Role) : bool :=
  match a, b with
  | role_resident, role_resident | role_security, role_security
  | role_admin, role_admin => true
  | _, _ => false
  end.

(** [class VisitStatus(str, enum.Enum)] of [app/models/visit_request.py]. *)
Inductive VisitStatus := PENDING | APPROVED | DENIED | COMPLETED | CANCELLED.

Definition VisitStatus_eqb (a b : VisitStatus) : bool :=
  match a, b with
  | PENDING, PENDING | APPROVED, APPROVED | DENIED, DENIED
  | COMPLETED, COMPLETED | CANCELLED, CANCELLED => true
  | _, _ => false
  end.

(** Python truthiness of an optional string: [None] and [""] are falsy. *)
Definition truthy (o : option string) : bool :=
  match o with
  | Some s => negb (String.eqb s "")
  | None => false
  end.

Definition str_nat (n : nat) : string := NilZero.string_of_uint (Nat.to_uint n).
Definition str_Z (z : Z) : string := NilZero.string_of_int (Z.to_int z).

(** ** Rows *)

Module User.
Record t := mk {
    id : nat;
    role : Role;
    is_approved : bool;
    is_active : bool;
    full_name : string;
    email : option string
  }.
End User.

Module Visitor.
Record t := mk {
    id : nat;
    name : string;
    phone_number : string;
    email : option string;
    id_number : option string;
    purpose : string
  }.

Definition set_name (v : t) (x : string) : t :=
    mk (id v) x (phone_number v) (email v) (id_number v) (purpose v).
Definition set_email (v : t) (x : option string) : t :=
    mk (id v) (name v) (phone_number v) x (id_number v) (purpose v).
Definition set_id_number (v : t) (x : option string) : t :=
    mk (id v) (name v) (phone_number v) (email v) x (purpose v).
End Visitor.

(** A visit request as the FastAPI handlers read and write it.  Dates are
    day numbers, times of day and timestamps are integers. *)
Module VisitRequest.
Record t := mk {
    id : nat;
    visitor_id : nat;
    resident_id : nat;
    visit_date : Z;
    visit_time : Z;
    purpose : string;
    status : VisitStatus;
    qr_code : option string;
    is_walk_in : bool;
    recorded_by : option nat;
    approved_at : option Z;
    denied_at : option Z;
    cancelled_at : option Z;
    completed_at : option Z;
    completed_by : option nat
  }.

Definition set_status (r : t) (x : VisitStatus) : t :=
    mk (id r) (visitor_id r) (resident_id r) (visit_date r) (visit_time r)
       (purpose r) x (qr_code r) (is_walk_in r) (recorded_by r)
       (approved_at r) (denied_at r) (cancelled_at r) (completed_at r)
       (completed_by r).
Definition set_qr_code (r : t) (x : option string) : t :=
    mk (id r) (visitor_id r) (resident_id r) (visit_date r) (visit_time r)
       (purpose r) (status r) x (is_walk_in r) (recorded_by r)
       (approved_at r) (denied_at r) (cancelled_at r) (completed_at r)
       (completed_by r).
Definition set_approved_at (r : t) (x : option Z) : t :=
    mk (id r) (visitor_id r) (resident_id r) (visit_date r) (visit_time r)
       (purpose r) (status r) (qr_code r) (is_walk_in r) (recorded_by r)
       x (denied_at r) (cancelled_at r) (completed_at r) (completed_by r).
Definition set_denied_at (r : t) (x : option Z) : t :=
    mk (id r) (visitor_id r) (resident_id r) (visit_date r) (visit_time r)
       (purpose r) (status r) (qr_code r) (is_walk_in r) (recorded_by r)
       (approved_at r) x (cancelled_at r) (completed_at r) (completed_by r).
Definition set_cancelled_at (r : t) (x : option Z) : t :=
    mk (id r) (visitor_id r) (resident_id r) (visit_date r) (visit_time r)
       (purpose r) (status r) (qr_code r) (is_walk_in r) (recorded_by r)
       (approved_at r) (denied_at r) x (completed_at r) (completed_by r).
Definition set_completed_at (r : t) (x : option Z) : t :=
    mk (id r) (visitor_id r) (resident_id r) (visit_date r) (visit_time r)
       (purpose r) (status r) (qr_code r) (is_walk_in r) (recorded_by r)
       (approved_at r) (denied_at r) (cancelled_at r) x (completed_by r).
Definition set_completed_by (r : t) (x : option nat) : t :=
    mk (id r) (visitor_id r) (resident_id r) (visit_date r) (visit_time r)
       (purpose r) (status r) (qr_code r) (is_walk_in r) (recorded_by r)
       (approved_at r) (denied_at r) (cancelled_at r) (completed_at r) x.
End VisitRequest.

(** A blacklist row: the columns the handlers filter on and fill
    ([visitor_phone], [visitor_name], [resident_id], [reason],
    [blacklisted_by], [is_active]) and the columns of
    [app/models/blacklist.py] ([is_permanent], [expires_at] and the removal
    record). *)
Module Blacklist.
Record t := mk {
    id : nat;
    visitor_phone : string;
    visitor_name : string;
    resident_id : nat;
    reason : string;
    blacklisted_by : nat;
    is_active : bool;
    is_permanent : bool;
    expires_at : option Z;
    created_at : Z;
    removed_at : option Z;
    removed_by : option nat;
    removal_reason : option string
  }.

  (** [is_expired] property: [not is_permanent and expires_at] guards the
      comparison [now > expires_at]. *)
Definition is_expired (now : Z) (b : t) : bool :=
    match is_permanent b, expires_at b with
    | false, Some e => (e <? now)%Z
    | _, _ => false
    end.

  (** [is_valid] property. *)
Definition is_valid (now : Z) (b : t) : bool :=
    is_active b && negb (is_expired now b).
End Blacklist.

Module Notification.
Record t := mk {
    id : nat;
    user_id : nat;
    title : string;
    message : string;
    notification_type : string;
    is_read : bool
  }.
End Notification.

(** ** The record store *)

Record Database := mkDatabase {
  users : list User.t;
  visitors : list Visitor.t;
  visit_requests : list VisitRequest.t;
  blacklist : list Blacklist.t;
  notifications : list Notification.t
}.

Definition set_visitors (d : Database) (x : list Visitor.t) : Database :=
  mkDatabase (users d) x (visit_requests d) (blacklist d) (notifications d).
Definition set_visit_requests (d : Database) (x : list VisitRequest.t) : Database :=
  mkDatabase (users d) (visitors d) x (blacklist d) (notifications d).
Definition set_blacklist (d : Database) (x : list Blacklist.t) : Database :=
  mkDatabase (users d) (visitors d) (visit_requests d) x (notifications d).
Definition set_notifications (d : Database) (x : list Notification.t) : Database :=
  mkDatabase (users d) (visitors d) (visit_requests d) (blacklist d) x.

(** Autoincrement primary key: one more than the largest key in use. *)
Definition next_id (ids : list nat) : nat := S (fold_right Nat.max 0 ids).

(** Writing back a loaded row: the row with the same key is replaced. *)
Definition replace_row {A} (key : A -> nat) (row : A) (rows : list A) : list A :=
  map (fun r => if key r =? key row then row else r) rows.

(** [db.delete(row)]: the row with that key leaves the table. *)
Definition delete_row {A} (key : A -> nat) (k : nat) (rows : list A) : list A :=
  filter (fun r => negb (key r =? k)) rows.

(** ** Request handlers as computations over a session *)

Record HTTPException := mkHTTPException {
  status_code : nat;
  detail : string
}.

Definition HTTP_400_BAD_REQUEST := 400.
Definition HTTP_403_FORBIDDEN := 403.
Definition HTTP_404_NOT_FOUND := 404.
Definition HTTP_500_INTERNAL_SERVER_ERROR := 500.

Record Email := mkEmail {
  to_email : string;
  subject : string;
  body : string
}.

(** A session holds the last committed store, the working copy the handler
    reads and writes, and the mail handed to the delivery service. *)
Record Session := mkSession {
  stored : Database;
  work : Database;
  outbox : list Email
}.

Inductive Outcome (A : Type) :=
| Returned (a : A)
| Raised (e : HTTPException).
Arguments Returned {A} a.
Arguments Raised {A} e.

Definition Handler (A : Type) := Session -> Outcome A * Session.

Definition ret {A} (a : A) : Handler A := fun s => (Returned a, s).

Definition bind {A B} (m : Handler A) (k : A -> Handler B) : Handler B :=
  fun s =>
    match m s with
    | (Returned a, s') => k a s'
    | (Raised e, s') => (Raised e, s')
    end.

Declare Scope handler_scope.
Delimit Scope handler_scope with handler.
Notation "x <- m ;; k" := (bind m (fun x => k))
  (at level 61, m at next level, right associativity) : handler_scope.
Notation "m ;; k" := (bind m (fun _ => k))
  (at level 61, right associativity) : handler_scope.
Open Scope handler_scope.

Definition raise {A} (code : nat) (msg : string) : Handler A :=
  fun s => (Raised (mkHTTPException code msg), s).

(** [db.query(...)]: reads the working copy. *)
Definition query {A} (f : Database -> A) : Handler A :=
  fun s => (Returned (f (work s)), s).

(** [db.add(...)], attribute assignment on a loaded row, [db.delete(...)]. *)
Definition modify (f : Database -> Database) : Handler unit :=
  fun s => (Returned tt, mkSession (stored s) (f (work s)) (outbox s)).

(** [db.commit()]. *)
Definition commit : Handler unit :=
  fun s => (Returned tt, mkSession (work s) (work s) (outbox s)).

(** [send_email_notification]: hands one message to the delivery service;
    the store is not touched. *)
Definition send_email_notification (to subj msg : string) : Handler unit :=
  fun s => (Returned tt,
            mkSession (stored s) (work s) (outbox s ++ [mkEmail to subj msg])).

(** Modelled from the spec: the module-level [create_notification] imported
    from [app.services.notification_service] is missing; following section
    4.4 it enqueues one Notification row for the recipient, and like
    [NotificationService.create_notification] it commits. *)
Definition create_notification (user_id : nat) (title message notification_type : string)
  : Handler unit :=
  modify (fun d =>
    set_notifications d
      (notifications d ++
       [Notification.mk (next_id (map Notification.id (notifications d)))
                        user_id title message notification_type false])) ;;
  commit.

Fixpoint for_each {A} (l : list A) (body : A -> Handler unit) : Handler unit :=
  match l with
  | [] => ret tt
  | x :: l' => body x ;; for_each l' body
  end.

Definition when (c : bool) (h : Handler unit) : Handler unit :=
  if c then h else ret tt.

(** One request: the session opens on the store, the handler runs, and the
    session is closed, which drops whatever was not committed. *)
Definition serve {A} (h : Handler A) (db : Database) : Outcome A * Database :=
  let (r, s) := h (mkSession db db []) in (r, stored s).

(** The clock readings of one request: [datetime.utcnow()],
    [datetime.now().date()] and [datetime.now().time()]. *)
Record Clock := mkClock {
  utcnow : Z;
  today : Z;
  time_now : Z
}.

(** ** Request bodies

    The objects the handlers read their body from.  [VisitorWalkInCreate]
    and [VisitorRegistrationCreate] are named by [record_walk_in_entry] and
    [register_visit_request] and declared nowhere under [app/schemas]: each
    carries the fields its handler reads.

    [VisitorCreate.t] is the object the code of [register_visitor] reads:
    [name], [phone_number], [email], [id_number], [purpose], [visit_date]
    and [visit_time].  It is what the function works on when it is called
    with such an object.  The class [VisitorCreate] that
    [app/schemas/visitor.py] declares, and that the route parses its body
    into, is [VisitorBase] with nothing added and has other fields: it is
    [VisitorBase.t] below, and the handler on it is
    [ResidentRoute.register_visitor]. *)

Module VisitorCreate.
Record t := mk {
  name : string;
  phone_number : string;
  email : option string;
  id_number : option string;
  purpose : string;
  visit_date : Z;
  visit_time : Z
}.
End VisitorCreate.

Module VisitorWalkInCreate.
Record t := mk {
  name : string;
  phone_number : string;
  email : option string;
  id_number : option string;
  purpose : string;
  resident_id : nat
}.
End VisitorWalkInCreate.

Module VisitorRegistrationCreate.
Record t := mk {
  name : string;
  phone_number : string;
  email : option string;
  id_number : option string;
  purpose : string;
  resident_id : nat;
  visit_date : Z;
  visit_time : Z
}.
End VisitorRegistrationCreate.

(** ** Queries and inserts the handlers share *)

(** The blacklist filter of all three creation paths:
    [visitor_phone == phone, resident_id == resident, is_active == True]. *)
Definition blacklist_filter (phone : string) (resident_id : nat) (b : Blacklist.t) : bool :=
  String.eqb (Blacklist.visitor_phone b) phone
  && (Blacklist.resident_id b =? resident_id)
  && Blacklist.is_active b.

Definition visitor_by_phone (phone : string) (d : Database) : option Visitor.t :=
  find (fun v => String.eqb (Visitor.phone_number v) phone) (visitors d).

Definition visitor_by_id (k : nat) (d : Database) : option Visitor.t :=
  find (fun v => Visitor.id v =? k) (visitors d).

Definition user_by_id (k : nat) (d : Database) : option User.t :=
  find (fun u => User.id u =? k) (users d).

(** [role == "resident", is_approved == True] on top of the key. *)
Definition approved_resident (k : nat) (d : Database) : option User.t :=
  find (fun u => (User.id u =? k) && Role_eqb (User.role u) role_resident
                 && User.is_approved u) (users d).

(** [role == "security", is_approved == True]. *)
Definition security_users (d : Database) : list User.t :=
  filter (fun u => Role_eqb (User.role u) role_security && User.is_approved u) (users d).

(** [db.add(new_visitor); db.flush(); new_visitor.id]. *)
Definition add_visitor (name phone : string) (email id_number : option string)
    (purpose : string) : Handler nat :=
  k <- query (fun d => next_id (map Visitor.id (visitors d))) ;;
  modify (fun d => set_visitors d
            (visitors d ++ [Visitor.mk k name phone email id_number purpose])) ;;
  ret k.

(** [db.add(visit_request)]: the row receives its key. *)
Definition add_visit_request (row : nat -> VisitRequest.t) : Handler VisitRequest.t :=
  k <- query (fun d => next_id (map VisitRequest.id (visit_requests d))) ;;
  modify (fun d => set_visit_requests d (visit_requests d ++ [row k])) ;;
  ret (row k).

Definition save_visit_request (r : VisitRequest.t) : Handler unit :=
  modify (fun d => set_visit_requests d
            (replace_row VisitRequest.id r (visit_requests d))).

Definition save_visitor (v : Visitor.t) : Handler unit :=
  modify (fun d => set_visitors d (replace_row Visitor.id v (visitors d))).

Definition add_blacklist (row : nat -> Blacklist.t) : Handler unit :=
  modify (fun d => set_blacklist d
            (blacklist d ++ [row (next_id (map Blacklist.id (blacklist d)))])).

(** An attribute read on [None] ends the request with an unhandled
    [AttributeError], which the framework answers with status 500. *)
Definition attribute_error {A} : Handler A :=
  raise HTTP_500_INTERNAL_SERVER_ERROR "Internal Server Error".

(** [obj.attr] for an attribute that the class of [obj] does not declare:
    the same [AttributeError]. *)
Definition no_attribute {A} (attr : string) : Handler A := attribute_error.

Definition internal_error_answer : HTTPException :=
  mkHTTPException HTTP_500_INTERNAL_SERVER_ERROR "Internal Server Error".

(** ** [app/api/resident.py] *)

Module Resident.
Section WithQrCode.

(** [generate_qr_code] is imported from [app.utils.helpers], which does not
    define it: it stays a parameter. *)
Variable generate_qr_code : string -> string.

Variable clock : Clock.

(** [f"visit_{visitor_id}_{current_user.id}_{datetime.utcnow().timestamp()}"] *)
Definition qr_payload (visitor_id resident_id : nat) : string :=
  "visit_" ++ str_nat visitor_id ++ "_" ++ str_nat resident_id ++ "_"
  ++ str_Z (utcnow clock).

Definition access_denied (current_user : User.t) : bool :=
  negb (Role_eqb (User.role current_user) role_resident)
  || negb (User.is_approved current_user).

(** The function on an object that carries every attribute it reads. *)
Definition register_visitor (visitor_data : VisitorCreate.t) (current_user : User.t)
  : Handler VisitRequest.t :=
  if access_denied current_user then
    raise HTTP_403_FORBIDDEN
      "Access denied. Only approved residents can register visitors."
  else
  blacklisted <- query (fun d =>
    find (blacklist_filter (VisitorCreate.phone_number visitor_data)
                           (User.id current_user)) (blacklist d)) ;;
  match blacklisted with
  | Some _ =>
      raise HTTP_400_BAD_REQUEST
        "This visitor is blacklisted and cannot be registered."
  | None =>
  existing_visitor <- query (visitor_by_phone (VisitorCreate.phone_number visitor_data)) ;;
  visitor_id <-
    match existing_visitor with
    | None => add_visitor (VisitorCreate.name visitor_data)
                          (VisitorCreate.phone_number visitor_data)
                          (VisitorCreate.email visitor_data)
                          (VisitorCreate.id_number visitor_data)
                          (VisitorCreate.purpose visitor_data)
    | Some v => ret (Visitor.id v)
    end ;;
  visit_request <- add_visit_request (fun k =>
    VisitRequest.mk k visitor_id (User.id current_user)
      (VisitorCreate.visit_date visitor_data)
      (VisitorCreate.visit_time visitor_data)
      (VisitorCreate.purpose visitor_data)
      APPROVED
      (Some (generate_qr_code (qr_payload visitor_id (User.id current_user))))
      false None (Some (utcnow clock)) None None None None) ;;
  commit ;;
  security_users <- query security_users ;;
  for_each security_users (fun security_user =>
    create_notification (User.id security_user)
      "New Pre-Approved Visitor"
      ("Visitor " ++ VisitorCreate.name visitor_data
       ++ " has been pre-approved by resident " ++ User.full_name current_user)
      "visitor_approved") ;;
  when (truthy (VisitorCreate.email visitor_data))
    (send_email_notification
       (match VisitorCreate.email visitor_data with Some e => e | None => "" end)
       "Visit Approved"
       ("Your visit to " ++ User.full_name current_user ++ " on "
        ++ str_Z (VisitorCreate.visit_date visitor_data)
        ++ " has been approved. Please show the QR code at the gate.")) ;;
  ret visit_request
  end.

(** The lookup of approve and deny:
    [id == request_id, resident_id == current_user.id]. *)
Definition own_request (request_id : nat) (current_user : User.t) (d : Database)
  : option VisitRequest.t :=
  find (fun r => (VisitRequest.id r =? request_id)
                 && (VisitRequest.resident_id r =? User.id current_user))
       (visit_requests d).

Definition approve_visit_request (request_id : nat) (current_user : User.t)
  : Handler string :=
  if access_denied current_user then
    raise HTTP_403_FORBIDDEN "Access denied."
  else
  found <- query (own_request request_id current_user) ;;
  match found with
  | None => raise HTTP_404_NOT_FOUND "Visit request not found."
  | Some visit_request =>
  if negb (VisitStatus_eqb (VisitRequest.status visit_request) PENDING) then
    raise HTTP_400_BAD_REQUEST "This request has already been processed."
  else
  let visit_request := VisitRequest.set_status visit_request APPROVED in
  let visit_request := VisitRequest.set_approved_at visit_request (Some (utcnow clock)) in
  let visit_request := VisitRequest.set_qr_code visit_request
    (Some (generate_qr_code
             (qr_payload (VisitRequest.visitor_id visit_request) (User.id current_user)))) in
  save_visit_request visit_request ;;
  commit ;;
  visitor <- query (visitor_by_id (VisitRequest.visitor_id visit_request)) ;;
  security_users <- query security_users ;;
  match visitor with
  | None => attribute_error (* [visitor.name] or [visitor.email] on [None] *)
  | Some visitor =>
  for_each security_users (fun security_user =>
    create_notification (User.id security_user)
      "Visit Request Approved"
      ("Visitor " ++ Visitor.name visitor ++ " has been approved by resident "
       ++ User.full_name current_user)
      "visitor_approved") ;;
  when (truthy (Visitor.email visitor))
    (send_email_notification
       (match Visitor.email visitor with Some e => e | None => "" end)
       "Visit Approved"
       ("Your visit to " ++ User.full_name current_user ++ " on "
        ++ str_Z (VisitRequest.visit_date visit_request)
        ++ " has been approved. Please show the QR code at the gate.")) ;;
  ret "Visit request approved successfully"
  end
  end.

Definition deny_visit_request (request_id : nat) (current_user : User.t)
  : Handler string :=
  if access_denied current_user then
    raise HTTP_403_FORBIDDEN "Access denied."
  else
  found <- query (own_request request_id current_user) ;;
  match found with
  | None => raise HTTP_404_NOT_FOUND "Visit request not found."
  | Some visit_request =>
  if negb (VisitStatus_eqb (VisitRequest.status visit_request) PENDING) then
    raise HTTP_400_BAD_REQUEST "This request has already been processed."
  else
  visitor <- query (visitor_by_id (VisitRequest.visitor_id visit_request)) ;;
  let visit_request := VisitRequest.set_status visit_request DENIED in
  let visit_request := VisitRequest.set_denied_at visit_request (Some (utcnow clock)) in
  save_visit_request visit_request ;;
  match visitor with
  | None => attribute_error (* [visitor.phone_number] on [None] *)
  | Some visitor =>
  add_blacklist (fun k =>
    Blacklist.mk k (Visitor.phone_number visitor) (Visitor.name visitor)
      (User.id current_user) "Visit request denied by resident"
      (User.id current_user) true true None (utcnow clock) None None None) ;;
  commit ;;
  when (truthy (Visitor.email visitor))
    (send_email_notification
       (match Visitor.email visitor with Some e => e | None => "" end)
       "Visit Request Denied"
       ("Your visit request to " ++ User.full_name current_user
        ++ " has been denied.")) ;;
  ret "Visit request denied and visitor blacklisted"
  end
  end.

End WithQrCode.
End Resident.

(** ** [app/api/security.py] *)

Module Security.

(** The answer of a successful verification. *)
Record Verified := mkVerified {
  valid : bool;
  visitor : option Visitor.t;
  resident : option User.t;
  visit_request : VisitRequest.t;
  message : string
}.

Section WithClock.
Variable clock : Clock.

Definition access_denied (current_user : User.t) : bool :=
  negb (Role_eqb (User.role current_user) role_security)
  || negb (User.is_approved current_user).

Definition record_walk_in_entry (visitor_data : VisitorWalkInCreate.t)
    (current_user : User.t) : Handler VisitRequest.t :=
  if access_denied current_user then
    raise HTTP_403_FORBIDDEN "Access denied."
  else
  blacklisted <- query (fun d =>
    find (blacklist_filter (VisitorWalkInCreate.phone_number visitor_data)
                           (VisitorWalkInCreate.resident_id visitor_data))
         (blacklist d)) ;;
  match blacklisted with
  | Some _ =>
      raise HTTP_400_BAD_REQUEST "This visitor is blacklisted for this resident."
  | None =>
  resident <- query (approved_resident (VisitorWalkInCreate.resident_id visitor_data)) ;;
  match resident with
  | None => raise HTTP_404_NOT_FOUND "Resident not found or not approved."
  | Some resident =>
  existing_visitor <- query (visitor_by_phone (VisitorWalkInCreate.phone_number visitor_data)) ;;
  visitor_id <-
    match existing_visitor with
    | None => add_visitor (VisitorWalkInCreate.name visitor_data)
                          (VisitorWalkInCreate.phone_number visitor_data)
                          (VisitorWalkInCreate.email visitor_data)
                          (VisitorWalkInCreate.id_number visitor_data)
                          (VisitorWalkInCreate.purpose visitor_data)
    | Some v => ret (Visitor.id v)
    end ;;
  visit_request <- add_visit_request (fun k =>
    VisitRequest.mk k visitor_id (VisitorWalkInCreate.resident_id visitor_data)
      (today clock) (time_now clock)
      (VisitorWalkInCreate.purpose visitor_data)
      PENDING None true (Some (User.id current_user))
      None None None None None) ;;
  commit ;;
  create_notification (VisitorWalkInCreate.resident_id visitor_data)
    "Walk-in Visitor Request"
    ("Walk-in visitor " ++ VisitorWalkInCreate.name visitor_data
     ++ " is requesting to see you. Please approve or deny.")
    "walk_in_request" ;;
  when (truthy (User.email resident))
    (send_email_notification
       (match User.email resident with Some e => e | None => "" end)
       "Walk-in Visitor Request"
       ("Walk-in visitor " ++ VisitorWalkInCreate.name visitor_data
        ++ " is at the gate requesting to see you. Please check your app to approve or deny.")) ;;
  ret visit_request
  end
  end.

(** The lookup of the verification:
    [qr_code == qr_code, status == "approved"]. *)
Definition approved_with_qr (qr_code : string) (d : Database) : option VisitRequest.t :=
  find (fun r => match VisitRequest.qr_code r with
                 | Some q => String.eqb q qr_code
                 | None => false
                 end
                 && VisitStatus_eqb (VisitRequest.status r) APPROVED)
       (visit_requests d).

Definition verify_visitor_qr (qr_code : string) (current_user : User.t)
  : Handler Verified :=
  if access_denied current_user then
    raise HTTP_403_FORBIDDEN "Access denied."
  else
  found <- query (approved_with_qr qr_code) ;;
  match found with
  | None => raise HTTP_404_NOT_FOUND "Invalid QR code or visit not approved."
  | Some visit_request =>
  if negb (VisitRequest.visit_date visit_request =? today clock)%Z then
    raise HTTP_400_BAD_REQUEST "This visit is not scheduled for today."
  else
  visitor <- query (visitor_by_id (VisitRequest.visitor_id visit_request)) ;;
  resident <- query (user_by_id (VisitRequest.resident_id visit_request)) ;;
  ret (mkVerified true visitor resident visit_request
         "Visitor verified successfully. You may allow entry.")
  end.

Definition request_by_id (request_id : nat) (d : Database) : option VisitRequest.t :=
  find (fun r => VisitRequest.id r =? request_id) (visit_requests d).

Definition complete_visit (request_id : nat) (current_user : User.t)
  : Handler string :=
  if access_denied current_user then
    raise HTTP_403_FORBIDDEN "Access denied."
  else
  found <- query (request_by_id request_id) ;;
  match found with
  | None => raise HTTP_404_NOT_FOUND "Visit request not found."
  | Some visit_request =>
  if negb (VisitStatus_eqb (VisitRequest.status visit_request) APPROVED) then
    raise HTTP_400_BAD_REQUEST "Visit must be approved before it can be completed."
  else
  let visit_request := VisitRequest.set_status visit_request COMPLETED in
  let visit_request := VisitRequest.set_completed_at visit_request (Some (utcnow clock)) in
  let visit_request := VisitRequest.set_completed_by visit_request
                         (Some (User.id current_user)) in
  save_visit_request visit_request ;;
  commit ;;
  ret "Visit marked as completed"
  end.

End WithClock.
End Security.

(** ** [app/api/visitor.py] *)

Module VisitorApi.
Section WithClock.
Variable clock : Clock.

(** The duplicate guard:
    [visitor_id, resident_id, visit_date] equal and [status == "pending"]. *)
Definition duplicate_pending (visitor_id resident_id : nat) (visit_date : Z)
    (d : Database) : option VisitRequest.t :=
  find (fun r => (VisitRequest.visitor_id r =? visitor_id)
                 && (VisitRequest.resident_id r =? resident_id)
                 && (VisitRequest.visit_date r =? visit_date)%Z
                 && VisitStatus_eqb (VisitRequest.status r) PENDING)
       (visit_requests d).

(** The in-place refresh of a known visitor: each of name, email and
    id_number is overwritten when the body supplies a truthy value. *)
Definition refresh_visitor (visit_data : VisitorRegistrationCreate.t) (v : Visitor.t)
  : Visitor.t :=
  let v := if negb (String.eqb (VisitorRegistrationCreate.name visit_data) "")
           then Visitor.set_name v (VisitorRegistrationCreate.name visit_data)
           else v in
  let v := if truthy (VisitorRegistrationCreate.email visit_data)
           then Visitor.set_email v (VisitorRegistrationCreate.email visit_data)
           else v in
  if truthy (VisitorRegistrationCreate.id_number visit_data)
  then Visitor.set_id_number v (VisitorRegistrationCreate.id_number visit_data)
  else v.

Definition register_visit_request (visit_data : VisitorRegistrationCreate.t)
  : Handler VisitRequest.t :=
  resident <- query (approved_resident (VisitorRegistrationCreate.resident_id visit_data)) ;;
  match resident with
  | None => raise HTTP_404_NOT_FOUND "Resident not found or not approved."
  | Some resident =>
  blacklisted <- query (fun d =>
    find (blacklist_filter (VisitorRegistrationCreate.phone_number visit_data)
                           (VisitorRegistrationCreate.resident_id visit_data))
         (blacklist d)) ;;
  match blacklisted with
  | Some _ =>
      raise HTTP_400_BAD_REQUEST
        "You are blacklisted and cannot request a visit to this resident."
  | None =>
  existing_visitor <- query (visitor_by_phone (VisitorRegistrationCreate.phone_number visit_data)) ;;
  visitor_id <-
    match existing_visitor with
    | None => add_visitor (VisitorRegistrationCreate.name visit_data)
                          (VisitorRegistrationCreate.phone_number visit_data)
                          (VisitorRegistrationCreate.email visit_data)
                          (VisitorRegistrationCreate.id_number visit_data)
                          (VisitorRegistrationCreate.purpose visit_data)
    | Some v => save_visitor (refresh_visitor visit_data v) ;; ret (Visitor.id v)
    end ;;
  existing_request <- query (duplicate_pending visitor_id
                               (VisitorRegistrationCreate.resident_id visit_data)
                               (VisitorRegistrationCreate.visit_date visit_data)) ;;
  match existing_request with
  | Some _ =>
      raise HTTP_400_BAD_REQUEST
        "You already have a pending request for this date with this resident."
  | None =>
  visit_request <- add_visit_request (fun k =>
    VisitRequest.mk k visitor_id (VisitorRegistrationCreate.resident_id visit_data)
      (VisitorRegistrationCreate.visit_date visit_data)
      (VisitorRegistrationCreate.visit_time visit_data)
      (VisitorRegistrationCreate.purpose visit_data)
      PENDING None false None None None None None None) ;;
  commit ;;
  create_notification (VisitorRegistrationCreate.resident_id visit_data)
    "New Visit Request"
    ("New visit request from " ++ VisitorRegistrationCreate.name visit_data
     ++ " for " ++ str_Z (VisitorRegistrationCreate.visit_date visit_data))
    "visit_request" ;;
  when (truthy (User.email resident))
    (send_email_notification
       (match User.email resident with Some e => e | None => "" end)
       "New Visit Request"
       ("You have a new visit request from "
        ++ VisitorRegistrationCreate.name visit_data ++ " for "
        ++ str_Z (VisitorRegistrationCreate.visit_date visit_data)
        ++ ". Please check your app to approve or deny.")) ;;
  when (truthy (VisitorRegistrationCreate.email visit_data))
    (send_email_notification
       (match VisitorRegistrationCreate.email visit_data with
        | Some e => e | None => "" end)
       "Visit Request Submitted"
       ("Your visit request to " ++ User.full_name resident ++ " for "
        ++ str_Z (VisitorRegistrationCreate.visit_date visit_data)
        ++ " has been submitted. You will be notified once it's approved or denied.")) ;;
  ret visit_request
  end
  end
  end.

(** The ownership check of cancellation:
    [Visitor.id == visit_request.visitor_id, phone_number == phone_number]. *)
Definition owning_visitor (visitor_id : nat) (phone_number : string) (d : Database)
  : option Visitor.t :=
  find (fun v => (Visitor.id v =? visitor_id)
                 && String.eqb (Visitor.phone_number v) phone_number)
       (visitors d).

Definition cancel_visit_request (request_id : nat) (phone_number : string)
  : Handler string :=
  found <- query (Security.request_by_id request_id) ;;
  match found with
  | None => raise HTTP_404_NOT_FOUND "Visit request not found."
  | Some visit_request =>
  visitor <- query (owning_visitor (VisitRequest.visitor_id visit_request) phone_number) ;;
  match visitor with
  | None => raise HTTP_403_FORBIDDEN "You are not authorized to cancel this request."
  | Some visitor =>
  if negb (VisitStatus_eqb (VisitRequest.status visit_request) PENDING) then
    raise HTTP_400_BAD_REQUEST "Only pending requests can be cancelled."
  else
  let visit_request := VisitRequest.set_status visit_request CANCELLED in
  let visit_request := VisitRequest.set_cancelled_at visit_request (Some (utcnow clock)) in
  save_visit_request visit_request ;;
  commit ;;
  create_notification (VisitRequest.resident_id visit_request)
    "Visit Request Cancelled"
    ("Visit request from " ++ Visitor.name visitor ++ " for "
     ++ str_Z (VisitRequest.visit_date visit_request) ++ " has been cancelled")
    "visit_cancelled" ;;
  ret "Visit request cancelled successfully"
  end
  end.

End WithClock.
End VisitorApi.

(** ** [app/api/admin.py] *)

Module Admin.

(** The caller has passed the [require_role("admin")] dependency.  An
    [HTTPException] raised inside the [try] is raised again unchanged. *)
Definition remove_from_blacklist (blacklist_id : nat) : Handler string :=
  blacklist_entry <- query (fun d =>
    find (fun b => Blacklist.id b =? blacklist_id) (blacklist d)) ;;
  match blacklist_entry with
  | None => raise HTTP_404_NOT_FOUND "Blacklist entry not found"
  | Some blacklist_entry =>
  modify (fun d => set_blacklist d
            (delete_row Blacklist.id (Blacklist.id blacklist_entry) (blacklist d))) ;;
  commit ;;
  ret "Visitor removed from blacklist successfully"
  end.

End Admin.

(** ** [apps/visitors/views.py]

    The Django views answer with a [Response] instead of raising, and every
    [save()], [get_or_create()] and [delete()] writes at once. *)

Module Django.

Module VisitRequest.
Record t := mk {
  id : nat;
  visitor : nat;
  resident : nat;
  status : VisitStatus;
  approval_date : option Z;
  entry_time : option Z;
  exit_time : option Z;
  security_personnel : option nat
}.
End VisitRequest.

Module BlacklistedVisitor.
Record t := mk {
  id : nat;
  visitor : nat;
  resident : nat;
  reason : string
}.
End BlacklistedVisitor.

Record Store := mkStore {
  visit_requests : list VisitRequest.t;
  blacklisted_visitors : list BlacklistedVisitor.t
}.

(** [request.user] and the parts of [request.data] the views read. *)
Record Request := mkRequest {
  user_id : nat;
  user_type : Role;
  visit_request_id : option nat;
  reason : option string
}.

Inductive Response (A : Type) :=
| Ok (data : A)
| Error (status : nat) (error : string).
Arguments Ok {A} data.
Arguments Error {A} status error.

Definition permission_denied {A} : Response A :=
  Error HTTP_403_FORBIDDEN "You do not have permission to perform this action.".
Definition not_found {A} : Response A :=
  Error HTTP_404_NOT_FOUND "Not found.".

Definition IsSecurityOrAdmin (request : Request) : bool :=
  Role_eqb (user_type request) role_security || Role_eqb (user_type request) role_admin.
Definition IsResidentOrAdmin (request : Request) : bool :=
  Role_eqb (user_type request) role_resident || Role_eqb (user_type request) role_admin.

Definition get_visit_request (pk : nat) (s : Store) : option VisitRequest.t :=
  find (fun r => VisitRequest.id r =? pk) (visit_requests s).

Definition save (r : VisitRequest.t) (s : Store) : Store :=
  mkStore (replace_row VisitRequest.id r (visit_requests s)) (blacklisted_visitors s).

(** [BlacklistedVisitor.objects.get_or_create(visitor=, resident=,
    defaults={'reason': reason})]. *)
Definition get_or_create (visitor resident : nat) (reason : string) (s : Store) : Store :=
  match find (fun b => (BlacklistedVisitor.visitor b =? visitor)
                       && (BlacklistedVisitor.resident b =? resident))
             (blacklisted_visitors s) with
  | Some _ => s
  | None =>
      mkStore (visit_requests s)
        (blacklisted_visitors s ++
         [BlacklistedVisitor.mk
            (next_id (map BlacklistedVisitor.id (blacklisted_visitors s)))
            visitor resident reason])
  end.

Section WithClock.
Variable now : Z.

Definition deny_visit_request (request : Request) (pk : nat) (s : Store)
  : Response VisitRequest.t * Store :=
  if negb (IsResidentOrAdmin request) then (permission_denied, s) else
  match get_visit_request pk s with
  | None => (not_found, s)
  | Some visit_request =>
  if Role_eqb (user_type request) role_resident
     && negb (VisitRequest.resident visit_request =? user_id request) then
    (Error HTTP_403_FORBIDDEN "You can only deny your own visit requests", s)
  else if negb (VisitStatus_eqb (VisitRequest.status visit_request) PENDING) then
    (Error HTTP_400_BAD_REQUEST "Visit request is not pending", s)
  else
  let visit_request :=
    VisitRequest.mk (VisitRequest.id visit_request)
      (VisitRequest.visitor visit_request) (VisitRequest.resident visit_request)
      DENIED (VisitRequest.approval_date visit_request)
      (VisitRequest.entry_time visit_request) (VisitRequest.exit_time visit_request)
      (VisitRequest.security_personnel visit_request) in
  let s := save visit_request s in
  let reason := match reason request with
                | Some r => r
                | None => "Visit request denied"
                end in
  let s := get_or_create (VisitRequest.visitor visit_request)
                         (VisitRequest.resident visit_request) reason s in
  (Ok visit_request, s)
  end.

(** [if not visit_request_id]: a missing key and a zero are both falsy. *)
Definition missing (visit_request_id : option nat) : bool :=
  match visit_request_id with
  | None | Some 0 => true
  | Some (S _) => false
  end.

Definition record_entry (request : Request) (s : Store)
  : Response VisitRequest.t * Store :=
  if negb (IsSecurityOrAdmin request) then (permission_denied, s) else
  if missing (visit_request_id request) then
    (Error HTTP_400_BAD_REQUEST "Visit request ID is required", s)
  else
  match get_visit_request (match visit_request_id request with
                           | Some k => k | None => 0 end) s with
  | None => (not_found, s)
  | Some visit_request =>
  if negb (VisitStatus_eqb (VisitRequest.status visit_request) APPROVED) then
    (Error HTTP_400_BAD_REQUEST "Visit request must be approved first", s)
  else
  let visit_request :=
    VisitRequest.mk (VisitRequest.id visit_request)
      (VisitRequest.visitor visit_request) (VisitRequest.resident visit_request)
      (VisitRequest.status visit_request) (VisitRequest.approval_date visit_request)
      (Some now) (VisitRequest.exit_time visit_request)
      (Some (user_id request)) in
  (Ok visit_request, save visit_request s)
  end.

Definition record_exit (request : Request) (s : Store)
  : Response VisitRequest.t * Store :=
  if negb (IsSecurityOrAdmin request) then (permission_denied, s) else
  if missing (visit_request_id request) then
    (Error HTTP_400_BAD_REQUEST "Visit request ID is required", s)
  else
  match get_visit_request (match visit_request_id request with
                           | Some k => k | None => 0 end) s with
  | None => (not_found, s)
  | Some visit_request =>
  match VisitRequest.entry_time visit_request with
  | None => (Error HTTP_400_BAD_REQUEST "Visitor must have entered first", s)
  | Some _ =>
  match VisitRequest.exit_time visit_request with
  | Some _ => (Error HTTP_400_BAD_REQUEST "Exit time already recorded", s)
  | None =>
  let visit_request :=
    VisitRequest.mk (VisitRequest.id visit_request)
      (VisitRequest.visitor visit_request) (VisitRequest.resident visit_request)
      (VisitRequest.status visit_request) (VisitRequest.approval_date visit_request)
      (VisitRequest.entry_time visit_request) (Some now)
      (VisitRequest.security_personnel visit_request) in
  (Ok visit_request, save visit_request s)
  end
  end
  end.

End WithClock.

Definition remove_from_blacklist (request : Request) (pk : nat) (s : Store)
  : Response string * Store :=
  if negb (IsResidentOrAdmin request) then (permission_denied, s) else
  match find (fun b => BlacklistedVisitor.id b =? pk) (blacklisted_visitors s) with
  | None => (not_found, s)
  | Some blacklisted_visitor =>
  if Role_eqb (user_type request) role_resident
     && negb (BlacklistedVisitor.resident blacklisted_visitor =? user_id request) then
    (Error HTTP_403_FORBIDDEN
       "You can only remove visitors from your own blacklist", s)
  else
  (Ok "Visitor removed from blacklist",
   mkStore (visit_requests s)
     (delete_row BlacklistedVisitor.id
        (BlacklistedVisitor.id blacklisted_visitor) (blacklisted_visitors s)))
  end.

End Django.

(** ** The four status transitions side by side *)

Inductive Transition := Approve | Deny | Cancel | Complete.

(** The state each handler insists on before it changes the status. *)
Definition source_state (t : Transition) : VisitStatus :=
  match t with
  | Approve | Deny | Cancel => PENDING
  | Complete => APPROVED
  end.

(** The answer each handler gives when the status check fails. *)
Definition InvalidTransition (t : Transition) : HTTPException :=
  match t with
  | Approve | Deny =>
      mkHTTPException HTTP_400_BAD_REQUEST "This request has already been processed."
  | Cancel =>
      mkHTTPException HTTP_400_BAD_REQUEST "Only pending requests can be cancelled."
  | Complete =>
      mkHTTPException HTTP_400_BAD_REQUEST
        "Visit must be approved before it can be completed."
  end.

(** The arguments of a transition call: the path parameter, the
    authenticated user (approve, deny, complete) and the phone number
    presented as proof of identity (cancel). *)
Record Call := mkCall {
  request_id : nat;
  actor : User.t;
  phone_number : string
}.

Section Transitions.
Variable generate_qr_code : string -> string.
Variable clock : Clock.

Definition invoke (t : Transition) (c : Call) : Handler string :=
  match t with
  | Approve =>
      Resident.approve_visit_request generate_qr_code clock (request_id c) (actor c)
  | Deny => Resident.deny_visit_request clock (request_id c) (actor c)
  | Cancel => VisitorApi.cancel_visit_request clock (request_id c) (phone_number c)
  | Complete => Security.complete_visit clock (request_id c) (actor c)
  end.

(** The request a call reaches: the row its handler loads, provided the
    caller passes the role and ownership checks that come before the
    status check. *)
Definition addressed (t : Transition) (c : Call) (d : Database)
  : option VisitRequest.t :=
  match t with
  | Approve | Deny =>
      if Resident.access_denied (actor c) then None
      else Resident.own_request (request_id c) (actor c) d
  | Cancel =>
      match Security.request_by_id (request_id c) d with
      | Some r =>
          match VisitorApi.owning_visitor (VisitRequest.visitor_id r)
                  (phone_number c) d with
          | Some _ => Some r
          | None => None
          end
      | None => None
      end
  | Complete =>
      if Security.access_denied (actor c) then None
      else Security.request_by_id (request_id c) d
  end.

End Transitions.

(** ** The identity a registration resolves to

    The key under which a registration by phone number files its request:
    the known visitor's, or the one a new visitor row is about to get. *)

Definition registering_visitor_id (phone : string) (d : Database) : nat :=
  match visitor_by_phone phone d with
  | Some v => Visitor.id v
  | None => next_id (map Visitor.id (visitors d))
  end.

Definition duplicate_answer : HTTPException :=
  mkHTTPException HTTP_400_BAD_REQUEST
    "You already have a pending request for this date with this resident.".

(** ** The answers of the blacklist check *)

Definition blacklisted_visit_answer : HTTPException :=
  mkHTTPException HTTP_400_BAD_REQUEST
    "You are blacklisted and cannot request a visit to this resident.".
Definition blacklisted_walk_in_answer : HTTPException :=
  mkHTTPException HTTP_400_BAD_REQUEST
    "This visitor is blacklisted for this resident.".
Definition blacklisted_invite_answer : HTTPException :=
  mkHTTPException HTTP_400_BAD_REQUEST
    "This visitor is blacklisted and cannot be registered.".

(** The row a denial by [current_user] adds for the visitor [v]. *)
Definition denial_entry (clock : Clock) (current_user : User.t) (v : Visitor.t)
    (k : nat) : Blacklist.t :=
  Blacklist.mk k (Visitor.phone_number v) (Visitor.name v)
    (User.id current_user) "Visit request denied by resident"
    (User.id current_user) true true None (utcnow clock) None None None.

(** ** The answers of the verification *)

Definition not_found_answer : HTTPException :=
  mkHTTPException HTTP_404_NOT_FOUND "Invalid QR code or visit not approved.".
Definition not_today_answer : HTTPException :=
  mkHTTPException HTTP_400_BAD_REQUEST "This visit is not scheduled for today.".

(** What a successful verification hands back for the request [r]. *)
Definition verified (db : Database) (r : VisitRequest.t) : Security.Verified :=
  Security.mkVerified true
    (visitor_by_id (VisitRequest.visitor_id r) db)
    (user_by_id (VisitRequest.resident_id r) db)
    r "Visitor verified successfully. You may allow entry.".

(** ** Sample runs

    A small estate: residents R42 and R7, one security officer, and the
    visitor Jane, used to run the handlers on concrete stores. *)

Module Scenario.

(** A stand-in for the missing generator. *)
Definition qr (data : string) : string := "QR:" ++ data.

Definition clock : Clock := mkClock 1000 10 600.
Definition next_day : Clock := mkClock 2000 11 600.

Definition r42 : User.t := User.mk 42 role_resident true true "R42" None.
Definition r7 : User.t := User.mk 7 role_resident true true "R7" None.
Definition guard : User.t := User.mk 3 role_security true true "Guard" None.

Definition estate : Database := mkDatabase [r42; r7; guard] [] [] [] [].

Definition jane_phone : string := "+15551234".

Definition jane_today : VisitorRegistrationCreate.t :=
  VisitorRegistrationCreate.mk "Jane" jane_phone None None "delivery" 42 10 600.
Definition jane_tomorrow : VisitorRegistrationCreate.t :=
  VisitorRegistrationCreate.mk "Jane" jane_phone None None "delivery" 42 11 600.
Definition jane_to_r7 : VisitorRegistrationCreate.t :=
  VisitorRegistrationCreate.mk "Jane" jane_phone None None "delivery" 7 11 600.
Definition jane_walk_in : VisitorWalkInCreate.t :=
  VisitorWalkInCreate.mk "Jane" jane_phone None None "delivery" 42.
Definition jane_invited : VisitorCreate.t :=
  VisitorCreate.mk "Jane" jane_phone None None "delivery" 11 600.

Definition after {A} (h : Handler A) (db : Database) : Database := snd (serve h db).

(** Jane asks to see R42 today; R42 approves; the guard completes. *)
Definition db_pending : Database :=
  after (VisitorApi.register_visit_request jane_today) estate.
Definition db_approved : Database :=
  after (Resident.approve_visit_request qr clock 1 r42) db_pending.
Definition db_completed : Database :=
  after (Security.complete_visit clock 1 guard) db_approved.

Definition token : string := qr (Resident.qr_payload clock 1 42).

Definition approved_request : VisitRequest.t :=
  VisitRequest.mk 1 1 42 10%Z 600%Z "delivery" APPROVED (Some token) false None
    (Some 1000%Z) None None None None.

(** Jane has two pending requests to R42, for today and for tomorrow; R42
    denies both. *)
Definition db_two_pending : Database :=
  after (VisitorApi.register_visit_request jane_tomorrow) db_pending.
Definition db_denied_once : Database :=
  after (Resident.deny_visit_request clock 1 r42) db_two_pending.
Definition db_denied_twice : Database :=
  after (Resident.deny_visit_request clock 2 r42) db_denied_once.

(** A time-bounded ban of Jane by R42 that ran out at time 500. *)
Definition lapsed_entry : Blacklist.t :=
  Blacklist.mk 1 jane_phone "Jane" 42 "temporary ban" 42 true false (Some 500%Z)
    100%Z None None None.
Definition db_lapsed : Database := mkDatabase [r42; r7; guard] [] [] [lapsed_entry] [].

(** The Django store: an approved request whose arrival was recorded at
    time 100, and a security officer who records it again. *)
Definition arrived : Django.VisitRequest.t :=
  Django.VisitRequest.mk 5 1 42 APPROVED (Some 50%Z) (Some 100%Z) None (Some 3).
Definition gate : Django.Store := Django.mkStore [arrived] [].
Definition officer : Django.Request :=
  Django.mkRequest 3 role_security (Some 5) None.

Definition barred : Django.BlacklistedVisitor.t :=
  Django.BlacklistedVisitor.mk 1 1 42 "not expected".
Definition ledger : Django.Store := Django.mkStore [] [barred].
Definition manager : Django.Request := Django.mkRequest 9 role_admin None None.

End Scenario.

(** ** The state a transition leaves its request in *)

Definition target_state (t : Transition) : VisitStatus :=
  match t with
  | Approve => APPROVED
  | Deny => DENIED
  | Cancel => CANCELLED
  | Complete => COMPLETED
  end.

(** ** What a creation path files

    The relation between the store before and after a creation call for
    the given phone number: nothing, or one request under a fresh key
    together with the visitor row it resolves to. *)

Definition filed (phone : string) (db db' : Database) (r : VisitRequest.t) : Prop :=
  VisitRequest.id r = next_id (map VisitRequest.id (visit_requests db))
  /\ VisitRequest.visitor_id r = registering_visitor_id phone db
  /\ visit_requests db' = (visit_requests db ++ [r])%list
  /\ users db' = users db
  /\ blacklist db' = blacklist db
  /\ match visitor_by_phone phone db with
     | Some v =>
         exists v', Visitor.id v' = Visitor.id v
                    /\ Visitor.phone_number v' = Visitor.phone_number v
                    /\ (visitors db' = visitors db
                        \/ visitors db' = replace_row Visitor.id v' (visitors db))
     | None =>
         exists v', Visitor.id v' = next_id (map Visitor.id (visitors db))
                    /\ Visitor.phone_number v' = phone
                    /\ visitors db' = (visitors db ++ [v'])%list
     end.

Definition filed_by (phone : string) (db db' : Database) : Prop :=
  db' = db \/ exists r, filed phone db db' r.

(** ** [app/api/visitor.py]: the blacklist enquiry *)

Module VisitorEnquiry.

(** The answer of [check_blacklist_status]: [is_blacklisted] and, when it
    is set, the reason and the date of the entry. *)
Record BlacklistStatus := mkBlacklistStatus {
  is_blacklisted : bool;
  reason : option string;
  blacklisted_date : option Z
}.

Definition check_blacklist_status (phone_number : string) (resident_id : nat)
  : Handler BlacklistStatus :=
  blacklisted <- query (fun d =>
    find (blacklist_filter phone_number resident_id) (blacklist d)) ;;
  match blacklisted with
  | Some blacklisted =>
      ret (mkBlacklistStatus true (Some (Blacklist.reason blacklisted))
             (Some (Blacklist.created_at blacklisted)))
  | None => ret (mkBlacklistStatus false None None)
  end.

End VisitorEnquiry.

(** ** [app/api/resident.py] and [app/api/security.py]: reading notifications *)

(** [notification.is_read = True] on a loaded row. *)
Definition mark_read (n : Notification.t) : Notification.t :=
  Notification.mk (Notification.id n) (Notification.user_id n)
    (Notification.title n) (Notification.message n)
    (Notification.notification_type n) true.

(** The lookup of both handlers:
    [Notification.id == notification_id, user_id == current_user.id]. *)
Definition own_notification (notification_id : nat) (current_user : User.t)
    (d : Database) : option Notification.t :=
  find (fun n => (Notification.id n =? notification_id)
                 && (Notification.user_id n =? User.id current_user))
       (notifications d).

Module ResidentInbox.

Definition mark_notification_as_read (notification_id : nat) (current_user : User.t)
  : Handler string :=
  if Resident.access_denied current_user then
    raise HTTP_403_FORBIDDEN "Access denied."
  else
  found <- query (own_notification notification_id current_user) ;;
  match found with
  | None => raise HTTP_404_NOT_FOUND "Notification not found."
  | Some notification =>
  modify (fun d => set_notifications d
            (replace_row Notification.id (mark_read notification) (notifications d))) ;;
  commit ;;
  ret "Notification marked as read"
  end.

End ResidentInbox.

Module SecurityInbox.

Definition mark_notification_as_read (notification_id : nat) (current_user : User.t)
  : Handler string :=
  if Security.access_denied current_user then
    raise HTTP_403_FORBIDDEN "Access denied."
  else
  found <- query (own_notification notification_id current_user) ;;
  match found with
  | None => raise HTTP_404_NOT_FOUND "Notification not found."
  | Some notification =>
  modify (fun d => set_notifications d
            (replace_row Notification.id (mark_read notification) (notifications d))) ;;
  commit ;;
  ret "Notification marked as read"
  end.

End SecurityInbox.

From Stdlib Require Import Ascii.

(** ** Strings as Python has them

    A string is a sequence of code points below 256.  [str.isdigit] holds
    of the ten decimal digits and of the superscript digits one, two and
    three (code points 185, 178 and 179). *)

Definition isdigit (c : Ascii.ascii) : bool :=
  let n := Ascii.nat_of_ascii c in
  ((48 <=? n) && (n <=? 57)) || (n =? 178) || (n =? 179) || (n =? 185).

(** [''.join(c for c in s if keep(c))]. *)
Fixpoint keep_chars (keep : Ascii.ascii -> bool) (s : string) : string :=
  match s with
  | EmptyString => EmptyString
  | String c s' => if keep c then String c (keep_chars keep s') else keep_chars keep s'
  end.

(** [s.isdigit()]: every character is a digit and there is at least one. *)
Fixpoint all_chars (p : Ascii.ascii -> bool) (s : string) : bool :=
  match s with
  | EmptyString => true
  | String c s' => p c && all_chars p s'
  end.

Definition str_isdigit (s : string) : bool :=
  negb (String.eqb s "") && all_chars isdigit s.

(** [s.startswith(p)]. *)
Definition startswith (p s : string) : bool := String.prefix p s.

(** [c * n] for a one-character string. *)
Fixpoint repeat_char (c : Ascii.ascii) (n : nat) : string :=
  match n with
  | 0 => EmptyString
  | S n' => String c (repeat_char c n')
  end.

(** ** [app/schemas/visitor.py]: [VisitorBase] and [VisitorCreate] *)

Module VisitorBase.

(** The fields of the class.  [class VisitorCreate(VisitorBase): pass] adds
    none, so an instance of [VisitorCreate] is a [t]. *)
Record t := mk {
  full_name : string;
  phone_number : string;
  email : option string;
  id_number : option string;
  company : option string;
  purpose_of_visit : string
}.

(** The validator keeps the digits and raises [ValueError] when fewer than
    ten are left. *)
Definition validate_phone_number (v : string) : string + string :=
  let phone := keep_chars isdigit v in
  if String.length phone <? 10
  then inr "Phone number must be at least 10 digits"
  else inl phone.

End VisitorBase.

(** ** [app/api/resident.py]: [register_visitor] as its route runs it

    The route declares [visitor_data: visitor_schemas.VisitorCreate]: the
    framework builds the instance (the validators run then) and calls the
    function with it.  The function is the one of [Resident]; the reads of
    [name], [purpose], [visit_date] and [visit_time], which the class does
    not declare, raise.  Keyword arguments are evaluated left to right, so
    [Visitor(name=visitor_data.name, ...)] stops at [name] and
    [VisitRequest(..., visit_date=visitor_data.visit_date, ...)] at
    [visit_date]. *)

Module ResidentRoute.
Section WithQrCode.

Variable generate_qr_code : string -> string.

Variable clock : Clock.

Definition register_visitor (visitor_data : VisitorBase.t) (current_user : User.t)
  : Handler VisitRequest.t :=
  if Resident.access_denied current_user then
    raise HTTP_403_FORBIDDEN
      "Access denied. Only approved residents can register visitors."
  else
  blacklisted <- query (fun d =>
    find (blacklist_filter (VisitorBase.phone_number visitor_data)
                           (User.id current_user)) (blacklist d)) ;;
  match blacklisted with
  | Some _ =>
      raise HTTP_400_BAD_REQUEST
        "This visitor is blacklisted and cannot be registered."
  | None =>
  existing_visitor <- query (visitor_by_phone (VisitorBase.phone_number visitor_data)) ;;
  visitor_id <-
    match existing_visitor with
    | None =>
        name <- no_attribute "name" ;;
        purpose <- no_attribute "purpose" ;;
        add_visitor name
                    (VisitorBase.phone_number visitor_data)
                    (VisitorBase.email visitor_data)
                    (VisitorBase.id_number visitor_data)
                    purpose
    | Some v => ret (Visitor.id v)
    end ;;
  visit_date <- no_attribute "visit_date" ;;
  visit_time <- no_attribute "visit_time" ;;
  purpose <- no_attribute "purpose" ;;
  visit_request <- add_visit_request (fun k =>
    VisitRequest.mk k visitor_id (User.id current_user)
      visit_date visit_time purpose
      APPROVED
      (Some (generate_qr_code
               (Resident.qr_payload clock visitor_id (User.id current_user))))
      false None (Some (utcnow clock)) None None None None) ;;
  commit ;;
  security_users <- query security_users ;;
  for_each security_users (fun security_user =>
    name <- no_attribute "name" ;;
    create_notification (User.id security_user)
      "New Pre-Approved Visitor"
      ("Visitor " ++ name
       ++ " has been pre-approved by resident " ++ User.full_name current_user)
      "visitor_approved") ;;
  when (truthy (VisitorBase.email visitor_data))
    (visit_date <- no_attribute "visit_date" ;;
     send_email_notification
       (match VisitorBase.email visitor_data with Some e => e | None => "" end)
       "Visit Approved"
       ("Your visit to " ++ User.full_name current_user ++ " on "
        ++ str_Z visit_date
        ++ " has been approved. Please show the QR code at the gate.")) ;;
  ret visit_request
  end.

End WithQrCode.
End ResidentRoute.

Definition invite_denied_answer : HTTPException :=
  mkHTTPException HTTP_403_FORBIDDEN
    "Access denied. Only approved residents can register visitors.".

(** ** [app/utils/helpers.py]: [PhoneHelper] and [StringHelper] *)

Module PhoneHelper.

Definition format_kenyan_phone (phone : string) : string :=
  if String.eqb phone "" then "" else
  let cleaned :=
    keep_chars (fun c => isdigit c || Ascii.eqb c "+"%char) phone in
  if startswith "+254" cleaned then cleaned
  else if startswith "254" cleaned then "+" ++ cleaned
  else if startswith "0" cleaned then
    "+254" ++ String.substring 1 (String.length cleaned - 1) cleaned
  else if (String.length cleaned =? 9)
          && (startswith "7" cleaned || startswith "1" cleaned) then
    "+254" ++ cleaned
  else phone.

Definition is_valid_kenyan_phone (phone : string) : bool :=
  let formatted := format_kenyan_phone phone in
  if negb (String.length formatted =? 13) || negb (startswith "+254" formatted)
  then false
  else
  let remaining := String.substring 4 (String.length formatted - 4) formatted in
  if negb (str_isdigit remaining) || negb (String.length remaining =? 9)
  then false
  else
  match String.get 0 remaining with
  | Some c => Ascii.eqb c "7"%char || Ascii.eqb c "1"%char
  | None => false
  end.

End PhoneHelper.

Module StringHelper.

Definition mask_phone_number (phone : string) : string :=
  let n := String.length phone in
  if String.eqb phone "" || (n <? 4) then phone
  else if n <=? 6 then
    String.substring 0 2 phone ++ repeat_char "*"%char (n - 4)
    ++ String.substring (n - 2) 2 phone
  else
    String.substring 0 3 phone ++ repeat_char "*"%char (n - 6)
    ++ String.substring (n - 3) 3 phone.

End StringHelper.

(** ** Further sample data *)

Module Cases.

(** A store with two notifications, one for R42 and one for the guard. *)
Definition for_r42 : Notification.t :=
  Notification.mk 1 42 "New Visit Request" "New visit request from Jane for 10"
    "visit_request" false.
Definition for_guard : Notification.t :=
  Notification.mk 2 3 "Visit Request Approved"
    "Visitor Jane has been approved by resident R42" "visitor_approved" false.
Definition db_inbox : Database :=
  mkDatabase [Scenario.r42; Scenario.r7; Scenario.guard] [] [] []
    [for_r42; for_guard].

Definition jane : Visitor.t :=
  Visitor.mk 1 "Jane" Scenario.jane_phone None None "delivery".
Definition pending_request : VisitRequest.t :=
  VisitRequest.mk 1 1 42 10%Z 600%Z "delivery" PENDING None false None
    None None None None None.
Definition denied_request : VisitRequest.t :=
  VisitRequest.mk 1 1 42 10%Z 600%Z "delivery" DENIED None false None
    None (Some 1000%Z) None None None.

(** A second resident-and-visitor pair on the same store as Jane's
    pending request. *)
Definition bob : Visitor.t := Visitor.mk 2 "Bob" "+15559999" None None "repairs".
Definition bobs_request : VisitRequest.t :=
  VisitRequest.mk 2 2 7 10%Z 700%Z "repairs" PENDING None false None
    None None None None None.
Definition db_two_residents : Database :=
  mkDatabase [Scenario.r42; Scenario.r7; Scenario.guard] [jane; bob]
    [pending_request; bobs_request] [] [].

Definition permanent_ban : Blacklist.t :=
  Blacklist.mk 1 Scenario.jane_phone "Jane" 42 "not expected" 42 true true None
    100%Z None None None.
Definition open_ended_ban : Blacklist.t :=
  Blacklist.mk 2 Scenario.jane_phone "Jane" 42 "for now" 42 true false None
    100%Z None None None.

(** The Django store after a departure was recorded. *)
Definition departed : Django.VisitRequest.t :=
  Django.VisitRequest.mk 5 1 42 APPROVED (Some 50%Z) (Some 100%Z) (Some 300%Z) (Some 3).

(** What R42 posts to [/register-visitor] to invite Jane Doe: a body that
    the validators of [VisitorBase] pass as it stands. *)
Definition posted : VisitorBase.t :=
  VisitorBase.mk "Jane Doe" "0712345678" None None None "Delivery".

(** The estate with Jane Doe already in the visitor directory. *)
Definition jane_doe : Visitor.t :=
  Visitor.mk 1 "Jane Doe" "0712345678" None None "Delivery".
Definition db_known : Database :=
  mkDatabase [Scenario.r42; Scenario.r7; Scenario.guard] [jane_doe] [] [] [].

End Cases.

(** * Properties *)

(** ** Running handlers *)

Lemma VisitStatus_eqb_eq (a b : VisitStatus) : VisitStatus_eqb a b = true <-> a = b.
Proof. destruct a, b; simpl; split; intro H; congruence. Qed.

Lemma VisitStatus_eqb_refl (a : VisitStatus) : VisitStatus_eqb a a = true.
Proof. now apply VisitStatus_eqb_eq. Qed.

(** Symbolic execution of a handler up to the next test on the store. *)
Ltac step_handler :=
  cbv beta iota zeta delta [serve bind query raise ret attribute_error];
  cbn [work stored outbox].

(** A request fails the state check of a transition without a trace. *)
Lemma wrong_state_is_refused generate_qr_code clock t c db r :
  addressed t c db = Some r ->
  VisitStatus_eqb (VisitRequest.status r) (source_state t) = false ->
  serve (invoke generate_qr_code clock t c) db = (Raised (InvalidTransition t), db).
Proof.
  destruct t; simpl; intros Ha Hs.
  - unfold Resident.approve_visit_request.
    destruct (Resident.access_denied (actor c)); [discriminate|].
    step_handler. rewrite Ha, Hs. reflexivity.
  - unfold Resident.deny_visit_request.
    destruct (Resident.access_denied (actor c)); [discriminate|].
    step_handler. rewrite Ha, Hs. reflexivity.
  - unfold VisitorApi.cancel_visit_request. step_handler.
    destruct (Security.request_by_id (request_id c) db) as [r'|]; [|discriminate].
    step_handler.
    destruct (VisitorApi.owning_visitor (VisitRequest.visitor_id r') (phone_number c) db);
      [|discriminate].
    injection Ha as ->. rewrite Hs. reflexivity.
  - unfold Security.complete_visit.
    destruct (Security.access_denied (actor c)); [discriminate|].
    step_handler. rewrite Ha, Hs. reflexivity.
Qed.

(** A call that reaches no request (unknown id, foreign request, wrong
    role, wrong phone number) is refused without a trace as well. *)
Lemma unaddressed_is_refused generate_qr_code clock t c db :
  addressed t c db = None ->
  exists e, serve (invoke generate_qr_code clock t c) db = (Raised e, db).
Proof.
  destruct t; simpl; intros Ha.
  - unfold Resident.approve_visit_request.
    destruct (Resident.access_denied (actor c)); [eexists; reflexivity|].
    step_handler. rewrite Ha. eexists; reflexivity.
  - unfold Resident.deny_visit_request.
    destruct (Resident.access_denied (actor c)); [eexists; reflexivity|].
    step_handler. rewrite Ha. eexists; reflexivity.
  - unfold VisitorApi.cancel_visit_request. step_handler.
    destruct (Security.request_by_id (request_id c) db) as [r'|];
      [|eexists; reflexivity].
    step_handler.
    destruct (VisitorApi.owning_visitor (VisitRequest.visitor_id r') (phone_number c) db);
      [discriminate|eexists; reflexivity].
  - unfold Security.complete_visit.
    destruct (Security.access_denied (actor c)); [eexists; reflexivity|].
    step_handler. rewrite Ha. eexists; reflexivity.
Qed.

(** C1, first half: a transition that answers normally, or that changes
    the store at all, found its request in the source state. *)
Lemma effect_needs_source_state generate_qr_code clock t c db out db' :
  serve (invoke generate_qr_code clock t c) db = (out, db') ->
  (exists msg, out = Returned msg) \/ db' <> db ->
  exists r, addressed t c db = Some r /\ VisitRequest.status r = source_state t.
Proof.
  intros Hrun Heff.
  destruct (addressed t c db) as [r|] eqn:Ha.
  - destruct (VisitStatus_eqb (VisitRequest.status r) (source_state t)) eqn:Hs.
    + exists r. split; [reflexivity|]. now apply VisitStatus_eqb_eq.
    + rewrite (wrong_state_is_refused generate_qr_code clock t c db r Ha Hs) in Hrun.
      injection Hrun as <- <-.
      destruct Heff as [[msg Hmsg]|Hne]; [discriminate|congruence].
  - destruct (unaddressed_is_refused generate_qr_code clock t c db Ha) as [e He].
    rewrite He in Hrun. injection Hrun as <- <-.
    destruct Heff as [[msg Hmsg]|Hne]; [discriminate|congruence].
Qed.

(** C1. Approve, Deny and Cancel take effect only on a pending request and
    Complete only on an approved one: a call that answers normally or
    changes the store found its request in the source state, and a call on
    a request in any other state is answered with the handler's
    invalid-transition error (status 400) while the whole store, hence the
    request's status, timestamps and token, stays as it was. *)
Theorem transitions_only_from_source_state
    (generate_qr_code : string -> string) (clock : Clock)
    (t : Transition) (c : Call) (db : Database) :
  (forall out db',
      serve (invoke generate_qr_code clock t c) db = (out, db') ->
      (exists msg, out = Returned msg) \/ db' <> db ->
      exists r, addressed t c db = Some r
                /\ VisitRequest.status r = source_state t)
  /\ (forall r,
      addressed t c db = Some r ->
      VisitStatus_eqb (VisitRequest.status r) (source_state t) = false ->
      serve (invoke generate_qr_code clock t c) db
      = (Raised (InvalidTransition t), db)).
Proof.
  split.
  - intros out db'. apply effect_needs_source_state.
  - intros r. apply wrong_state_is_refused.
Qed.

Lemma transitions_only_from_source_state_witness :
  (exists r, addressed Approve (mkCall 1 Scenario.r42 "") Scenario.db_pending = Some r
             /\ VisitRequest.status r = source_state Approve)
  /\ serve (invoke Scenario.qr Scenario.clock Approve (mkCall 1 Scenario.r42 ""))
           Scenario.db_approved
     = (Raised (InvalidTransition Approve), Scenario.db_approved).
Proof.
  split.
  - apply (proj1 (transitions_only_from_source_state Scenario.qr Scenario.clock
                    Approve (mkCall 1 Scenario.r42 "") Scenario.db_pending)
             (Returned "Visit request approved successfully") Scenario.db_approved).
    + vm_compute. reflexivity.
    + left. exists "Visit request approved successfully". reflexivity.
  - apply (proj2 (transitions_only_from_source_state Scenario.qr Scenario.clock
                    Approve (mkCall 1 Scenario.r42 "") Scenario.db_approved)
             Scenario.approved_request).
    + vm_compute. reflexivity.
    + reflexivity.
Defined.

(** ** Facts about table lookups *)

Lemma find_none_of {A} (f : A -> bool) (l : list A) :
  (forall x, In x l -> f x = false) -> find f l = None.
Proof.
  induction l as [|a l IH]; simpl; intros H; [reflexivity|].
  rewrite (H a (or_introl eq_refl)). apply IH. intros x Hx. apply H. now right.
Qed.

Lemma find_none_iff {A} (f : A -> bool) (l : list A) :
  find f l = None <-> forall x, In x l -> f x = false.
Proof. split; [apply find_none | apply find_none_of]. Qed.

Lemma find_some_ex {A} (f : A -> bool) (l : list A) (x : A) :
  In x l -> f x = true -> exists y, find f l = Some y.
Proof.
  intros Hin Hf. destruct (find f l) as [y|] eqn:E; [now exists y|].
  rewrite (find_none f l E x Hin) in Hf. discriminate.
Qed.

Lemma In_replace_row {A} (key : A -> nat) (row x : A) (rows : list A) :
  In x (replace_row key row rows) ->
  x = row \/ (In x rows /\ key x <> key row).
Proof.
  unfold replace_row. rewrite in_map_iff. intros [y [Hy Hin]].
  destruct (Nat.eqb_spec (key y) (key row)) as [E|E].
  - now left.
  - right. subst x. split; assumption.
Qed.

(** ** Verification of a presented token *)

Section Verification.
Variable clock : Clock.
Variable qr_code : string.
Variable current_user : User.t.

Local Abbreviation verify := (Security.verify_visitor_qr clock qr_code current_user).

Lemma verify_leaves_session (s : Session) : snd (verify s) = s.
Proof.
  unfold verify, Security.verify_visitor_qr.
  destruct (Security.access_denied current_user); [reflexivity|].
  step_handler.
  destruct (Security.approved_with_qr qr_code (work s)) as [r|]; [|reflexivity].
  destruct (negb (VisitRequest.visit_date r =? today clock)%Z); reflexivity.
Qed.

Lemma verify_leaves_store (db : Database) : snd (serve verify db) = db.
Proof.
  unfold serve.
  pose proof (verify_leaves_session (mkSession db db [])) as H.
  destruct (verify (mkSession db db [])) as [out s']. simpl in *. now subst s'.
Qed.

Lemma approved_with_qr_none (db : Database) :
  Security.approved_with_qr qr_code db = None <->
  forall r, In r (visit_requests db) ->
            VisitRequest.qr_code r = Some qr_code -> VisitRequest.status r <> APPROVED.
Proof.
  unfold Security.approved_with_qr. rewrite find_none_iff. split.
  - intros H r Hin Hq Hs. specialize (H r Hin).
    rewrite Hq, Hs, String.eqb_refl in H. discriminate.
  - intros H r Hin. specialize (H r Hin).
    destruct (VisitRequest.qr_code r) as [q|]; [|reflexivity].
    destruct (String.eqb_spec q qr_code) as [->|]; [|reflexivity].
    destruct (VisitStatus_eqb (VisitRequest.status r) APPROVED) eqn:E; [|reflexivity].
    apply VisitStatus_eqb_eq in E. now elim (H eq_refl).
Qed.

Lemma approved_with_qr_some (db : Database) (r : VisitRequest.t) :
  Security.approved_with_qr qr_code db = Some r ->
  In r (visit_requests db) /\ VisitRequest.qr_code r = Some qr_code
  /\ VisitRequest.status r = APPROVED.
Proof.
  unfold Security.approved_with_qr. intros H. apply find_some in H as [Hin Hf].
  apply andb_prop in Hf as [Hq Hs]. apply VisitStatus_eqb_eq in Hs.
  destruct (VisitRequest.qr_code r) as [q|]; [|discriminate].
  apply String.eqb_eq in Hq. subst q. auto.
Qed.

Lemma verify_run (db : Database) :
  Security.access_denied current_user = false ->
  serve verify db =
  match Security.approved_with_qr qr_code db with
  | None => (Raised not_found_answer, db)
  | Some r =>
      if (VisitRequest.visit_date r =? today clock)%Z
      then (Returned (verified db r), db)
      else (Raised not_today_answer, db)
  end.
Proof.
  intros Hacc. unfold verify, Security.verify_visitor_qr. rewrite Hacc.
  step_handler.
  destruct (Security.approved_with_qr qr_code db) as [r|]; [|reflexivity].
  destruct (VisitRequest.visit_date r =? today clock)%Z; reflexivity.
Qed.

End Verification.

(** C10. Verification changes nothing: the session it runs in (committed
    store, working copy and outgoing mail) is the same afterwards whether
    it succeeds or fails, so the store after the request is the store
    before it; a second call therefore gives the answer of the first, and
    for the token of an approved request scheduled today both calls return
    the same visitor, resident and request. *)
Theorem verify_is_mutation_free
    (clock : Clock) (qr_code : string) (current_user : User.t) :
  (forall s, snd (Security.verify_visitor_qr clock qr_code current_user s) = s)
  /\ (forall db,
        snd (serve (Security.verify_visitor_qr clock qr_code current_user) db) = db)
  /\ (forall db out db',
        serve (Security.verify_visitor_qr clock qr_code current_user) db = (out, db') ->
        serve (Security.verify_visitor_qr clock qr_code current_user) db' = (out, db'))
  /\ (forall db r,
        Security.access_denied current_user = false ->
        Security.approved_with_qr qr_code db = Some r ->
        VisitRequest.visit_date r = today clock ->
        serve (Security.verify_visitor_qr clock qr_code current_user) db
        = (Returned (verified db r), db)
        /\ serve (Security.verify_visitor_qr clock qr_code current_user)
             (snd (serve (Security.verify_visitor_qr clock qr_code current_user) db))
           = (Returned (verified db r), db)).
Proof.
  split; [apply verify_leaves_session|].
  split; [apply verify_leaves_store|].
  split.
  - intros db out db' H.
    pose proof (verify_leaves_store clock qr_code current_user db) as Hs.
    rewrite H in Hs. simpl in Hs. subst db'. exact H.
  - intros db r Hacc Hq Hd.
    rewrite verify_leaves_store.
    rewrite (verify_run clock qr_code current_user db Hacc), Hq, Hd, Z.eqb_refl.
    split; reflexivity.
Qed.

Lemma verify_is_mutation_free_witness :
  serve (Security.verify_visitor_qr Scenario.clock Scenario.token Scenario.guard)
        Scenario.db_approved
  = (Returned (verified Scenario.db_approved Scenario.approved_request),
     Scenario.db_approved)
  /\ serve (Security.verify_visitor_qr Scenario.clock Scenario.token Scenario.guard)
           (snd (serve (Security.verify_visitor_qr Scenario.clock Scenario.token
                          Scenario.guard) Scenario.db_approved))
     = (Returned (verified Scenario.db_approved Scenario.approved_request),
        Scenario.db_approved).
Proof.
  apply (proj2 (proj2 (proj2
           (verify_is_mutation_free Scenario.clock Scenario.token Scenario.guard)))
           Scenario.db_approved Scenario.approved_request).
  - reflexivity.
  - vm_compute. reflexivity.
  - reflexivity.
Defined.

(** ** Completion, and verification after it *)

Lemma complete_run clock k current_user db r :
  Security.access_denied current_user = false ->
  Security.request_by_id k db = Some r ->
  VisitRequest.status r = APPROVED ->
  serve (Security.complete_visit clock k current_user) db
  = (Returned "Visit marked as completed",
     set_visit_requests db
       (replace_row VisitRequest.id
          (VisitRequest.set_completed_by
             (VisitRequest.set_completed_at
                (VisitRequest.set_status r COMPLETED) (Some (utcnow clock)))
             (Some (User.id current_user)))
          (visit_requests db))).
Proof.
  intros Hacc Hr Hs. unfold Security.complete_visit. rewrite Hacc.
  step_handler. rewrite Hr, Hs. reflexivity.
Qed.

Lemma request_by_id_key k db r :
  Security.request_by_id k db = Some r -> VisitRequest.id r = k.
Proof.
  unfold Security.request_by_id. intros H. apply find_some in H as [_ H].
  now apply Nat.eqb_eq.
Qed.

(** The token of a completed request no longer matches the lookup. *)
Lemma completed_token_unknown clock k current_user db r qr_code :
  Security.access_denied current_user = false ->
  Security.request_by_id k db = Some r ->
  VisitRequest.status r = APPROVED ->
  (forall r', In r' (visit_requests db) ->
              VisitRequest.qr_code r' = Some qr_code -> VisitRequest.id r' = k) ->
  Security.approved_with_qr qr_code
    (snd (serve (Security.complete_visit clock k current_user) db)) = None.
Proof.
  intros Hacc Hr Hs Huniq.
  rewrite (complete_run clock k current_user db r Hacc Hr Hs).
  apply approved_with_qr_none. cbn [snd set_visit_requests visit_requests].
  intros x Hin Hq.
  apply In_replace_row in Hin as [->|[Hin Hkey]].
  - simpl. discriminate.
  - cbn [VisitRequest.set_completed_by VisitRequest.set_completed_at
         VisitRequest.set_status VisitRequest.id] in Hkey.
    rewrite (request_by_id_key k db r Hr) in Hkey.
    elim Hkey. now apply Huniq.
Qed.

(** C4, as the handler has it. For a caller who passes the role check:
    verification answers with the not-found error (status 404) exactly when
    no approved request carries the token, be the token unknown or its
    request no longer approved; otherwise the first approved request that
    carries the token decides: scheduled today, the visitor, resident and
    request are returned, and on any other day the answer is the not-today
    error (status 400).  The store is unchanged in every case.  After
    Complete on the request that alone carries the token, verification
    answers with the not-found error, on the same day as on any other. *)
Theorem verify_answers
    (clock : Clock) (qr_code : string) (current_user : User.t) (db : Database) :
  Security.access_denied current_user = false ->
  ((forall r, In r (visit_requests db) ->
              VisitRequest.qr_code r = Some qr_code ->
              VisitRequest.status r <> APPROVED)
   <-> serve (Security.verify_visitor_qr clock qr_code current_user) db
       = (Raised not_found_answer, db))
  /\ (forall r,
        Security.approved_with_qr qr_code db = Some r ->
        In r (visit_requests db)
        /\ VisitRequest.qr_code r = Some qr_code
        /\ VisitRequest.status r = APPROVED
        /\ serve (Security.verify_visitor_qr clock qr_code current_user) db
           = if (VisitRequest.visit_date r =? today clock)%Z
             then (Returned (verified db r), db)
             else (Raised not_today_answer, db))
  /\ (forall clock' k r,
        Security.request_by_id k db = Some r ->
        VisitRequest.status r = APPROVED ->
        VisitRequest.qr_code r = Some qr_code ->
        (forall r', In r' (visit_requests db) ->
                    VisitRequest.qr_code r' = Some qr_code ->
                    VisitRequest.id r' = k) ->
        serve (Security.verify_visitor_qr clock qr_code current_user)
              (snd (serve (Security.complete_visit clock' k current_user) db))
        = (Raised not_found_answer,
           snd (serve (Security.complete_visit clock' k current_user) db))).
Proof.
  intros Hacc. split; [|split].
  - rewrite <- approved_with_qr_none, (verify_run clock qr_code current_user db Hacc).
    split.
    + intros ->. reflexivity.
    + destruct (Security.approved_with_qr qr_code db) as [r|]; [|reflexivity].
      destruct (VisitRequest.visit_date r =? today clock)%Z; discriminate.
  - intros r Hr.
    destruct (approved_with_qr_some qr_code db r Hr) as [Hin [Hq Hs]].
    repeat split; try assumption.
    rewrite (verify_run clock qr_code current_user db Hacc), Hr. reflexivity.
  - intros clock' k r Hr Hs Hq Huniq.
    rewrite (verify_run clock qr_code current_user _ Hacc).
    rewrite (completed_token_unknown clock' k current_user db r qr_code Hacc Hr Hs Huniq).
    reflexivity.
Qed.

Lemma verify_answers_witness :
  serve (Security.verify_visitor_qr Scenario.clock Scenario.token Scenario.guard)
        (snd (serve (Security.complete_visit Scenario.clock 1 Scenario.guard)
                Scenario.db_approved))
  = (Raised not_found_answer,
     snd (serve (Security.complete_visit Scenario.clock 1 Scenario.guard)
            Scenario.db_approved)).
Proof.
  apply (proj2 (proj2 (verify_answers Scenario.clock Scenario.token Scenario.guard
                         Scenario.db_approved eq_refl))
           Scenario.clock 1 Scenario.approved_request).
  - vm_compute. reflexivity.
  - reflexivity.
  - reflexivity.
  - intros r' Hin Hq. vm_compute in Hin.
    destruct Hin as [<-|[]]. reflexivity.
Defined.

(** C4 as stated fails: on the day of the visit, right after Complete,
    the token of the completed request and a token no request carries get
    the very same answer, the not-found error; there is no separate
    not-approved answer. *)
Lemma verify_after_complete_not_distinguished :
  (exists r, In r (visit_requests Scenario.db_completed)
             /\ VisitRequest.qr_code r = Some Scenario.token
             /\ VisitRequest.status r = COMPLETED
             /\ VisitRequest.visit_date r = today Scenario.clock)
  /\ (forall r, In r (visit_requests Scenario.db_completed) ->
                VisitRequest.qr_code r <> Some "no such token")
  /\ fst (serve (Security.verify_visitor_qr Scenario.clock Scenario.token
                   Scenario.guard) Scenario.db_completed)
     = Raised not_found_answer
  /\ fst (serve (Security.verify_visitor_qr Scenario.clock "no such token"
                   Scenario.guard) Scenario.db_completed)
     = Raised not_found_answer.
Proof.
  split; [|split; [|split]].
  - eexists. split; [left; reflexivity|]. vm_compute. auto.
  - intros r Hin. vm_compute in Hin. destruct Hin as [<-|[]]. discriminate.
  - vm_compute. reflexivity.
  - vm_compute. reflexivity.
Qed.

(** ** Notification fan-out *)

Lemma set_notifications_same (d : Database) : set_notifications d (notifications d) = d.
Proof. now destruct d. Qed.

(** A loop of [create_notification] calls, started on a committed session,
    ends on a committed session that differs in the notification table
    only. *)
Lemma for_each_create_notification {A} (l : list A) (recipient : A -> nat)
    (title : string) (message : A -> string) (notification_type : string) :
  forall s, stored s = work s ->
  exists n,
    for_each l (fun x => create_notification (recipient x) title (message x)
                           notification_type) s
    = (Returned tt,
       mkSession (set_notifications (work s) n) (set_notifications (work s) n)
                 (outbox s)).
Proof.
  induction l as [|x l IH]; intros s Hs.
  - exists (notifications (work s)). rewrite set_notifications_same.
    destruct s as [st w o]. simpl in *. now subst.
  - cbn [for_each]. unfold bind at 1.
    unfold create_notification at 1. step_handler. unfold modify, commit.
    cbn [work stored outbox].
    match goal with
    | |- context [for_each l ?f ?s1] => destruct (IH s1 eq_refl) as [n Hn]
    end.
    exists n. rewrite Hn. reflexivity.
Qed.

(** The optional mail at the end of a handler leaves the store alone. *)
Lemma when_send_email (c : bool) (to subj msg : string) (s : Session) :
  exists o, when c (send_email_notification to subj msg) s
            = (Returned tt, mkSession (stored s) (work s) o).
Proof.
  destruct c; simpl.
  - eexists. reflexivity.
  - exists (outbox s). now destruct s.
Qed.

(** ** Creation paths *)

Ltac finish_fan_out :=
  repeat match goal with
  | |- context [for_each ?l (fun x => create_notification (@?u x) ?t (@?m x) ?ty) ?s] =>
      let n := fresh "n" in let Hn := fresh "Hn" in
      destruct (for_each_create_notification l u t m ty s eq_refl) as [n Hn];
      cbn beta in Hn; rewrite Hn; clear Hn; cbn [work stored outbox]
  | |- context [when ?c (send_email_notification ?a ?b ?m) ?s] =>
      let o := fresh "o" in let Ho := fresh "Ho" in
      destruct (when_send_email c a b m s) as [o Ho];
      rewrite Ho; clear Ho; cbn [work stored outbox]
  end.

(** What the code of [register_visitor] sets out to do: on an object that
    carries every attribute it reads, and once past the role and blacklist
    checks, it files an approved request that carries a token. *)
Lemma register_visitor_run generate_qr_code clock visitor_data current_user db :
  Resident.access_denied current_user = false ->
  find (blacklist_filter (VisitorCreate.phone_number visitor_data)
                         (User.id current_user)) (blacklist db) = None ->
  exists r db',
    serve (Resident.register_visitor generate_qr_code clock visitor_data current_user) db
    = (Returned r, db')
    /\ VisitRequest.status r = APPROVED
    /\ VisitRequest.qr_code r
       = Some (generate_qr_code
                 (Resident.qr_payload clock
                    (registering_visitor_id (VisitorCreate.phone_number visitor_data) db)
                    (User.id current_user)))
    /\ VisitRequest.approved_at r = Some (utcnow clock)
    /\ VisitRequest.resident_id r = User.id current_user
    /\ visit_requests db' = (visit_requests db ++ [r])%list.
Proof.
  intros Hacc Hbl. unfold Resident.register_visitor. rewrite Hacc.
  step_handler. rewrite Hbl. step_handler.
  unfold registering_visitor_id.
  destruct (visitor_by_phone (VisitorCreate.phone_number visitor_data) db) as [v|].
  - unfold add_visit_request, commit, modify. step_handler.
    finish_fan_out.
    eexists. eexists. split; [reflexivity|]. repeat split.
  - unfold add_visitor, add_visit_request, commit, modify. step_handler.
    finish_fan_out.
    eexists. eexists. split; [reflexivity|]. repeat split.
Qed.

(** A visitor's own registration, once past the resident, blacklist and
    duplicate checks, files a pending request without a token. *)
Lemma register_visit_request_run visit_data db resident :
  approved_resident (VisitorRegistrationCreate.resident_id visit_data) db = Some resident ->
  find (blacklist_filter (VisitorRegistrationCreate.phone_number visit_data)
                         (VisitorRegistrationCreate.resident_id visit_data))
       (blacklist db) = None ->
  VisitorApi.duplicate_pending
    (registering_visitor_id (VisitorRegistrationCreate.phone_number visit_data) db)
    (VisitorRegistrationCreate.resident_id visit_data)
    (VisitorRegistrationCreate.visit_date visit_data) db = None ->
  exists r db',
    serve (VisitorApi.register_visit_request visit_data) db = (Returned r, db')
    /\ VisitRequest.status r = PENDING
    /\ VisitRequest.qr_code r = None
    /\ VisitRequest.is_walk_in r = false
    /\ VisitRequest.visitor_id r
       = registering_visitor_id (VisitorRegistrationCreate.phone_number visit_data) db
    /\ VisitRequest.resident_id r = VisitorRegistrationCreate.resident_id visit_data
    /\ VisitRequest.visit_date r = VisitorRegistrationCreate.visit_date visit_data
    /\ visit_requests db' = (visit_requests db ++ [r])%list.
Proof.
  intros Hres Hbl. unfold VisitorApi.register_visit_request.
  step_handler. rewrite Hres. step_handler. rewrite Hbl. step_handler.
  unfold registering_visitor_id.
  destruct (visitor_by_phone (VisitorRegistrationCreate.phone_number visit_data) db)
    as [v|]; intros Hdup.
  - unfold save_visitor, modify. step_handler.
    unfold VisitorApi.duplicate_pending in *.
    cbn [set_visitors visit_requests]. rewrite Hdup.
    unfold create_notification, add_visit_request, commit, modify. step_handler.
    finish_fan_out.
    eexists. eexists. split; [reflexivity|]. repeat split.
  - unfold add_visitor, modify. step_handler.
    unfold VisitorApi.duplicate_pending in *.
    cbn [set_visitors visit_requests]. rewrite Hdup.
    unfold create_notification, add_visit_request, commit, modify. step_handler.
    finish_fan_out.
    eexists. eexists. split; [reflexivity|]. repeat split.
Qed.

(** The same registration with a pending request for the tuple on file is
    turned away and nothing is stored. *)
Lemma register_visit_request_duplicate visit_data db resident dup :
  approved_resident (VisitorRegistrationCreate.resident_id visit_data) db = Some resident ->
  find (blacklist_filter (VisitorRegistrationCreate.phone_number visit_data)
                         (VisitorRegistrationCreate.resident_id visit_data))
       (blacklist db) = None ->
  VisitorApi.duplicate_pending
    (registering_visitor_id (VisitorRegistrationCreate.phone_number visit_data) db)
    (VisitorRegistrationCreate.resident_id visit_data)
    (VisitorRegistrationCreate.visit_date visit_data) db = Some dup ->
  serve (VisitorApi.register_visit_request visit_data) db
  = (Raised duplicate_answer, db).
Proof.
  intros Hres Hbl. unfold VisitorApi.register_visit_request.
  step_handler. rewrite Hres. step_handler. rewrite Hbl. step_handler.
  unfold registering_visitor_id.
  destruct (visitor_by_phone (VisitorRegistrationCreate.phone_number visit_data) db)
    as [v|]; intros Hdup.
  - unfold save_visitor, modify. step_handler.
    unfold VisitorApi.duplicate_pending in *.
    cbn [set_visitors visit_requests]. rewrite Hdup. reflexivity.
  - unfold add_visitor, modify. step_handler.
    unfold VisitorApi.duplicate_pending in *.
    cbn [set_visitors visit_requests]. rewrite Hdup. reflexivity.
Qed.

(** A walk-in recorded at the gate, once past the role, blacklist and
    resident checks, files a pending request without a token, marked as a
    walk-in and signed by the recording officer. *)
Lemma record_walk_in_entry_run clock visitor_data current_user db resident :
  Security.access_denied current_user = false ->
  find (blacklist_filter (VisitorWalkInCreate.phone_number visitor_data)
                         (VisitorWalkInCreate.resident_id visitor_data))
       (blacklist db) = None ->
  approved_resident (VisitorWalkInCreate.resident_id visitor_data) db = Some resident ->
  exists r db',
    serve (Security.record_walk_in_entry clock visitor_data current_user) db
    = (Returned r, db')
    /\ VisitRequest.status r = PENDING
    /\ VisitRequest.qr_code r = None
    /\ VisitRequest.is_walk_in r = true
    /\ VisitRequest.recorded_by r = Some (User.id current_user)
    /\ VisitRequest.resident_id r = VisitorWalkInCreate.resident_id visitor_data
    /\ visit_requests db' = (visit_requests db ++ [r])%list.
Proof.
  intros Hacc Hbl Hres. unfold Security.record_walk_in_entry. rewrite Hacc.
  step_handler. rewrite Hbl. step_handler. rewrite Hres. step_handler.
  destruct (visitor_by_phone (VisitorWalkInCreate.phone_number visitor_data) db) as [v|].
  - unfold create_notification, add_visit_request, commit, modify. step_handler.
    finish_fan_out.
    eexists. eexists. split; [reflexivity|]. repeat split.
  - unfold create_notification, add_visitor, add_visit_request, commit, modify.
    step_handler. finish_fan_out.
    eexists. eexists. split; [reflexivity|]. repeat split.
Qed.

(** Whenever the function, called on such an object, hands back a request,
    it is that approved request, appended to the table. *)
Lemma register_visitor_returned generate_qr_code clock visitor_data current_user db r db' :
  serve (Resident.register_visitor generate_qr_code clock visitor_data current_user) db
  = (Returned r, db') ->
  VisitRequest.status r = APPROVED
  /\ (exists token, VisitRequest.qr_code r = Some token)
  /\ VisitRequest.approved_at r = Some (utcnow clock)
  /\ visit_requests db' = (visit_requests db ++ [r])%list.
Proof.
  intros Hrun.
  destruct (Resident.access_denied current_user) eqn:Hacc.
  { unfold Resident.register_visitor in Hrun. rewrite Hacc in Hrun. discriminate. }
  destruct (find (blacklist_filter (VisitorCreate.phone_number visitor_data)
                    (User.id current_user)) (blacklist db)) eqn:Hbl.
  { unfold Resident.register_visitor in Hrun. rewrite Hacc in Hrun.
    revert Hrun. step_handler. rewrite Hbl. discriminate. }
  destruct (register_visitor_run generate_qr_code clock visitor_data current_user db
              Hacc Hbl) as [r0 [db0 [Hrun0 [Hs [Hq [Ha [_ Hreq]]]]]]].
  rewrite Hrun0 in Hrun. injection Hrun as <- <-.
  repeat split; try assumption. eexists; exact Hq.
Qed.

Lemma register_visit_request_returned visit_data db r db' :
  serve (VisitorApi.register_visit_request visit_data) db = (Returned r, db') ->
  VisitRequest.status r = PENDING
  /\ VisitRequest.qr_code r = None
  /\ VisitRequest.is_walk_in r = false
  /\ visit_requests db' = (visit_requests db ++ [r])%list.
Proof.
  intros Hrun.
  destruct (approved_resident (VisitorRegistrationCreate.resident_id visit_data) db)
    as [resident|] eqn:Hres.
  2:{ revert Hrun. unfold VisitorApi.register_visit_request. step_handler.
      rewrite Hres. discriminate. }
  destruct (find (blacklist_filter (VisitorRegistrationCreate.phone_number visit_data)
                    (VisitorRegistrationCreate.resident_id visit_data))
              (blacklist db)) eqn:Hbl.
  { revert Hrun. unfold VisitorApi.register_visit_request. step_handler.
    rewrite Hres. step_handler. rewrite Hbl. discriminate. }
  destruct (VisitorApi.duplicate_pending
              (registering_visitor_id (VisitorRegistrationCreate.phone_number visit_data) db)
              (VisitorRegistrationCreate.resident_id visit_data)
              (VisitorRegistrationCreate.visit_date visit_data) db) as [dup|] eqn:Hdup.
  { rewrite (register_visit_request_duplicate visit_data db resident dup Hres Hbl Hdup) in Hrun.
    discriminate. }
  destruct (register_visit_request_run visit_data db resident Hres Hbl Hdup)
    as [r0 [db0 [Hrun0 [Hs [Hq [Hw [_ [_ [_ Hreq]]]]]]]]].
  rewrite Hrun0 in Hrun. injection Hrun as <- <-. auto.
Qed.

Lemma record_walk_in_entry_returned clock visitor_data current_user db r db' :
  serve (Security.record_walk_in_entry clock visitor_data current_user) db
  = (Returned r, db') ->
  VisitRequest.status r = PENDING
  /\ VisitRequest.qr_code r = None
  /\ VisitRequest.is_walk_in r = true
  /\ VisitRequest.recorded_by r = Some (User.id current_user)
  /\ visit_requests db' = (visit_requests db ++ [r])%list.
Proof.
  intros Hrun.
  destruct (Security.access_denied current_user) eqn:Hacc.
  { unfold Security.record_walk_in_entry in Hrun. rewrite Hacc in Hrun. discriminate. }
  destruct (find (blacklist_filter (VisitorWalkInCreate.phone_number visitor_data)
                    (VisitorWalkInCreate.resident_id visitor_data))
              (blacklist db)) eqn:Hbl.
  { unfold Security.record_walk_in_entry in Hrun. rewrite Hacc in Hrun.
    revert Hrun. step_handler. rewrite Hbl. discriminate. }
  destruct (approved_resident (VisitorWalkInCreate.resident_id visitor_data) db)
    as [resident|] eqn:Hres.
  2:{ unfold Security.record_walk_in_entry in Hrun. rewrite Hacc in Hrun.
      revert Hrun. step_handler. rewrite Hbl. step_handler. rewrite Hres.
      discriminate. }
  destruct (record_walk_in_entry_run clock visitor_data current_user db resident Hacc Hbl Hres)
    as [r0 [db0 [Hrun0 [Hs [Hq [Hw [Hby [_ Hreq]]]]]]]].
  rewrite Hrun0 in Hrun. injection Hrun as <- <-. auto.
Qed.

(** ** The resident's path as its route runs it *)

(** Whatever is posted and whoever posts it, the call ends in an error and
    the store is as it was: the refusal of a caller who is no approved
    resident, the refusal of a blacklisted number, and past both checks the
    [AttributeError] of the first attribute the body lacks. *)
Lemma route_register_visitor_run generate_qr_code clock visitor_data current_user db :
  serve (ResidentRoute.register_visitor generate_qr_code clock visitor_data
           current_user) db
  = (Raised
       (if Resident.access_denied current_user then invite_denied_answer
        else match find (blacklist_filter (VisitorBase.phone_number visitor_data)
                                          (User.id current_user)) (blacklist db) with
             | Some _ => blacklisted_invite_answer
             | None => internal_error_answer
             end),
     db).
Proof.
  unfold ResidentRoute.register_visitor.
  destruct (Resident.access_denied current_user); [reflexivity|].
  step_handler.
  destruct (find (blacklist_filter (VisitorBase.phone_number visitor_data)
                    (User.id current_user)) (blacklist db)); [reflexivity|].
  step_handler. unfold no_attribute.
  destruct (visitor_by_phone (VisitorBase.phone_number visitor_data) db);
    step_handler; reflexivity.
Qed.

(** The route never hands back a request. *)
Lemma route_register_visitor_never_returns generate_qr_code clock visitor_data
    current_user db r db' :
  serve (ResidentRoute.register_visitor generate_qr_code clock visitor_data
           current_user) db
  <> (Returned r, db').
Proof. rewrite route_register_visitor_run. discriminate. Qed.

(** The two refusals are those of the function called on an object with
    every attribute: up to the first read of a missing attribute the two
    runs are the same. *)
Lemma route_refuses_as_the_function_does generate_qr_code clock
    (visitor_data : VisitorBase.t) (direct : VisitorCreate.t) current_user db e db' :
  VisitorCreate.phone_number direct = VisitorBase.phone_number visitor_data ->
  serve (Resident.register_visitor generate_qr_code clock direct current_user) db
  = (Raised e, db') ->
  serve (ResidentRoute.register_visitor generate_qr_code clock visitor_data
           current_user) db
  = (Raised e, db').
Proof.
  intros Hphone Hrun. rewrite route_register_visitor_run. rewrite <- Hphone.
  destruct (Resident.access_denied current_user) eqn:Hacc.
  { unfold Resident.register_visitor in Hrun. rewrite Hacc in Hrun. exact Hrun. }
  destruct (find (blacklist_filter (VisitorCreate.phone_number direct)
                    (User.id current_user)) (blacklist db)) eqn:Hbl.
  { unfold Resident.register_visitor in Hrun. rewrite Hacc in Hrun.
    revert Hrun. step_handler. rewrite Hbl. intros Hrun. exact Hrun. }
  destruct (register_visitor_run generate_qr_code clock direct current_user db
              Hacc Hbl) as [r [db0 [Hrun0 _]]].
  rewrite Hrun0 in Hrun. discriminate.
Qed.

(** C5 on the code.  The resident's path does not get as far as the claim
    says.  Its route hands [register_visitor] a [VisitorCreate], a class
    without [name], [purpose], [visit_date] and [visit_time]: whatever is
    posted, by whomever and on whatever store, the call ends in an error
    and the store is left as it was, so no request is filed approved with a
    token.  R42 inviting Jane Doe, with a body the validators pass and no
    blacklist entry, is answered with the internal error, whether or not
    Jane Doe is in the directory.  The other two paths do what the claim
    says: a request registered by the visitor is stored pending without a
    token; a walk-in recorded by security is stored pending without a
    token, marked as a walk-in and signed by the officer, whoever the
    resident is; and each of the two files its request once its checks
    pass. *)
Theorem resident_registration_files_nothing
    (generate_qr_code : string -> string) (clock : Clock) (db : Database) :
  (forall visitor_data current_user,
      serve (ResidentRoute.register_visitor generate_qr_code clock visitor_data
               current_user) db
      = (Raised
           (if Resident.access_denied current_user then invite_denied_answer
            else match find (blacklist_filter (VisitorBase.phone_number visitor_data)
                                              (User.id current_user))
                            (blacklist db) with
                 | Some _ => blacklisted_invite_answer
                 | None => internal_error_answer
                 end),
         db))
  /\ (VisitorBase.validate_phone_number (VisitorBase.phone_number Cases.posted)
      = inl (VisitorBase.phone_number Cases.posted)
      /\ Resident.access_denied Scenario.r42 = false
      /\ blacklist Scenario.estate = []
      /\ serve (ResidentRoute.register_visitor generate_qr_code clock Cases.posted
                  Scenario.r42) Scenario.estate
         = (Raised internal_error_answer, Scenario.estate)
      /\ serve (ResidentRoute.register_visitor generate_qr_code clock Cases.posted
                  Scenario.r42) Cases.db_known
         = (Raised internal_error_answer, Cases.db_known))
  /\ (forall visit_data,
      (forall resident,
       approved_resident (VisitorRegistrationCreate.resident_id visit_data) db
       = Some resident ->
       find (blacklist_filter (VisitorRegistrationCreate.phone_number visit_data)
                              (VisitorRegistrationCreate.resident_id visit_data))
            (blacklist db) = None ->
       VisitorApi.duplicate_pending
         (registering_visitor_id (VisitorRegistrationCreate.phone_number visit_data) db)
         (VisitorRegistrationCreate.resident_id visit_data)
         (VisitorRegistrationCreate.visit_date visit_data) db = None ->
       exists r db',
         serve (VisitorApi.register_visit_request visit_data) db = (Returned r, db'))
      /\ (forall r db',
            serve (VisitorApi.register_visit_request visit_data) db = (Returned r, db') ->
            VisitRequest.status r = PENDING
            /\ VisitRequest.qr_code r = None
            /\ VisitRequest.is_walk_in r = false
            /\ visit_requests db' = (visit_requests db ++ [r])%list))
  /\ (forall visitor_data current_user,
      (forall resident,
       Security.access_denied current_user = false ->
       find (blacklist_filter (VisitorWalkInCreate.phone_number visitor_data)
                              (VisitorWalkInCreate.resident_id visitor_data))
            (blacklist db) = None ->
       approved_resident (VisitorWalkInCreate.resident_id visitor_data) db
       = Some resident ->
       exists r db',
         serve (Security.record_walk_in_entry clock visitor_data current_user) db
         = (Returned r, db'))
      /\ (forall r db',
            serve (Security.record_walk_in_entry clock visitor_data current_user) db
            = (Returned r, db') ->
            VisitRequest.status r = PENDING
            /\ VisitRequest.qr_code r = None
            /\ VisitRequest.is_walk_in r = true
            /\ VisitRequest.recorded_by r = Some (User.id current_user)
            /\ visit_requests db' = (visit_requests db ++ [r])%list)).
Proof.
  split; [|split; [|split]].
  - intros visitor_data current_user. apply route_register_visitor_run.
  - split; [reflexivity|]. split; [reflexivity|]. split; [reflexivity|].
    split; rewrite route_register_visitor_run; reflexivity.
  - intros visit_data. split.
    + intros resident Hres Hbl Hdup.
      destruct (register_visit_request_run visit_data db resident Hres Hbl Hdup)
        as [r [db' [H _]]].
      now exists r, db'.
    + intros r db'. apply register_visit_request_returned.
  - intros visitor_data current_user. split.
    + intros resident Hacc Hbl Hres.
      destruct (record_walk_in_entry_run clock visitor_data current_user db
                  resident Hacc Hbl Hres) as [r [db' [H _]]].
      now exists r, db'.
    + intros r db'. apply record_walk_in_entry_returned.
Qed.

Lemma resident_registration_files_nothing_witness :
  serve (ResidentRoute.register_visitor Scenario.qr Scenario.clock Cases.posted
           Scenario.r42) Scenario.estate
  = (Raised internal_error_answer, Scenario.estate)
  /\ (exists r db',
      serve (VisitorApi.register_visit_request Scenario.jane_today) Scenario.estate
      = (Returned r, db'))
  /\ (exists r db',
      serve (Security.record_walk_in_entry Scenario.clock Scenario.jane_walk_in
               Scenario.guard) Scenario.estate = (Returned r, db')).
Proof.
  pose proof (resident_registration_files_nothing Scenario.qr Scenario.clock
                Scenario.estate) as [Hresident [_ [Hvisitor Hwalk_in]]].
  split; [|split].
  - exact (Hresident Cases.posted Scenario.r42).
  - apply (proj1 (Hvisitor Scenario.jane_today) Scenario.r42); reflexivity.
  - apply (proj1 (Hwalk_in Scenario.jane_walk_in Scenario.guard) Scenario.r42);
      reflexivity.
Defined.

(** ** The duplicate guard *)

Lemma duplicate_pending_none visitor_id resident_id visit_date db :
  VisitorApi.duplicate_pending visitor_id resident_id visit_date db = None <->
  forall r, In r (visit_requests db) ->
            VisitRequest.visitor_id r = visitor_id ->
            VisitRequest.resident_id r = resident_id ->
            VisitRequest.visit_date r = visit_date ->
            VisitRequest.status r <> PENDING.
Proof.
  unfold VisitorApi.duplicate_pending. rewrite find_none_iff. split.
  - intros H r Hin Hv Hr Hd Hs. specialize (H r Hin).
    rewrite Hv, Hr, Hd, Hs, !Nat.eqb_refl, Z.eqb_refl in H. discriminate.
  - intros H r Hin. specialize (H r Hin).
    destruct (Nat.eqb_spec (VisitRequest.visitor_id r) visitor_id); [|reflexivity].
    destruct (Nat.eqb_spec (VisitRequest.resident_id r) resident_id); [|reflexivity].
    destruct (Z.eqb_spec (VisitRequest.visit_date r) visit_date); [|reflexivity].
    destruct (VisitStatus_eqb (VisitRequest.status r) PENDING) eqn:E; [|reflexivity].
    apply VisitStatus_eqb_eq in E. now elim H.
Qed.

Lemma duplicate_pending_found visitor_id resident_id visit_date db r :
  In r (visit_requests db) ->
  VisitRequest.visitor_id r = visitor_id ->
  VisitRequest.resident_id r = resident_id ->
  VisitRequest.visit_date r = visit_date ->
  VisitRequest.status r = PENDING ->
  exists dup, VisitorApi.duplicate_pending visitor_id resident_id visit_date db = Some dup.
Proof.
  intros Hin Hv Hr Hd Hs. unfold VisitorApi.duplicate_pending.
  apply find_some_ex with (x := r); [assumption|].
  now rewrite Hv, Hr, Hd, Hs, !Nat.eqb_refl, Z.eqb_refl.
Qed.

(** C6, as the handler has it. For a registration that passes the resident
    and blacklist checks: when a pending request for the same visitor,
    resident and date is on file, the registration is refused with the
    duplicate error (status 400) and the store stays as it was; when no
    request for that tuple is pending, whatever other states such requests
    are in, the registration goes through and files one new pending
    request. *)
Theorem duplicate_guard_sees_pending_only
    (visit_data : VisitorRegistrationCreate.t) (db : Database) (resident : User.t) :
  approved_resident (VisitorRegistrationCreate.resident_id visit_data) db
  = Some resident ->
  find (blacklist_filter (VisitorRegistrationCreate.phone_number visit_data)
                         (VisitorRegistrationCreate.resident_id visit_data))
       (blacklist db) = None ->
  ((exists r,
      In r (visit_requests db)
      /\ VisitRequest.visitor_id r
         = registering_visitor_id (VisitorRegistrationCreate.phone_number visit_data) db
      /\ VisitRequest.resident_id r = VisitorRegistrationCreate.resident_id visit_data
      /\ VisitRequest.visit_date r = VisitorRegistrationCreate.visit_date visit_data
      /\ VisitRequest.status r = PENDING) ->
   serve (VisitorApi.register_visit_request visit_data) db
   = (Raised duplicate_answer, db))
  /\ ((forall r,
      In r (visit_requests db) ->
      VisitRequest.visitor_id r
      = registering_visitor_id (VisitorRegistrationCreate.phone_number visit_data) db ->
      VisitRequest.resident_id r = VisitorRegistrationCreate.resident_id visit_data ->
      VisitRequest.visit_date r = VisitorRegistrationCreate.visit_date visit_data ->
      VisitRequest.status r <> PENDING) ->
   exists r db',
     serve (VisitorApi.register_visit_request visit_data) db = (Returned r, db')
     /\ VisitRequest.status r = PENDING
     /\ VisitRequest.visitor_id r
        = registering_visitor_id (VisitorRegistrationCreate.phone_number visit_data) db
     /\ VisitRequest.resident_id r = VisitorRegistrationCreate.resident_id visit_data
     /\ VisitRequest.visit_date r = VisitorRegistrationCreate.visit_date visit_data
     /\ visit_requests db' = (visit_requests db ++ [r])%list).
Proof.
  intros Hres Hbl. split.
  - intros [r [Hin [Hv [Hr [Hd Hs]]]]].
    destruct (duplicate_pending_found _ _ _ db r Hin Hv Hr Hd Hs) as [dup Hdup].
    exact (register_visit_request_duplicate visit_data db resident dup Hres Hbl Hdup).
  - intros Hnone. apply duplicate_pending_none in Hnone.
    destruct (register_visit_request_run visit_data db resident Hres Hbl Hnone)
      as [r [db' [Hrun [Hs [_ [_ [Hv [Hr [Hd Hreq]]]]]]]]].
    exists r, db'. auto 10.
Qed.

Lemma duplicate_guard_sees_pending_only_witness :
  serve (VisitorApi.register_visit_request Scenario.jane_today) Scenario.db_pending
  = (Raised duplicate_answer, Scenario.db_pending)
  /\ exists r db',
       serve (VisitorApi.register_visit_request Scenario.jane_today) Scenario.db_approved
       = (Returned r, db')
       /\ VisitRequest.status r = PENDING
       /\ VisitRequest.visitor_id r
          = registering_visitor_id Scenario.jane_phone Scenario.db_approved
       /\ VisitRequest.resident_id r = 42
       /\ VisitRequest.visit_date r = 10%Z
       /\ visit_requests db' = (visit_requests Scenario.db_approved ++ [r])%list.
Proof.
  split.
  - apply (proj1 (duplicate_guard_sees_pending_only Scenario.jane_today
                    Scenario.db_pending Scenario.r42 eq_refl eq_refl)).
    eexists. split; [left; reflexivity|]. vm_compute. auto.
  - apply (proj2 (duplicate_guard_sees_pending_only Scenario.jane_today
                    Scenario.db_approved Scenario.r42 eq_refl eq_refl)).
    intros r Hin _ _ _. vm_compute in Hin. destruct Hin as [<-|[]]. discriminate.
Defined.

(** C6 as stated fails: with an approved request of Jane to R42 for today
    on file, Jane's registration for the same tuple is not refused; it
    files a second live request. *)
Lemma approved_request_does_not_block :
  In Scenario.approved_request (visit_requests Scenario.db_approved)
  /\ VisitRequest.status Scenario.approved_request = APPROVED
  /\ VisitRequest.visitor_id Scenario.approved_request
     = registering_visitor_id Scenario.jane_phone Scenario.db_approved
  /\ VisitRequest.resident_id Scenario.approved_request
     = VisitorRegistrationCreate.resident_id Scenario.jane_today
  /\ VisitRequest.visit_date Scenario.approved_request
     = VisitorRegistrationCreate.visit_date Scenario.jane_today
  /\ exists r db',
       serve (VisitorApi.register_visit_request Scenario.jane_today) Scenario.db_approved
       = (Returned r, db')
       /\ visit_requests db' = [Scenario.approved_request; r]
       /\ VisitRequest.status r = PENDING
       /\ VisitRequest.visitor_id r = VisitRequest.visitor_id Scenario.approved_request
       /\ VisitRequest.resident_id r = VisitRequest.resident_id Scenario.approved_request
       /\ VisitRequest.visit_date r = VisitRequest.visit_date Scenario.approved_request.
Proof.
  split; [left; vm_compute; reflexivity|].
  repeat (split; [reflexivity|]).
  eexists. eexists. split; [vm_compute; reflexivity|].
  repeat split.
Qed.

(** ** Denial and the blacklist *)


Lemma blacklist_filter_some phone resident_id l :
  (exists b, find (blacklist_filter phone resident_id) l = Some b) <->
  exists b, In b l /\ Blacklist.visitor_phone b = phone
            /\ Blacklist.resident_id b = resident_id /\ Blacklist.is_active b = true.
Proof.
  split.
  - intros [b H]. apply find_some in H as [Hin Hf]. exists b.
    unfold blacklist_filter in Hf.
    apply andb_prop in Hf as [Hf Ha]. apply andb_prop in Hf as [Hp Hr].
    apply String.eqb_eq in Hp. apply Nat.eqb_eq in Hr. auto.
  - intros [b [Hin [Hp [Hr Ha]]]]. apply find_some_ex with (x := b); [assumption|].
    unfold blacklist_filter. now rewrite Hp, Hr, Ha, String.eqb_refl, Nat.eqb_refl.
Qed.

(** A denial that goes through always adds a row to the blacklist, whether
    or not the pair already has an active one. *)
Lemma deny_visit_request_run clock request_id current_user db r v :
  Resident.access_denied current_user = false ->
  Resident.own_request request_id current_user db = Some r ->
  VisitRequest.status r = PENDING ->
  visitor_by_id (VisitRequest.visitor_id r) db = Some v ->
  exists db',
    serve (Resident.deny_visit_request clock request_id current_user) db
    = (Returned "Visit request denied and visitor blacklisted", db')
    /\ blacklist db'
       = (blacklist db
          ++ [denial_entry clock current_user v
                (next_id (map Blacklist.id (blacklist db)))])%list
    /\ visit_requests db'
       = replace_row VisitRequest.id
           (VisitRequest.set_denied_at (VisitRequest.set_status r DENIED)
              (Some (utcnow clock)))
           (visit_requests db).
Proof.
  intros Hacc Hr Hs Hv. unfold Resident.deny_visit_request. rewrite Hacc.
  step_handler. rewrite Hr, Hs. cbn [negb VisitStatus_eqb]. step_handler.
  cbn [VisitRequest.set_denied_at VisitRequest.set_status VisitRequest.visitor_id]
    in *.
  rewrite Hv. unfold save_visit_request, add_blacklist, commit, modify.
  step_handler. finish_fan_out.
  eexists. split; [reflexivity|]. split; reflexivity.
Qed.

(** C2 on the FastAPI path: Jane has two pending requests to R42; R42
    denies both.  Each denial goes through, and the second leaves two
    active blacklist rows for the pair where the claim promises one. *)
Theorem deny_twice_leaves_two_active_entries :
  serve (Resident.deny_visit_request Scenario.clock 1 Scenario.r42)
        Scenario.db_two_pending
  = (Returned "Visit request denied and visitor blacklisted", Scenario.db_denied_once)
  /\ serve (Resident.deny_visit_request Scenario.clock 2 Scenario.r42)
           Scenario.db_denied_once
     = (Returned "Visit request denied and visitor blacklisted",
        Scenario.db_denied_twice)
  /\ List.length (filter (blacklist_filter Scenario.jane_phone 42)
               (blacklist Scenario.db_denied_once)) = 1
  /\ List.length (filter (blacklist_filter Scenario.jane_phone 42)
               (blacklist Scenario.db_denied_twice)) = 2.
Proof. repeat split; vm_compute; reflexivity. Qed.

(** In general every denial that goes through raises the number of active
    rows for the pair by one. *)
Lemma deny_adds_an_active_entry clock request_id current_user db r v :
  Resident.access_denied current_user = false ->
  Resident.own_request request_id current_user db = Some r ->
  VisitRequest.status r = PENDING ->
  visitor_by_id (VisitRequest.visitor_id r) db = Some v ->
  List.length
    (filter (blacklist_filter (Visitor.phone_number v) (User.id current_user))
       (blacklist
          (snd (serve (Resident.deny_visit_request clock request_id current_user) db))))
  = S (List.length
         (filter (blacklist_filter (Visitor.phone_number v) (User.id current_user))
            (blacklist db))).
Proof.
  intros Hacc Hr Hs Hv.
  destruct (deny_visit_request_run clock request_id current_user db r v Hacc Hr Hs Hv)
    as [db' [Hrun [Hbl _]]].
  rewrite Hrun. cbn [snd]. rewrite Hbl, filter_app, length_app.
  cbn [filter]. unfold blacklist_filter at 2, denial_entry.
  cbn [Blacklist.visitor_phone Blacklist.resident_id Blacklist.is_active].
  rewrite String.eqb_refl, Nat.eqb_refl. cbn. lia.
Qed.

(** The Django view, by contrast, goes through [get_or_create]: after a
    denial the pair has one row if it had none, and the rows it had
    otherwise. *)
Lemma find_none_filter_nil {A} (f : A -> bool) (l : list A) :
  find f l = None -> filter f l = [].
Proof.
  induction l as [|a l IH]; simpl; [reflexivity|].
  destruct (f a); [discriminate|exact IH].
Qed.

Lemma find_some_filter_length {A} (f : A -> bool) (l : list A) (x : A) :
  find f l = Some x -> 1 <= List.length (filter f l).
Proof.
  induction l as [|a l IH]; simpl; [discriminate|].
  destruct (f a); simpl; [lia|exact IH].
Qed.

Lemma django_deny_keeps_one_entry request pk s r s' :
  Django.deny_visit_request request pk s = (Django.Ok r, s') ->
  let same_pair := fun b =>
    (Django.BlacklistedVisitor.visitor b =? Django.VisitRequest.visitor r)
    && (Django.BlacklistedVisitor.resident b =? Django.VisitRequest.resident r) in
  List.length (filter same_pair (Django.blacklisted_visitors s'))
  = Nat.max 1 (List.length (filter same_pair (Django.blacklisted_visitors s))).
Proof.
  intros H same_pair. unfold Django.deny_visit_request in H.
  destruct (negb (Django.IsResidentOrAdmin request)); [discriminate|].
  destruct (Django.get_visit_request pk s) as [vr|]; [|discriminate].
  destruct (_ && _); [discriminate|].
  destruct (negb _); [discriminate|].
  injection H as <- <-. unfold Django.get_or_create, Django.save.
  cbn [Django.blacklisted_visitors Django.visit_requests
       Django.VisitRequest.visitor Django.VisitRequest.resident] in *.
  subst same_pair. cbn [Django.VisitRequest.visitor Django.VisitRequest.resident].
  destruct (find _ (Django.blacklisted_visitors s)) as [b|] eqn:E.
  - cbn [Django.blacklisted_visitors]. apply find_some_filter_length in E. lia.
  - cbn [Django.blacklisted_visitors].
    rewrite filter_app, length_app, (find_none_filter_nil _ _ E).
    cbn [filter Django.BlacklistedVisitor.visitor Django.BlacklistedVisitor.resident].
    rewrite !Nat.eqb_refl. reflexivity.
Qed.

(** ** The blacklist gate of creation *)

(** What the gate looks at: a registration that reaches the check is
    refused as blacklisted exactly when some row for the pair has
    [is_active] set; permanence and expiry are not consulted. *)
Lemma register_visit_request_blocked visit_data db resident :
  approved_resident (VisitorRegistrationCreate.resident_id visit_data) db
  = Some resident ->
  (serve (VisitorApi.register_visit_request visit_data) db
   = (Raised blacklisted_visit_answer, db)
   <-> exists b, In b (blacklist db)
                 /\ Blacklist.visitor_phone b = VisitorRegistrationCreate.phone_number visit_data
                 /\ Blacklist.resident_id b = VisitorRegistrationCreate.resident_id visit_data
                 /\ Blacklist.is_active b = true).
Proof.
  intros Hres. rewrite <- blacklist_filter_some.
  destruct (find (blacklist_filter (VisitorRegistrationCreate.phone_number visit_data)
                    (VisitorRegistrationCreate.resident_id visit_data))
              (blacklist db)) as [b|] eqn:Hbl.
  - split; [intros _; now exists b|]. intros _.
    unfold VisitorApi.register_visit_request. step_handler. rewrite Hres.
    step_handler. rewrite Hbl. reflexivity.
  - split; [|intros [b Hb]; discriminate]. intros Hrun. exfalso.
    destruct (VisitorApi.duplicate_pending
                (registering_visitor_id
                   (VisitorRegistrationCreate.phone_number visit_data) db)
                (VisitorRegistrationCreate.resident_id visit_data)
                (VisitorRegistrationCreate.visit_date visit_data) db)
      as [dup|] eqn:Hdup.
    + rewrite (register_visit_request_duplicate visit_data db resident dup
                 Hres Hbl Hdup) in Hrun. discriminate.
    + destruct (register_visit_request_run visit_data db resident Hres Hbl Hdup)
        as [r [db' [Hrun' _]]].
      rewrite Hrun' in Hrun. discriminate.
Qed.

Lemma record_walk_in_entry_blocked clock visitor_data current_user db :
  Security.access_denied current_user = false ->
  (serve (Security.record_walk_in_entry clock visitor_data current_user) db
   = (Raised blacklisted_walk_in_answer, db)
   <-> exists b, In b (blacklist db)
                 /\ Blacklist.visitor_phone b = VisitorWalkInCreate.phone_number visitor_data
                 /\ Blacklist.resident_id b = VisitorWalkInCreate.resident_id visitor_data
                 /\ Blacklist.is_active b = true).
Proof.
  intros Hacc. rewrite <- blacklist_filter_some.
  destruct (find (blacklist_filter (VisitorWalkInCreate.phone_number visitor_data)
                    (VisitorWalkInCreate.resident_id visitor_data))
              (blacklist db)) as [b|] eqn:Hbl.
  - split; [intros _; now exists b|]. intros _.
    unfold Security.record_walk_in_entry. rewrite Hacc. step_handler.
    rewrite Hbl. reflexivity.
  - split; [|intros [b Hb]; discriminate]. intros Hrun. exfalso.
    destruct (approved_resident (VisitorWalkInCreate.resident_id visitor_data) db)
      as [resident|] eqn:Hres.
    + destruct (record_walk_in_entry_run clock visitor_data current_user db resident
                  Hacc Hbl Hres) as [r [db' [Hrun' _]]].
      rewrite Hrun' in Hrun. discriminate.
    + revert Hrun. unfold Security.record_walk_in_entry. rewrite Hacc.
      step_handler. rewrite Hbl. step_handler. rewrite Hres. discriminate.
Qed.

(** C3 on the code: R42's time-bounded ban of Jane ran out at time 500 and
    the clock reads 1000, so the row is expired and, by the model's own
    [is_valid], no longer valid; its [is_active] flag is still set, and
    all three creation paths refuse Jane for R42 as blacklisted. *)
Theorem lapsed_entry_still_blocks :
  Blacklist.is_active Scenario.lapsed_entry = true
  /\ Blacklist.is_expired (utcnow Scenario.clock) Scenario.lapsed_entry = true
  /\ Blacklist.is_valid (utcnow Scenario.clock) Scenario.lapsed_entry = false
  /\ serve (VisitorApi.register_visit_request Scenario.jane_today) Scenario.db_lapsed
     = (Raised blacklisted_visit_answer, Scenario.db_lapsed)
  /\ serve (Security.record_walk_in_entry Scenario.clock Scenario.jane_walk_in
              Scenario.guard) Scenario.db_lapsed
     = (Raised blacklisted_walk_in_answer, Scenario.db_lapsed)
  /\ serve (Resident.register_visitor Scenario.qr Scenario.clock Scenario.jane_invited
              Scenario.r42) Scenario.db_lapsed
     = (Raised blacklisted_invite_answer, Scenario.db_lapsed).
Proof. repeat split; vm_compute; reflexivity. Qed.

(** An entry against another resident does not stand in the way. *)
Lemma other_resident_not_blocked :
  exists r db',
    serve (VisitorApi.register_visit_request Scenario.jane_to_r7) Scenario.db_lapsed
    = (Returned r, db')
    /\ VisitRequest.resident_id r = 7.
Proof. eexists. eexists. split; vm_compute; reflexivity. Qed.

(** ** Arrival and departure (Django views) *)

(** Arrival is recorded on approved requests only. *)
Lemma record_entry_needs_approved now request s r s' :
  Django.record_entry now request s = (Django.Ok r, s') ->
  exists k r0,
    Django.visit_request_id request = Some k
    /\ Django.get_visit_request k s = Some r0
    /\ Django.VisitRequest.status r0 = APPROVED
    /\ Django.VisitRequest.entry_time r = Some now
    /\ s' = Django.save r s.
Proof.
  unfold Django.record_entry. intros H.
  destruct (negb (Django.IsSecurityOrAdmin request)); [discriminate|].
  destruct (Django.visit_request_id request) as [[|k]|]; try discriminate.
  cbn [Django.missing] in H.
  destruct (Django.get_visit_request (S k) s) as [r0|] eqn:E; [|discriminate].
  destruct (VisitStatus_eqb (Django.VisitRequest.status r0) APPROVED) eqn:Es;
    [|discriminate].
  cbn [negb] in H. injection H as <- <-.
  exists (S k), r0. apply VisitStatus_eqb_eq in Es. auto.
Qed.

(** Departure is recorded only after an arrival and only once. *)
Lemma record_exit_needs_arrival_once now request s r s' :
  Django.record_exit now request s = (Django.Ok r, s') ->
  exists k r0 arrival,
    Django.visit_request_id request = Some k
    /\ Django.get_visit_request k s = Some r0
    /\ Django.VisitRequest.entry_time r0 = Some arrival
    /\ Django.VisitRequest.exit_time r0 = None
    /\ Django.VisitRequest.entry_time r = Some arrival
    /\ Django.VisitRequest.exit_time r = Some now
    /\ s' = Django.save r s.
Proof.
  unfold Django.record_exit. intros H.
  destruct (negb (Django.IsSecurityOrAdmin request)); [discriminate|].
  destruct (Django.visit_request_id request) as [[|k]|]; try discriminate.
  cbn [Django.missing] in H.
  destruct (Django.get_visit_request (S k) s) as [r0|] eqn:E; [|discriminate].
  destruct (Django.VisitRequest.entry_time r0) as [arrival|] eqn:Ee; [|discriminate].
  destruct (Django.VisitRequest.exit_time r0) eqn:Ex; [discriminate|].
  injection H as <- <-. exists (S k), r0, arrival. auto 10.
Qed.

(** C8 on the code: the request's arrival was recorded at time 100; a
    second [record_entry] at time 200 is accepted and replaces the
    recorded arrival, where the claim has arrival recorded only while no
    arrival is set. *)
Theorem record_entry_overwrites_arrival :
  Django.VisitRequest.status Scenario.arrived = APPROVED
  /\ Django.VisitRequest.entry_time Scenario.arrived = Some 100%Z
  /\ exists r,
       Django.record_entry 200%Z Scenario.officer Scenario.gate
       = (Django.Ok r, Django.mkStore [r] [])
       /\ Django.VisitRequest.id r = Django.VisitRequest.id Scenario.arrived
       /\ Django.VisitRequest.entry_time r = Some 200%Z.
Proof.
  split; [reflexivity|]. split; [reflexivity|].
  eexists. split; [vm_compute; reflexivity|]. split; reflexivity.
Qed.

(** ** Removal from the blacklist *)

Lemma In_delete_row {A} (key : A -> nat) (k : nat) (x : A) (rows : list A) :
  In x (delete_row key k rows) <-> In x rows /\ key x <> k.
Proof.
  unfold delete_row. rewrite filter_In.
  destruct (Nat.eqb_spec (key x) k); simpl; intuition congruence.
Qed.

(** C9, as the handlers have it. Removing an entry that exists answers
    normally and deletes it: afterwards the blacklist holds exactly the
    rows with a different id, each unchanged, no row with the removed id
    can be retrieved, and no other table is touched.  Removing an id that
    is not on the list is answered with the not-found error (status 404)
    and changes nothing. *)
Theorem remove_from_blacklist_deletes_row (blacklist_id : nat) (db : Database) :
  ((exists b, In b (blacklist db) /\ Blacklist.id b = blacklist_id) ->
   exists db',
     serve (Admin.remove_from_blacklist blacklist_id) db
     = (Returned "Visitor removed from blacklist successfully", db')
     /\ (forall e, In e (blacklist db') <->
                   In e (blacklist db) /\ Blacklist.id e <> blacklist_id)
     /\ find (fun b => Blacklist.id b =? blacklist_id) (blacklist db') = None
     /\ users db' = users db
     /\ visitors db' = visitors db
     /\ visit_requests db' = visit_requests db
     /\ notifications db' = notifications db)
  /\ ((forall b, In b (blacklist db) -> Blacklist.id b <> blacklist_id) ->
      serve (Admin.remove_from_blacklist blacklist_id) db
      = (Raised (mkHTTPException HTTP_404_NOT_FOUND "Blacklist entry not found"), db)).
Proof.
  split.
  - intros [b [Hin Hid]].
    destruct (find_some_ex (fun b => Blacklist.id b =? blacklist_id) (blacklist db) b Hin)
      as [b0 Hb0]; [now apply Nat.eqb_eq|].
    unfold Admin.remove_from_blacklist. step_handler. rewrite Hb0.
    unfold commit, modify. step_handler.
    apply find_some in Hb0 as [_ Hk]. apply Nat.eqb_eq in Hk. rewrite Hk.
    eexists. split; [reflexivity|]. cbn [set_blacklist blacklist users visitors
                                         visit_requests notifications].
    split; [intros e; apply In_delete_row|].
    split; [|auto].
    apply find_none_of. intros x Hx. apply In_delete_row in Hx as [_ Hx].
    now apply Nat.eqb_neq.
  - intros Hnone. unfold Admin.remove_from_blacklist. step_handler.
    rewrite (find_none_of (fun b => Blacklist.id b =? blacklist_id) (blacklist db)).
    + reflexivity.
    + intros x Hx. apply Nat.eqb_neq. now apply Hnone.
Qed.

Lemma remove_from_blacklist_deletes_row_witness :
  exists db',
    serve (Admin.remove_from_blacklist 1) Scenario.db_denied_twice
    = (Returned "Visitor removed from blacklist successfully", db')
    /\ (forall e, In e (blacklist db') <->
                  In e (blacklist Scenario.db_denied_twice) /\ Blacklist.id e <> 1)
    /\ find (fun b => Blacklist.id b =? 1) (blacklist db') = None
    /\ users db' = users Scenario.db_denied_twice
    /\ visitors db' = visitors Scenario.db_denied_twice
    /\ visit_requests db' = visit_requests Scenario.db_denied_twice
    /\ notifications db' = notifications Scenario.db_denied_twice.
Proof.
  apply (proj1 (remove_from_blacklist_deletes_row 1 Scenario.db_denied_twice)).
  eexists. split; [left; reflexivity|]. reflexivity.
Defined.

(** The Django view deletes the row in the same way. *)
Lemma django_remove_deletes_row request pk s msg s' :
  Django.remove_from_blacklist request pk s = (Django.Ok msg, s') ->
  (exists b, In b (Django.blacklisted_visitors s) /\ Django.BlacklistedVisitor.id b = pk)
  /\ (forall e, In e (Django.blacklisted_visitors s') <->
                In e (Django.blacklisted_visitors s)
                /\ Django.BlacklistedVisitor.id e <> pk)
  /\ Django.visit_requests s' = Django.visit_requests s.
Proof.
  unfold Django.remove_from_blacklist. intros H.
  destruct (negb (Django.IsResidentOrAdmin request)); [discriminate|].
  destruct (find _ (Django.blacklisted_visitors s)) as [b|] eqn:E; [|discriminate].
  destruct (_ && _); [discriminate|].
  injection H as <- <-. apply find_some in E as [Hin Hk]. apply Nat.eqb_eq in Hk.
  split; [now exists b|]. rewrite Hk.
  split; [intros e; apply In_delete_row|reflexivity].
Qed.

(** C9 as stated fails: the ban of Jane that R42's denial created has
    id 1; after the administrator removes it the call has answered
    normally and no row with id 1, active or not, is left to retrieve.
    The Django view does the same to its ledger. *)
Lemma removed_entry_is_gone :
  (exists b, In b (blacklist Scenario.db_denied_once) /\ Blacklist.id b = 1
             /\ Blacklist.reason b = "Visit request denied by resident")
  /\ (exists db',
        serve (Admin.remove_from_blacklist 1) Scenario.db_denied_once
        = (Returned "Visitor removed from blacklist successfully", db')
        /\ blacklist db' = []
        /\ ~ exists b, In b (blacklist db') /\ Blacklist.id b = 1)
  /\ Django.remove_from_blacklist Scenario.manager 1 Scenario.ledger
     = (Django.Ok "Visitor removed from blacklist", Django.mkStore [] []).
Proof.
  split; [|split].
  - eexists. split; [left; reflexivity|]. split; reflexivity.
  - eexists. split; [vm_compute; reflexivity|]. split; [reflexivity|].
    intros [b [[] _]].
  - reflexivity.
Qed.

(** ** Approval *)

(** An approval that goes through stores the request approved, stamped,
    and with the token the generator makes of the visitor id, the
    resident id and the time of the call. *)
Lemma approve_visit_request_run generate_qr_code clock request_id current_user db r v :
  Resident.access_denied current_user = false ->
  Resident.own_request request_id current_user db = Some r ->
  VisitRequest.status r = PENDING ->
  visitor_by_id (VisitRequest.visitor_id r) db = Some v ->
  exists db',
    serve (Resident.approve_visit_request generate_qr_code clock request_id
             current_user) db
    = (Returned "Visit request approved successfully", db')
    /\ visit_requests db'
       = replace_row VisitRequest.id
           (VisitRequest.set_qr_code
              (VisitRequest.set_approved_at (VisitRequest.set_status r APPROVED)
                 (Some (utcnow clock)))
              (Some (generate_qr_code
                       (Resident.qr_payload clock (VisitRequest.visitor_id r)
                          (User.id current_user)))))
           (visit_requests db)
    /\ blacklist db' = blacklist db.
Proof.
  intros Hacc Hr Hs Hv. unfold Resident.approve_visit_request. rewrite Hacc.
  step_handler. rewrite Hr, Hs. cbn [negb VisitStatus_eqb].
  unfold save_visit_request, commit, modify. step_handler.
  cbn [VisitRequest.set_qr_code VisitRequest.set_approved_at VisitRequest.set_status
       VisitRequest.visitor_id].
  change (visitor_by_id (VisitRequest.visitor_id r) (set_visit_requests db ?x))
    with (visitor_by_id (VisitRequest.visitor_id r) db).
  rewrite Hv. step_handler.
  finish_fan_out.
  eexists. split; [reflexivity|]. split; reflexivity.
Qed.

(** ** Cancellation *)

(** A cancellation by the visitor who owns a pending request stores it
    cancelled and stamped; the blacklist is not touched. *)
Lemma cancel_visit_request_run clock request_id phone_number db r v :
  Security.request_by_id request_id db = Some r ->
  VisitorApi.owning_visitor (VisitRequest.visitor_id r) phone_number db = Some v ->
  VisitRequest.status r = PENDING ->
  exists db',
    serve (VisitorApi.cancel_visit_request clock request_id phone_number) db
    = (Returned "Visit request cancelled successfully", db')
    /\ visit_requests db'
       = replace_row VisitRequest.id
           (VisitRequest.set_cancelled_at (VisitRequest.set_status r CANCELLED)
              (Some (utcnow clock)))
           (visit_requests db)
    /\ blacklist db' = blacklist db.
Proof.
  intros Hr Hv Hs. unfold VisitorApi.cancel_visit_request.
  step_handler. rewrite Hr. step_handler. rewrite Hv, Hs.
  cbn [negb VisitStatus_eqb].
  unfold create_notification, save_visit_request, commit, modify. step_handler.
  eexists. split; [reflexivity|]. split; reflexivity.
Qed.

(** * Further properties *)

(** ** What a transition does to the store *)

Lemma addressed_in t c db r :
  addressed t c db = Some r ->
  In r (visit_requests db) /\ VisitRequest.id r = request_id c.
Proof.
  destruct t; simpl.
  - destruct (Resident.access_denied (actor c)); [discriminate|].
    unfold Resident.own_request. intros H. apply find_some in H as [Hin H].
    apply andb_prop in H as [H _]. apply Nat.eqb_eq in H. auto.
  - destruct (Resident.access_denied (actor c)); [discriminate|].
    unfold Resident.own_request. intros H. apply find_some in H as [Hin H].
    apply andb_prop in H as [H _]. apply Nat.eqb_eq in H. auto.
  - destruct (Security.request_by_id (request_id c) db) as [r'|] eqn:E; [|discriminate].
    destruct (VisitorApi.owning_visitor _ _ _); [|discriminate].
    intros H. injection H as <-. unfold Security.request_by_id in E.
    apply find_some in E as [Hin H]. apply Nat.eqb_eq in H. auto.
  - destruct (Security.access_denied (actor c)); [discriminate|].
    unfold Security.request_by_id. intros H. apply find_some in H as [Hin H].
    apply Nat.eqb_eq in H. auto.
Qed.

(** Every outcome of a transition call: either the call is refused and
    the store is as before, or the request it reached was in the source
    state and every row with its key now holds the request in the target
    state, same visitor, resident and date.  Users and visitors are never
    written; the blacklist is written by Deny alone. *)
Lemma transition_outcome generate_qr_code clock t c db :
  exists out db',
    serve (invoke generate_qr_code clock t c) db = (out, db')
    /\ users db' = users db
    /\ visitors db' = visitors db
    /\ (t <> Deny -> blacklist db' = blacklist db)
    /\ ((db' = db /\ exists e, out = Raised e)
        \/ exists r r',
             addressed t c db = Some r
             /\ VisitRequest.status r = source_state t
             /\ VisitRequest.id r' = VisitRequest.id r
             /\ VisitRequest.status r' = target_state t
             /\ VisitRequest.visitor_id r' = VisitRequest.visitor_id r
             /\ VisitRequest.resident_id r' = VisitRequest.resident_id r
             /\ VisitRequest.visit_date r' = VisitRequest.visit_date r
             /\ visit_requests db' = replace_row VisitRequest.id r' (visit_requests db)).
Proof.
  destruct (addressed t c db) as [r|] eqn:Ha.
  2:{ destruct (unaddressed_is_refused generate_qr_code clock t c db Ha) as [e He].
      exists (Raised e), db. repeat split; auto. left. split; [reflexivity|]. now exists e. }
  destruct (VisitStatus_eqb (VisitRequest.status r) (source_state t)) eqn:Hs.
  2:{ exists (Raised (InvalidTransition t)), db.
      rewrite (wrong_state_is_refused generate_qr_code clock t c db r Ha Hs).
      repeat split; auto. left. split; [reflexivity|]. now eexists. }
  apply VisitStatus_eqb_eq in Hs.
  destruct t; simpl in Ha, Hs |- *.
  - (* Approve *)
    destruct (Resident.access_denied (actor c)) eqn:Hacc; [discriminate|].
    destruct (visitor_by_id (VisitRequest.visitor_id r) db) as [v|] eqn:Hv.
    + unfold Resident.approve_visit_request. rewrite Hacc.
      step_handler. rewrite Ha, Hs. cbn [negb VisitStatus_eqb].
      unfold save_visit_request, commit, modify. step_handler.
      cbn [VisitRequest.set_qr_code VisitRequest.set_approved_at
           VisitRequest.set_status VisitRequest.visitor_id].
      change (visitor_by_id (VisitRequest.visitor_id r) (set_visit_requests db ?x))
        with (visitor_by_id (VisitRequest.visitor_id r) db).
      rewrite Hv. step_handler. finish_fan_out.
      eexists. eexists. split; [reflexivity|]. repeat split.
      right. exists r.
      exists (VisitRequest.set_qr_code
                 (VisitRequest.set_approved_at (VisitRequest.set_status r APPROVED)
                    (Some (utcnow clock)))
                 (Some (generate_qr_code
                          (Resident.qr_payload clock (VisitRequest.visitor_id r)
                             (User.id (actor c)))))).
      repeat split; assumption.
    + unfold Resident.approve_visit_request. rewrite Hacc.
      step_handler. rewrite Ha, Hs. cbn [negb VisitStatus_eqb].
      unfold save_visit_request, commit, modify. step_handler.
      cbn [VisitRequest.set_qr_code VisitRequest.set_approved_at
           VisitRequest.set_status VisitRequest.visitor_id].
      change (visitor_by_id (VisitRequest.visitor_id r) (set_visit_requests db ?x))
        with (visitor_by_id (VisitRequest.visitor_id r) db).
      rewrite Hv. step_handler.
      eexists. eexists. split; [reflexivity|]. repeat split.
      right. exists r.
      exists (VisitRequest.set_qr_code
                 (VisitRequest.set_approved_at (VisitRequest.set_status r APPROVED)
                    (Some (utcnow clock)))
                 (Some (generate_qr_code
                          (Resident.qr_payload clock (VisitRequest.visitor_id r)
                             (User.id (actor c)))))).
      repeat split; assumption.
  - (* Deny *)
    destruct (Resident.access_denied (actor c)) eqn:Hacc; [discriminate|].
    destruct (visitor_by_id (VisitRequest.visitor_id r) db) as [v|] eqn:Hv.
    + unfold Resident.deny_visit_request. rewrite Hacc.
      step_handler. rewrite Ha, Hs. cbn [negb VisitStatus_eqb]. step_handler.
      cbn [VisitRequest.set_denied_at VisitRequest.set_status VisitRequest.visitor_id].
      rewrite Hv. unfold save_visit_request, add_blacklist, commit, modify.
      step_handler. finish_fan_out.
      eexists. eexists. split; [reflexivity|]. repeat split; try congruence.
      right. exists r.
      exists (VisitRequest.set_denied_at (VisitRequest.set_status r DENIED)
                 (Some (utcnow clock))).
      repeat split; assumption.
    + unfold Resident.deny_visit_request. rewrite Hacc.
      step_handler. rewrite Ha, Hs. cbn [negb VisitStatus_eqb]. step_handler.
      cbn [VisitRequest.set_denied_at VisitRequest.set_status VisitRequest.visitor_id].
      rewrite Hv. unfold save_visit_request, modify. step_handler.
      eexists. eexists. split; [reflexivity|]. repeat split; auto.
      left. split; [reflexivity|]. now eexists.
  - (* Cancel *)
    destruct (Security.request_by_id (request_id c) db) as [r0|] eqn:Hr; [|discriminate].
    destruct (VisitorApi.owning_visitor (VisitRequest.visitor_id r0) (phone_number c) db)
      as [v|] eqn:Hv; [|discriminate].
    injection Ha as ->.
    unfold VisitorApi.cancel_visit_request.
    step_handler. rewrite Hr. step_handler. rewrite Hv, Hs.
    cbn [negb VisitStatus_eqb].
    unfold create_notification, save_visit_request, commit, modify. step_handler.
    eexists. eexists. split; [reflexivity|]. repeat split.
    right. exists r.
    exists (VisitRequest.set_cancelled_at (VisitRequest.set_status r CANCELLED)
                 (Some (utcnow clock))).
    repeat split; assumption.
  - (* Complete *)
    destruct (Security.access_denied (actor c)) eqn:Hacc; [discriminate|].
    rewrite (complete_run clock (request_id c) (actor c) db r Hacc Ha Hs).
    eexists. eexists. split; [reflexivity|]. repeat split.
    right. exists r.
    exists (VisitRequest.set_completed_by
                 (VisitRequest.set_completed_at
                    (VisitRequest.set_status r COMPLETED) (Some (utcnow clock)))
                 (Some (User.id (actor c)))).
    repeat split; assumption.
Qed.

(** ** Keys, replacement and fresh keys *)

Lemma map_key_replace_row {A} (key : A -> nat) (row : A) (rows : list A) :
  map key (replace_row key row rows) = map key rows.
Proof.
  unfold replace_row. rewrite map_map. apply map_ext. intros x.
  destruct (Nat.eqb_spec (key x) (key row)); congruence.
Qed.

Lemma replace_row_other {A} (key : A -> nat) (row x : A) (rows : list A) :
  In x rows -> key x <> key row -> In x (replace_row key row rows).
Proof.
  intros Hin Hne. unfold replace_row. apply in_map_iff. exists x.
  destruct (Nat.eqb_spec (key x) (key row)); [contradiction|auto].
Qed.

Lemma replace_row_hit {A} (key : A -> nat) (row x : A) (rows : list A) :
  In x rows -> key x = key row -> In row (replace_row key row rows).
Proof.
  intros Hin He. unfold replace_row. apply in_map_iff. exists x.
  rewrite He, Nat.eqb_refl. auto.
Qed.

Lemma key_determines_row {A} (key : A -> nat) (rows : list A) (x y : A) :
  NoDup (map key rows) -> In x rows -> In y rows -> key x = key y -> x = y.
Proof.
  induction rows as [|a l IH]; simpl; [contradiction|].
  intros Hnd Hx Hy He. inversion Hnd as [|? ? Hnot Hnd']; subst.
  destruct Hx as [->|Hx], Hy as [->|Hy]; auto.
  - elim Hnot. rewrite He. now apply in_map.
  - elim Hnot. rewrite <- He. now apply in_map.
Qed.

Lemma fold_max_bound (ids : list nat) (k : nat) :
  In k ids -> k <= fold_right Nat.max 0 ids.
Proof.
  induction ids as [|a l IH]; simpl; [contradiction|].
  intros [->|H]; [lia|]. specialize (IH H). lia.
Qed.

Lemma next_id_fresh (ids : list nat) : ~ In (next_id ids) ids.
Proof.
  intros H. apply fold_max_bound in H. unfold next_id in H. lia.
Qed.

Lemma NoDup_keys_after_add {A} (key : A -> nat) (rows : list A) (row : A) :
  NoDup (map key rows) -> key row = next_id (map key rows) ->
  NoDup (map key (rows ++ [row])).
Proof.
  intros Hnd Hk. rewrite map_app. simpl.
  apply NoDup_app; [assumption|repeat constructor; simpl; tauto|].
  intros k Hin [<-|[]]. rewrite Hk in Hin. exact (next_id_fresh _ Hin).
Qed.

(** ** The lifecycle graph *)

Lemma returned_rows generate_qr_code clock t c db msg db' :
  serve (invoke generate_qr_code clock t c) db = (Returned msg, db') ->
  exists r r',
    addressed t c db = Some r
    /\ VisitRequest.status r = source_state t
    /\ VisitRequest.id r' = request_id c
    /\ VisitRequest.status r' = target_state t
    /\ In r (visit_requests db)
    /\ visit_requests db' = replace_row VisitRequest.id r' (visit_requests db).
Proof.
  intros Hrun.
  destruct (transition_outcome generate_qr_code clock t c db)
    as [out [db0 [Hrun0 [_ [_ [_ Hcase]]]]]].
  rewrite Hrun0 in Hrun. injection Hrun as -> ->.
  destruct Hcase as [[_ [e He]]|[r [r' [Ha [Hs [Hid [Ht [_ [_ [_ Hreq]]]]]]]]]];
    [discriminate|].
  destruct (addressed_in t c db r Ha) as [Hin Hk].
  exists r, r'. repeat split; try assumption. congruence.
Qed.

(** X1. A transition that answers normally found its request in the source
    state and leaves it in the target state: afterwards the request is on
    file under its id, every row with that id is in the target state, and
    every request with another id is on file as before. *)
Theorem returned_transition_reaches_target
    (generate_qr_code : string -> string) (clock : Clock)
    (t : Transition) (c : Call) (db db' : Database) (msg : string) :
  serve (invoke generate_qr_code clock t c) db = (Returned msg, db') ->
  (exists r, addressed t c db = Some r /\ VisitRequest.status r = source_state t)
  /\ (exists x, In x (visit_requests db') /\ VisitRequest.id x = request_id c)
  /\ (forall x, In x (visit_requests db') -> VisitRequest.id x = request_id c ->
                VisitRequest.status x = target_state t)
  /\ (forall x, In x (visit_requests db) -> VisitRequest.id x <> request_id c ->
                In x (visit_requests db')).
Proof.
  intros Hrun.
  destruct (returned_rows generate_qr_code clock t c db msg db' Hrun)
    as [r [r' [Ha [Hs [Hid [Ht [Hin Hreq]]]]]]].
  destruct (addressed_in t c db r Ha) as [_ Hk].
  rewrite Hreq. split; [now exists r|]. split; [|split].
  - exists r'. split; [|assumption].
    apply replace_row_hit with (x := r); [assumption|congruence].
  - intros x Hx Hxid. apply In_replace_row in Hx as [->|[_ Hne]]; [assumption|].
    elim Hne. congruence.
  - intros x Hx Hne. apply replace_row_other; [assumption|congruence].
Qed.

Lemma returned_transition_reaches_target_witness :
  (exists x, In x (visit_requests Scenario.db_approved) /\ VisitRequest.id x = 1)
  /\ (forall x, In x (visit_requests Scenario.db_approved) -> VisitRequest.id x = 1 ->
                VisitRequest.status x = APPROVED).
Proof.
  pose proof (returned_transition_reaches_target Scenario.qr Scenario.clock Approve
                (mkCall 1 Scenario.r42 "") Scenario.db_pending Scenario.db_approved
                "Visit request approved successfully") as H.
  destruct H as [_ [Hex [Hall _]]]; [vm_compute; reflexivity|].
  split; [exact Hex|exact Hall].
Defined.

(** X2. Denied, cancelled and completed are final, and approved is left
    by completion only: once a transition has answered normally, any
    further transition on the same request id whose source state is not
    the state just reached, by whatever caller, is refused and leaves the
    store as it is. *)
Theorem no_way_back
    (generate_qr_code : string -> string) (clock clock' : Clock)
    (t t' : Transition) (c c' : Call) (db db' : Database) (msg : string) :
  serve (invoke generate_qr_code clock t c) db = (Returned msg, db') ->
  request_id c' = request_id c ->
  source_state t' <> target_state t ->
  exists e, serve (invoke generate_qr_code clock' t' c') db' = (Raised e, db').
Proof.
  intros Hrun Hsame Hne.
  destruct (returned_rows generate_qr_code clock t c db msg db' Hrun)
    as [r [r' [_ [_ [Hid [Ht [_ Hreq]]]]]]].
  destruct (addressed t' c' db') as [x|] eqn:Ha.
  - destruct (addressed_in t' c' db' x Ha) as [Hin Hk].
    rewrite Hreq in Hin. apply In_replace_row in Hin as [->|[_ Hkey]].
    + exists (InvalidTransition t').
      apply wrong_state_is_refused with (r := r'); [assumption|].
      destruct (VisitStatus_eqb (VisitRequest.status r') (source_state t')) eqn:E;
        [|reflexivity].
      apply VisitStatus_eqb_eq in E. elim Hne. congruence.
    + elim Hkey. congruence.
  - now apply unaddressed_is_refused.
Qed.

Lemma no_way_back_witness :
  exists e,
    serve (invoke Scenario.qr Scenario.next_day Deny (mkCall 1 Scenario.r42 ""))
          Scenario.db_completed
    = (Raised e, Scenario.db_completed).
Proof.
  apply (no_way_back Scenario.qr Scenario.clock Scenario.next_day Complete Deny
           (mkCall 1 Scenario.guard "") (mkCall 1 Scenario.r42 "")
           Scenario.db_approved Scenario.db_completed "Visit marked as completed").
  - vm_compute. reflexivity.
  - reflexivity.
  - simpl. discriminate.
Defined.

(** ** What transitions leave alone *)

(** X3. No transition writes a user or a visitor record, whatever its
    outcome, and Approve, Cancel and Complete never write the blacklist:
    only a denial does. *)
Theorem transitions_leave_directory_and_blacklist
    (generate_qr_code : string -> string) (clock : Clock)
    (t : Transition) (c : Call) (db : Database) :
  users (snd (serve (invoke generate_qr_code clock t c) db)) = users db
  /\ visitors (snd (serve (invoke generate_qr_code clock t c) db)) = visitors db
  /\ (t <> Deny ->
      blacklist (snd (serve (invoke generate_qr_code clock t c) db)) = blacklist db).
Proof.
  destruct (transition_outcome generate_qr_code clock t c db)
    as [out [db' [Hrun [Hu [Hv [Hb _]]]]]].
  rewrite Hrun. auto.
Qed.

Lemma transitions_leave_directory_and_blacklist_witness :
  blacklist (snd (serve (invoke Scenario.qr Scenario.clock Cancel
                           (mkCall 1 Scenario.r42 Scenario.jane_phone))
                    Scenario.db_pending))
  = blacklist Scenario.db_pending.
Proof.
  apply (proj2 (proj2 (transitions_leave_directory_and_blacklist Scenario.qr
                         Scenario.clock Cancel
                         (mkCall 1 Scenario.r42 Scenario.jane_phone)
                         Scenario.db_pending))).
  discriminate.
Defined.

Lemma own_request_resident request_id current_user db r :
  Resident.own_request request_id current_user db = Some r ->
  VisitRequest.resident_id r = User.id current_user.
Proof.
  unfold Resident.own_request. intros H. apply find_some in H as [_ H].
  apply andb_prop in H as [_ H]. now apply Nat.eqb_eq.
Qed.

(** X4. A resident decides on their own requests only: when request ids
    are unique, an approval or denial called by a resident, whatever id it
    names, leaves every request addressed to another resident on file
    exactly as it was. *)
Theorem residents_decide_their_own_requests_only
    (generate_qr_code : string -> string) (clock : Clock)
    (t : Transition) (c : Call) (db : Database) (x : VisitRequest.t) :
  NoDup (map VisitRequest.id (visit_requests db)) ->
  t = Approve \/ t = Deny ->
  In x (visit_requests db) ->
  VisitRequest.resident_id x <> User.id (actor c) ->
  In x (visit_requests (snd (serve (invoke generate_qr_code clock t c) db))).
Proof.
  intros Hnd Ht Hin Hother.
  destruct (transition_outcome generate_qr_code clock t c db)
    as [out [db' [Hrun [_ [_ [_ Hcase]]]]]].
  rewrite Hrun. cbn [snd].
  destruct Hcase as [[-> _]|[r [r' [Ha [_ [Hid [_ [_ [_ [_ Hreq]]]]]]]]]];
    [assumption|].
  rewrite Hreq. apply replace_row_other; [assumption|].
  intros Heq. destruct (addressed_in t c db r Ha) as [Hr _].
  assert (x = r) as ->.
  { apply (key_determines_row VisitRequest.id (visit_requests db)); auto. congruence. }
  apply Hother.
  destruct Ht as [-> | ->]; simpl in Ha;
    destruct (Resident.access_denied (actor c)); try discriminate;
    exact (own_request_resident _ _ _ _ Ha).
Qed.

Lemma residents_decide_their_own_requests_only_witness :
  In Cases.bobs_request
     (visit_requests
        (snd (serve (invoke Scenario.qr Scenario.clock Deny (mkCall 2 Scenario.r42 ""))
                Cases.db_two_residents))).
Proof.
  apply residents_decide_their_own_requests_only.
  - vm_compute. repeat constructor; simpl; intuition discriminate.
  - right. reflexivity.
  - right. left. reflexivity.
  - vm_compute. discriminate.
Defined.

(** X5. Cancellation needs the visitor's own phone number: when visitor
    ids are unique and the visitor of the request is on record with a
    different number, the call is refused as unauthorised (status 403),
    whatever state the request is in, and nothing is stored. *)
Theorem cancel_needs_the_visitors_phone
    (clock : Clock) (request_id : nat) (phone_number : string)
    (db : Database) (r : VisitRequest.t) (v : Visitor.t) :
  NoDup (map Visitor.id (visitors db)) ->
  Security.request_by_id request_id db = Some r ->
  visitor_by_id (VisitRequest.visitor_id r) db = Some v ->
  Visitor.phone_number v <> phone_number ->
  serve (VisitorApi.cancel_visit_request clock request_id phone_number) db
  = (Raised (mkHTTPException HTTP_403_FORBIDDEN
               "You are not authorized to cancel this request."), db).
Proof.
  intros Hnd Hr Hv Hphone. unfold VisitorApi.cancel_visit_request.
  step_handler. rewrite Hr. step_handler.
  assert (Hnone : VisitorApi.owning_visitor (VisitRequest.visitor_id r)
                    phone_number db = None).
  { unfold VisitorApi.owning_visitor. apply find_none_of. intros y Hy.
    destruct (Nat.eqb_spec (Visitor.id y) (VisitRequest.visitor_id r)) as [E|];
      [|reflexivity].
    unfold visitor_by_id in Hv. apply find_some in Hv as [Hvin Hvid].
    apply Nat.eqb_eq in Hvid.
    assert (y = v) as ->.
    { apply (key_determines_row Visitor.id (visitors db)); auto. congruence. }
    simpl. now apply String.eqb_neq. }
  rewrite Hnone. reflexivity.
Qed.

Lemma cancel_needs_the_visitors_phone_witness :
  serve (VisitorApi.cancel_visit_request Scenario.clock 1 "+15559999")
        Cases.db_two_residents
  = (Raised (mkHTTPException HTTP_403_FORBIDDEN
               "You are not authorized to cancel this request."),
     Cases.db_two_residents).
Proof.
  apply (cancel_needs_the_visitors_phone Scenario.clock 1 "+15559999"
           Cases.db_two_residents Cases.pending_request Cases.jane).
  - vm_compute. repeat constructor; simpl; intuition discriminate.
  - reflexivity.
  - reflexivity.
  - vm_compute. discriminate.
Defined.

(** ** What a creation path stores *)

(** The loop of [create_notification] calls adds one row per element, in
    order, addressed to that element's recipient. *)
Lemma for_each_recipients {A} (l : list A) (recipient : A -> nat)
    (title : string) (message : A -> string) (notification_type : string) :
  forall s, stored s = work s ->
  exists added,
    for_each l (fun x => create_notification (recipient x) title (message x)
                           notification_type) s
    = (Returned tt,
       mkSession (set_notifications (work s) (notifications (work s) ++ added))
                 (set_notifications (work s) (notifications (work s) ++ added))
                 (outbox s))
    /\ map Notification.user_id added = map recipient l
    /\ Forall (fun n => Notification.title n = title
                        /\ Notification.notification_type n = notification_type
                        /\ Notification.is_read n = false) added.
Proof.
  induction l as [|x l IH]; intros s Hs.
  - exists []. rewrite app_nil_r, set_notifications_same.
    split; [|split; [reflexivity|constructor]].
    destruct s as [st w o]. simpl in *. now subst.
  - cbn [for_each]. unfold bind at 1.
    unfold create_notification at 1. step_handler. unfold modify, commit.
    cbn [work stored outbox].
    match goal with
    | |- context [for_each l ?f ?s1] => destruct (IH s1 eq_refl) as [added [Hrun [Hm Hf]]]
    end.
    rewrite Hrun. cbn [work stored outbox set_notifications notifications].
    eexists (_ :: added). rewrite <- app_assoc. cbn [app].
    split; [reflexivity|]. split.
    + cbn [map Notification.user_id]. now rewrite Hm.
    + constructor; [cbn; auto|assumption].
Qed.

Ltac fan_out_with_recipients :=
  match goal with
  | |- context [for_each ?l (fun x => create_notification (@?u x) ?t (@?m x) ?ty) ?s] =>
      let added := fresh "added" in
      let Hrun := fresh "Hrun" in
      let Hto := fresh "Hto" in
      let Hall := fresh "Hall" in
      destruct (for_each_recipients l u t m ty s eq_refl) as [added [Hrun [Hto Hall]]];
      cbn beta in Hrun; rewrite Hrun; clear Hrun;
      cbn [work stored outbox set_notifications notifications] in *
  end.

(** Everything a resident's registration stores. *)
Lemma register_visitor_effect generate_qr_code clock visitor_data current_user db :
  Resident.access_denied current_user = false ->
  find (blacklist_filter (VisitorCreate.phone_number visitor_data)
                         (User.id current_user)) (blacklist db) = None ->
  exists r db' added,
    serve (Resident.register_visitor generate_qr_code clock visitor_data current_user) db
    = (Returned r, db')
    /\ VisitRequest.id r = next_id (map VisitRequest.id (visit_requests db))
    /\ VisitRequest.visitor_id r
       = registering_visitor_id (VisitorCreate.phone_number visitor_data) db
    /\ visit_requests db' = (visit_requests db ++ [r])%list
    /\ users db' = users db
    /\ blacklist db' = blacklist db
    /\ visitors db'
       = match visitor_by_phone (VisitorCreate.phone_number visitor_data) db with
         | Some _ => visitors db
         | None =>
             (visitors db
              ++ [Visitor.mk (next_id (map Visitor.id (visitors db)))
                    (VisitorCreate.name visitor_data)
                    (VisitorCreate.phone_number visitor_data)
                    (VisitorCreate.email visitor_data)
                    (VisitorCreate.id_number visitor_data)
                    (VisitorCreate.purpose visitor_data)])%list
         end
    /\ notifications db' = (notifications db ++ added)%list
    /\ map Notification.user_id added = map User.id (security_users db).
Proof.
  intros Hacc Hbl. unfold Resident.register_visitor. rewrite Hacc.
  step_handler. rewrite Hbl. step_handler.
  unfold registering_visitor_id.
  destruct (visitor_by_phone (VisitorCreate.phone_number visitor_data) db) as [v|].
  - unfold add_visit_request, commit, modify. step_handler.
    fan_out_with_recipients. finish_fan_out.
    eexists. eexists. exists added. split; [reflexivity|]. repeat split. exact Hto.
  - unfold add_visitor, add_visit_request, commit, modify. step_handler.
    fan_out_with_recipients. finish_fan_out.
    eexists. eexists. exists added. split; [reflexivity|]. repeat split. exact Hto.
Qed.

(** Everything a visitor's own registration stores. *)
Lemma register_visit_request_effect visit_data db resident :
  approved_resident (VisitorRegistrationCreate.resident_id visit_data) db = Some resident ->
  find (blacklist_filter (VisitorRegistrationCreate.phone_number visit_data)
                         (VisitorRegistrationCreate.resident_id visit_data))
       (blacklist db) = None ->
  VisitorApi.duplicate_pending
    (registering_visitor_id (VisitorRegistrationCreate.phone_number visit_data) db)
    (VisitorRegistrationCreate.resident_id visit_data)
    (VisitorRegistrationCreate.visit_date visit_data) db = None ->
  exists r db' n,
    serve (VisitorApi.register_visit_request visit_data) db = (Returned r, db')
    /\ VisitRequest.id r = next_id (map VisitRequest.id (visit_requests db))
    /\ VisitRequest.visitor_id r
       = registering_visitor_id (VisitorRegistrationCreate.phone_number visit_data) db
    /\ visit_requests db' = (visit_requests db ++ [r])%list
    /\ users db' = users db
    /\ blacklist db' = blacklist db
    /\ visitors db'
       = match visitor_by_phone (VisitorRegistrationCreate.phone_number visit_data) db with
         | Some v =>
             replace_row Visitor.id (VisitorApi.refresh_visitor visit_data v)
               (visitors db)
         | None =>
             (visitors db
              ++ [Visitor.mk (next_id (map Visitor.id (visitors db)))
                    (VisitorRegistrationCreate.name visit_data)
                    (VisitorRegistrationCreate.phone_number visit_data)
                    (VisitorRegistrationCreate.email visit_data)
                    (VisitorRegistrationCreate.id_number visit_data)
                    (VisitorRegistrationCreate.purpose visit_data)])%list
         end
    /\ notifications db' = (notifications db ++ [n])%list
    /\ Notification.user_id n = VisitorRegistrationCreate.resident_id visit_data
    /\ Notification.notification_type n = "visit_request"
    /\ Notification.is_read n = false.
Proof.
  intros Hres Hbl. unfold VisitorApi.register_visit_request.
  step_handler. rewrite Hres. step_handler. rewrite Hbl. step_handler.
  unfold registering_visitor_id.
  destruct (visitor_by_phone (VisitorRegistrationCreate.phone_number visit_data) db)
    as [v|]; intros Hdup.
  - unfold save_visitor, modify. step_handler.
    unfold VisitorApi.duplicate_pending in *.
    cbn [set_visitors visit_requests]. rewrite Hdup.
    unfold create_notification, add_visit_request, commit, modify. step_handler.
    finish_fan_out.
    eexists. eexists. eexists. split; [reflexivity|]. repeat split.
  - unfold add_visitor, modify. step_handler.
    unfold VisitorApi.duplicate_pending in *.
    cbn [set_visitors visit_requests]. rewrite Hdup.
    unfold create_notification, add_visit_request, commit, modify. step_handler.
    finish_fan_out.
    eexists. eexists. eexists. split; [reflexivity|]. repeat split.
Qed.

(** Everything a recorded walk-in stores. *)
Lemma record_walk_in_entry_effect clock visitor_data current_user db resident :
  Security.access_denied current_user = false ->
  find (blacklist_filter (VisitorWalkInCreate.phone_number visitor_data)
                         (VisitorWalkInCreate.resident_id visitor_data))
       (blacklist db) = None ->
  approved_resident (VisitorWalkInCreate.resident_id visitor_data) db = Some resident ->
  exists r db' n,
    serve (Security.record_walk_in_entry clock visitor_data current_user) db
    = (Returned r, db')
    /\ VisitRequest.id r = next_id (map VisitRequest.id (visit_requests db))
    /\ VisitRequest.visitor_id r
       = registering_visitor_id (VisitorWalkInCreate.phone_number visitor_data) db
    /\ visit_requests db' = (visit_requests db ++ [r])%list
    /\ users db' = users db
    /\ blacklist db' = blacklist db
    /\ visitors db'
       = match visitor_by_phone (VisitorWalkInCreate.phone_number visitor_data) db with
         | Some _ => visitors db
         | None =>
             (visitors db
              ++ [Visitor.mk (next_id (map Visitor.id (visitors db)))
                    (VisitorWalkInCreate.name visitor_data)
                    (VisitorWalkInCreate.phone_number visitor_data)
                    (VisitorWalkInCreate.email visitor_data)
                    (VisitorWalkInCreate.id_number visitor_data)
                    (VisitorWalkInCreate.purpose visitor_data)])%list
         end
    /\ notifications db' = (notifications db ++ [n])%list
    /\ Notification.user_id n = VisitorWalkInCreate.resident_id visitor_data
    /\ Notification.notification_type n = "walk_in_request"
    /\ Notification.is_read n = false.
Proof.
  intros Hacc Hbl Hres. unfold Security.record_walk_in_entry. rewrite Hacc.
  step_handler. rewrite Hbl. step_handler. rewrite Hres. step_handler.
  unfold registering_visitor_id.
  destruct (visitor_by_phone (VisitorWalkInCreate.phone_number visitor_data) db) as [v|].
  - unfold create_notification, add_visit_request, commit, modify. step_handler.
    finish_fan_out.
    eexists. eexists. eexists. split; [reflexivity|]. repeat split.
  - unfold create_notification, add_visitor, add_visit_request, commit, modify.
    step_handler. finish_fan_out.
    eexists. eexists. eexists. split; [reflexivity|]. repeat split.
Qed.

(** A creation call that does not return a request stores nothing. *)
Lemma register_visitor_refused generate_qr_code clock visitor_data current_user db e db' :
  serve (Resident.register_visitor generate_qr_code clock visitor_data current_user) db
  = (Raised e, db') -> db' = db.
Proof.
  intros Hrun.
  destruct (Resident.access_denied current_user) eqn:Hacc.
  { unfold Resident.register_visitor in Hrun. rewrite Hacc in Hrun.
    now injection Hrun as _ <-. }
  destruct (find (blacklist_filter (VisitorCreate.phone_number visitor_data)
                    (User.id current_user)) (blacklist db)) eqn:Hbl.
  { unfold Resident.register_visitor in Hrun. rewrite Hacc in Hrun.
    revert Hrun. step_handler. rewrite Hbl. intros Hrun. now injection Hrun as _ <-. }
  destruct (register_visitor_run generate_qr_code clock visitor_data current_user db
              Hacc Hbl) as [r [db0 [Hrun0 _]]].
  rewrite Hrun0 in Hrun. discriminate.
Qed.

Lemma register_visit_request_refused visit_data db e db' :
  serve (VisitorApi.register_visit_request visit_data) db = (Raised e, db') -> db' = db.
Proof.
  intros Hrun.
  destruct (approved_resident (VisitorRegistrationCreate.resident_id visit_data) db)
    as [resident|] eqn:Hres.
  2:{ revert Hrun. unfold VisitorApi.register_visit_request. step_handler.
      rewrite Hres. intros Hrun. now injection Hrun as _ <-. }
  destruct (find (blacklist_filter (VisitorRegistrationCreate.phone_number visit_data)
                    (VisitorRegistrationCreate.resident_id visit_data))
              (blacklist db)) eqn:Hbl.
  { revert Hrun. unfold VisitorApi.register_visit_request. step_handler.
    rewrite Hres. step_handler. rewrite Hbl. intros Hrun. now injection Hrun as _ <-. }
  destruct (VisitorApi.duplicate_pending
              (registering_visitor_id (VisitorRegistrationCreate.phone_number visit_data) db)
              (VisitorRegistrationCreate.resident_id visit_data)
              (VisitorRegistrationCreate.visit_date visit_data) db) as [dup|] eqn:Hdup.
  { rewrite (register_visit_request_duplicate visit_data db resident dup Hres Hbl Hdup)
      in Hrun. now injection Hrun as _ <-. }
  destruct (register_visit_request_run visit_data db resident Hres Hbl Hdup)
    as [r0 [db0 [Hrun0 _]]].
  rewrite Hrun0 in Hrun. discriminate.
Qed.

Lemma record_walk_in_entry_refused clock visitor_data current_user db e db' :
  serve (Security.record_walk_in_entry clock visitor_data current_user) db
  = (Raised e, db') -> db' = db.
Proof.
  intros Hrun.
  destruct (Security.access_denied current_user) eqn:Hacc.
  { unfold Security.record_walk_in_entry in Hrun. rewrite Hacc in Hrun.
    now injection Hrun as _ <-. }
  destruct (find (blacklist_filter (VisitorWalkInCreate.phone_number visitor_data)
                    (VisitorWalkInCreate.resident_id visitor_data))
              (blacklist db)) eqn:Hbl.
  { unfold Security.record_walk_in_entry in Hrun. rewrite Hacc in Hrun.
    revert Hrun. step_handler. rewrite Hbl. intros Hrun. now injection Hrun as _ <-. }
  destruct (approved_resident (VisitorWalkInCreate.resident_id visitor_data) db)
    as [resident|] eqn:Hres.
  2:{ unfold Security.record_walk_in_entry in Hrun. rewrite Hacc in Hrun.
      revert Hrun. step_handler. rewrite Hbl. step_handler. rewrite Hres.
      intros Hrun. now injection Hrun as _ <-. }
  destruct (record_walk_in_entry_run clock visitor_data current_user db resident
              Hacc Hbl Hres) as [r0 [db0 [Hrun0 _]]].
  rewrite Hrun0 in Hrun. discriminate.
Qed.

Lemma refresh_visitor_keeps_identity visit_data v :
  Visitor.id (VisitorApi.refresh_visitor visit_data v) = Visitor.id v
  /\ Visitor.phone_number (VisitorApi.refresh_visitor visit_data v)
     = Visitor.phone_number v.
Proof.
  unfold VisitorApi.refresh_visitor.
  destruct (negb _), (truthy (VisitorRegistrationCreate.email visit_data)),
    (truthy (VisitorRegistrationCreate.id_number visit_data)); split; reflexivity.
Qed.

Lemma register_visitor_filed generate_qr_code clock visitor_data current_user db r db' :
  serve (Resident.register_visitor generate_qr_code clock visitor_data current_user) db
  = (Returned r, db') ->
  filed (VisitorCreate.phone_number visitor_data) db db' r.
Proof.
  intros Hrun.
  destruct (Resident.access_denied current_user) eqn:Hacc.
  { unfold Resident.register_visitor in Hrun. rewrite Hacc in Hrun. discriminate. }
  destruct (find (blacklist_filter (VisitorCreate.phone_number visitor_data)
                    (User.id current_user)) (blacklist db)) eqn:Hbl.
  { unfold Resident.register_visitor in Hrun. rewrite Hacc in Hrun.
    revert Hrun. step_handler. rewrite Hbl. discriminate. }
  destruct (register_visitor_effect generate_qr_code clock visitor_data current_user db
              Hacc Hbl)
    as [r0 [db0 [added [Hrun0 [Hid [Hvid [Hreq [Hu [Hb [Hv _]]]]]]]]]].
  rewrite Hrun0 in Hrun. injection Hrun as <- <-.
  unfold filed. repeat split; try assumption.
  destruct (visitor_by_phone (VisitorCreate.phone_number visitor_data) db) as [v|].
  - exists v. auto.
  - eexists. split; [|split; [|exact Hv]]; reflexivity.
Qed.

Lemma register_visit_request_filed visit_data db r db' :
  serve (VisitorApi.register_visit_request visit_data) db = (Returned r, db') ->
  filed (VisitorRegistrationCreate.phone_number visit_data) db db' r
  /\ (forall v,
        visitor_by_phone (VisitorRegistrationCreate.phone_number visit_data) db = Some v ->
        visitors db'
        = replace_row Visitor.id (VisitorApi.refresh_visitor visit_data v) (visitors db))
  /\ (visitor_by_phone (VisitorRegistrationCreate.phone_number visit_data) db = None ->
      visitors db'
      = (visitors db
         ++ [Visitor.mk (next_id (map Visitor.id (visitors db)))
               (VisitorRegistrationCreate.name visit_data)
               (VisitorRegistrationCreate.phone_number visit_data)
               (VisitorRegistrationCreate.email visit_data)
               (VisitorRegistrationCreate.id_number visit_data)
               (VisitorRegistrationCreate.purpose visit_data)])%list).
Proof.
  intros Hrun.
  destruct (approved_resident (VisitorRegistrationCreate.resident_id visit_data) db)
    as [resident|] eqn:Hres.
  2:{ revert Hrun. unfold VisitorApi.register_visit_request. step_handler.
      rewrite Hres. discriminate. }
  destruct (find (blacklist_filter (VisitorRegistrationCreate.phone_number visit_data)
                    (VisitorRegistrationCreate.resident_id visit_data))
              (blacklist db)) eqn:Hbl.
  { revert Hrun. unfold VisitorApi.register_visit_request. step_handler.
    rewrite Hres. step_handler. rewrite Hbl. discriminate. }
  destruct (VisitorApi.duplicate_pending
              (registering_visitor_id (VisitorRegistrationCreate.phone_number visit_data) db)
              (VisitorRegistrationCreate.resident_id visit_data)
              (VisitorRegistrationCreate.visit_date visit_data) db) as [dup|] eqn:Hdup.
  { rewrite (register_visit_request_duplicate visit_data db resident dup Hres Hbl Hdup)
      in Hrun. discriminate. }
  destruct (register_visit_request_effect visit_data db resident Hres Hbl Hdup)
    as [r0 [db0 [n [Hrun0 [Hid [Hvid [Hreq [Hu [Hb [Hv _]]]]]]]]]].
  rewrite Hrun0 in Hrun. injection Hrun as <- <-.
  unfold filed.
  destruct (visitor_by_phone (VisitorRegistrationCreate.phone_number visit_data) db)
    as [v|].
  - split; [|split].
    + repeat split; try assumption.
      exists (VisitorApi.refresh_visitor visit_data v).
      destruct (refresh_visitor_keeps_identity visit_data v). auto.
    + intros v0 Hv0. injection Hv0 as <-. exact Hv.
    + discriminate.
  - split; [|split].
    + repeat split; try assumption.
      eexists. split; [|split; [|exact Hv]]; reflexivity.
    + discriminate.
    + intros _. exact Hv.
Qed.

Lemma record_walk_in_entry_filed clock visitor_data current_user db r db' :
  serve (Security.record_walk_in_entry clock visitor_data current_user) db
  = (Returned r, db') ->
  filed (VisitorWalkInCreate.phone_number visitor_data) db db' r.
Proof.
  intros Hrun.
  destruct (Security.access_denied current_user) eqn:Hacc.
  { unfold Security.record_walk_in_entry in Hrun. rewrite Hacc in Hrun. discriminate. }
  destruct (find (blacklist_filter (VisitorWalkInCreate.phone_number visitor_data)
                    (VisitorWalkInCreate.resident_id visitor_data))
              (blacklist db)) eqn:Hbl.
  { unfold Security.record_walk_in_entry in Hrun. rewrite Hacc in Hrun.
    revert Hrun. step_handler. rewrite Hbl. discriminate. }
  destruct (approved_resident (VisitorWalkInCreate.resident_id visitor_data) db)
    as [resident|] eqn:Hres.
  2:{ unfold Security.record_walk_in_entry in Hrun. rewrite Hacc in Hrun.
      revert Hrun. step_handler. rewrite Hbl. step_handler. rewrite Hres.
      discriminate. }
  destruct (record_walk_in_entry_effect clock visitor_data current_user db resident
              Hacc Hbl Hres)
    as [r0 [db0 [n [Hrun0 [Hid [Hvid [Hreq [Hu [Hb [Hv _]]]]]]]]]].
  rewrite Hrun0 in Hrun. injection Hrun as <- <-.
  unfold filed. repeat split; try assumption.
  destruct (visitor_by_phone (VisitorWalkInCreate.phone_number visitor_data) db) as [v|].
  - exists v. auto.
  - eexists. split; [|split; [|exact Hv]]; reflexivity.
Qed.

Lemma register_visitor_files generate_qr_code clock visitor_data current_user db :
  filed_by (VisitorCreate.phone_number visitor_data) db
    (snd (serve (Resident.register_visitor generate_qr_code clock visitor_data
                   current_user) db)).
Proof.
  destruct (serve (Resident.register_visitor generate_qr_code clock visitor_data
                     current_user) db) as [[r|e] db'] eqn:Hrun; cbn [snd].
  - right. exists r. eapply register_visitor_filed; eassumption.
  - left. eapply register_visitor_refused; eassumption.
Qed.

Lemma register_visit_request_files visit_data db :
  filed_by (VisitorRegistrationCreate.phone_number visit_data) db
    (snd (serve (VisitorApi.register_visit_request visit_data) db)).
Proof.
  destruct (serve (VisitorApi.register_visit_request visit_data) db)
    as [[r|e] db'] eqn:Hrun; cbn [snd].
  - right. exists r. now apply register_visit_request_filed.
  - left. eapply register_visit_request_refused; eassumption.
Qed.

Lemma record_walk_in_entry_files clock visitor_data current_user db :
  filed_by (VisitorWalkInCreate.phone_number visitor_data) db
    (snd (serve (Security.record_walk_in_entry clock visitor_data current_user) db)).
Proof.
  destruct (serve (Security.record_walk_in_entry clock visitor_data current_user) db)
    as [[r|e] db'] eqn:Hrun; cbn [snd].
  - right. exists r. eapply record_walk_in_entry_filed; eassumption.
  - left. eapply record_walk_in_entry_refused; eassumption.
Qed.

(** ** Invariants of the tables *)

Lemma filed_by_keeps_request_keys phone db db' :
  filed_by phone db db' ->
  NoDup (map VisitRequest.id (visit_requests db)) ->
  NoDup (map VisitRequest.id (visit_requests db')).
Proof.
  intros [->|[r [Hid [_ [Hreq _]]]]] Hnd; [assumption|].
  rewrite Hreq. now apply NoDup_keys_after_add.
Qed.

(** X6. Request ids stay unique: if no two requests on file share an id,
    the same holds after any transition call and after any call of the
    three creation paths, whatever the call's outcome. *)
Theorem request_keys_stay_unique
    (generate_qr_code : string -> string) (clock : Clock) (db : Database) :
  NoDup (map VisitRequest.id (visit_requests db)) ->
  (forall t c,
      NoDup (map VisitRequest.id
               (visit_requests (snd (serve (invoke generate_qr_code clock t c) db)))))
  /\ (forall visitor_data current_user,
      NoDup (map VisitRequest.id
               (visit_requests
                  (snd (serve (Resident.register_visitor generate_qr_code clock
                                 visitor_data current_user) db)))))
  /\ (forall visit_data,
      NoDup (map VisitRequest.id
               (visit_requests
                  (snd (serve (VisitorApi.register_visit_request visit_data) db)))))
  /\ (forall visitor_data current_user,
      NoDup (map VisitRequest.id
               (visit_requests
                  (snd (serve (Security.record_walk_in_entry clock visitor_data
                                 current_user) db))))).
Proof.
  intros Hnd. split; [|split; [|split]].
  - intros t c.
    destruct (transition_outcome generate_qr_code clock t c db)
      as [out [db' [Hrun [_ [_ [_ Hcase]]]]]].
    rewrite Hrun. cbn [snd].
    destruct Hcase as [[-> _]|[r [r' [_ [_ [_ [_ [_ [_ [_ Hreq]]]]]]]]]]; [assumption|].
    now rewrite Hreq, map_key_replace_row.
  - intros visitor_data current_user.
    eapply filed_by_keeps_request_keys; [apply register_visitor_files|assumption].
  - intros visit_data.
    eapply filed_by_keeps_request_keys; [apply register_visit_request_files|assumption].
  - intros visitor_data current_user.
    eapply filed_by_keeps_request_keys; [apply record_walk_in_entry_files|assumption].
Qed.

Lemma request_keys_stay_unique_witness :
  NoDup (map VisitRequest.id
           (visit_requests
              (snd (serve (VisitorApi.register_visit_request Scenario.jane_tomorrow)
                      Cases.db_two_residents)))).
Proof.
  apply (proj1 (proj2 (proj2 (request_keys_stay_unique Scenario.qr Scenario.clock
                                Cases.db_two_residents
                                ltac:(vm_compute; repeat constructor; simpl;
                                      intuition discriminate))))).
Defined.

Lemma visitor_by_phone_in phone db v :
  visitor_by_phone phone db = Some v ->
  In v (visitors db) /\ Visitor.phone_number v = phone.
Proof.
  unfold visitor_by_phone. intros H. apply find_some in H as [Hin H].
  now apply String.eqb_eq in H.
Qed.

Lemma visitor_by_phone_absent phone db :
  visitor_by_phone phone db = None ->
  ~ In phone (map Visitor.phone_number (visitors db)).
Proof.
  unfold visitor_by_phone. intros H Hin. apply in_map_iff in Hin as [v [Hp Hin]].
  apply (find_none _ _ H) in Hin. rewrite Hp, String.eqb_refl in Hin. discriminate.
Qed.

Lemma replace_row_keeps_column {A B} (key : A -> nat) (f : A -> B)
    (row v : A) (rows : list A) :
  NoDup (map key rows) -> In v rows -> key row = key v -> f row = f v ->
  map f (replace_row key row rows) = map f rows.
Proof.
  intros Hnd Hin Hk Hf. unfold replace_row. rewrite map_map.
  apply map_ext_in. intros x Hx.
  destruct (Nat.eqb_spec (key x) (key row)) as [E|]; [|reflexivity].
  assert (x = v) as -> by (apply (key_determines_row key rows); auto; congruence).
  assumption.
Qed.

Lemma filed_by_keeps_directory phone db db' :
  filed_by phone db db' ->
  NoDup (map Visitor.id (visitors db)) ->
  NoDup (map Visitor.phone_number (visitors db)) ->
  NoDup (map Visitor.id (visitors db'))
  /\ NoDup (map Visitor.phone_number (visitors db')).
Proof.
  intros [->|[r [_ [_ [_ [_ [_ Hv]]]]]]] Hid Hph; [auto|].
  destruct (visitor_by_phone phone db) as [v|] eqn:E.
  - destruct Hv as [v' [Hk [Hp [->| ->]]]]; [auto|].
    apply visitor_by_phone_in in E as [Hin _].
    rewrite map_key_replace_row.
    rewrite (replace_row_keeps_column Visitor.id Visitor.phone_number v' v); auto.
  - destruct Hv as [v' [Hk [Hp ->]]]. split.
    + now apply NoDup_keys_after_add.
    + rewrite map_app. simpl.
      apply NoDup_app; [assumption|repeat constructor; simpl; tauto|].
      intros p Hin [<-|[]]. rewrite Hp in Hin.
      exact (visitor_by_phone_absent phone db E Hin).
Qed.

(** X7. The visitor directory stays deduplicated: if no two visitor rows
    share an id and no two share a phone number, the same holds after any
    call of the three creation paths, whatever its outcome.  A known
    phone number never gets a second row. *)
Theorem visitor_directory_stays_deduplicated
    (generate_qr_code : string -> string) (clock : Clock) (db : Database) :
  NoDup (map Visitor.id (visitors db)) ->
  NoDup (map Visitor.phone_number (visitors db)) ->
  (forall visitor_data current_user,
      let db' := snd (serve (Resident.register_visitor generate_qr_code clock
                               visitor_data current_user) db) in
      NoDup (map Visitor.id (visitors db'))
      /\ NoDup (map Visitor.phone_number (visitors db')))
  /\ (forall visit_data,
      let db' := snd (serve (VisitorApi.register_visit_request visit_data) db) in
      NoDup (map Visitor.id (visitors db'))
      /\ NoDup (map Visitor.phone_number (visitors db')))
  /\ (forall visitor_data current_user,
      let db' := snd (serve (Security.record_walk_in_entry clock visitor_data
                               current_user) db) in
      NoDup (map Visitor.id (visitors db'))
      /\ NoDup (map Visitor.phone_number (visitors db'))).
Proof.
  intros Hid Hph. split; [|split]; intros; subst db'.
  - eapply filed_by_keeps_directory; [apply register_visitor_files|assumption..].
  - eapply filed_by_keeps_directory; [apply register_visit_request_files|assumption..].
  - eapply filed_by_keeps_directory; [apply record_walk_in_entry_files|assumption..].
Qed.

Lemma visitor_directory_stays_deduplicated_witness :
  NoDup (map Visitor.phone_number
           (visitors
              (snd (serve (Security.record_walk_in_entry Scenario.clock
                             Scenario.jane_walk_in Scenario.guard)
                      Cases.db_two_residents)))).
Proof.
  apply (proj2 (proj2 (visitor_directory_stays_deduplicated Scenario.qr Scenario.clock
                         Cases.db_two_residents
                         ltac:(vm_compute; repeat constructor; simpl;
                               intuition discriminate)
                         ltac:(vm_compute; repeat constructor; simpl;
                               intuition discriminate)))
           Scenario.jane_walk_in Scenario.guard).
Defined.

(** ** The visitor a filed request points at *)

Lemma find_key_in {A} (key : A -> nat) (k : nat) (rows : list A) (y : A) :
  find (fun x => key x =? k) rows = Some y -> In y rows /\ key y = k.
Proof.
  intros H. apply find_some in H as [Hin H]. now apply Nat.eqb_eq in H.
Qed.

Lemma filed_points_at_phone phone db db' r :
  filed phone db db' r ->
  NoDup (map Visitor.id (visitors db)) ->
  exists v, visitor_by_id (VisitRequest.visitor_id r) db' = Some v
            /\ Visitor.phone_number v = phone.
Proof.
  intros [_ [Hvid [_ [_ [_ Hv]]]]] Hnd.
  unfold visitor_by_id, registering_visitor_id in *. rewrite Hvid.
  destruct (visitor_by_phone phone db) as [v0|] eqn:E.
  - apply visitor_by_phone_in in E as [Hin0 Hp0].
    destruct Hv as [v' [Hk [Hp [Heq|Heq]]]]; rewrite Heq.
    + destruct (find_some_ex (fun v => Visitor.id v =? Visitor.id v0) (visitors db) v0
                  Hin0 (Nat.eqb_refl _)) as [y Hy].
      exists y. split; [assumption|].
      apply find_key_in in Hy as [Hyin Hyk].
      assert (y = v0) as -> by (apply (key_determines_row Visitor.id (visitors db)); auto).
      assumption.
    + destruct (find_some_ex (fun v => Visitor.id v =? Visitor.id v0)
                  (replace_row Visitor.id v' (visitors db)) v') as [y Hy].
      { apply replace_row_hit with (x := v0); [assumption|congruence]. }
      { now apply Nat.eqb_eq. }
      exists y. split; [assumption|].
      apply find_key_in in Hy as [Hyin Hyk].
      apply In_replace_row in Hyin as [->|[_ Hne]]; [congruence|].
      elim Hne. congruence.
  - destruct Hv as [v' [Hk [Hp Heq]]]. rewrite Heq.
    destruct (find_some_ex (fun v => Visitor.id v =? next_id (map Visitor.id (visitors db)))
                (visitors db ++ [v']) v') as [y Hy].
    { apply in_or_app. right. now left. }
    { now apply Nat.eqb_eq. }
    exists y. split; [assumption|].
    apply find_key_in in Hy as [Hyin Hyk].
    apply in_app_or in Hyin as [Hold|[<-|[]]]; [|assumption].
    elim (next_id_fresh (map Visitor.id (visitors db))).
    rewrite <- Hyk. now apply in_map.
Qed.

(** X8. Every request a creation path files points at a visitor record
    that carries the phone number given with the request: when visitor
    ids are unique, the stored [visitor_id] of the returned request looks
    up, in the store after the call, a visitor with that number, on all
    three paths. *)
Theorem filed_request_points_at_the_caller
    (generate_qr_code : string -> string) (clock : Clock) (db : Database) :
  NoDup (map Visitor.id (visitors db)) ->
  (forall visitor_data current_user r db',
      serve (Resident.register_visitor generate_qr_code clock visitor_data
               current_user) db = (Returned r, db') ->
      exists v, visitor_by_id (VisitRequest.visitor_id r) db' = Some v
                /\ Visitor.phone_number v = VisitorCreate.phone_number visitor_data)
  /\ (forall visit_data r db',
      serve (VisitorApi.register_visit_request visit_data) db = (Returned r, db') ->
      exists v, visitor_by_id (VisitRequest.visitor_id r) db' = Some v
                /\ Visitor.phone_number v
                   = VisitorRegistrationCreate.phone_number visit_data)
  /\ (forall visitor_data current_user r db',
      serve (Security.record_walk_in_entry clock visitor_data current_user) db
      = (Returned r, db') ->
      exists v, visitor_by_id (VisitRequest.visitor_id r) db' = Some v
                /\ Visitor.phone_number v
                   = VisitorWalkInCreate.phone_number visitor_data).
Proof.
  intros Hnd. split; [|split].
  - intros visitor_data current_user r db' Hrun.
    eapply filed_points_at_phone; [|exact Hnd].
    eapply register_visitor_filed; eassumption.
  - intros visit_data r db' Hrun.
    eapply filed_points_at_phone; [|exact Hnd].
    now apply register_visit_request_filed.
  - intros visitor_data current_user r db' Hrun.
    eapply filed_points_at_phone; [|exact Hnd].
    eapply record_walk_in_entry_filed; eassumption.
Qed.

Lemma filed_request_points_at_the_caller_witness :
  exists v,
    visitor_by_id 1
      (snd (serve (Security.record_walk_in_entry Scenario.clock Scenario.jane_walk_in
                     Scenario.guard) Cases.db_two_residents)) = Some v
    /\ Visitor.phone_number v = Scenario.jane_phone.
Proof.
  pose proof (filed_request_points_at_the_caller Scenario.qr Scenario.clock
                Cases.db_two_residents
                ltac:(vm_compute; repeat constructor; simpl; intuition discriminate))
    as [_ [_ H]].
  destruct (serve (Security.record_walk_in_entry Scenario.clock Scenario.jane_walk_in
                     Scenario.guard) Cases.db_two_residents) as [out db'] eqn:E.
  assert (Hout : exists r, out = Returned r /\ VisitRequest.visitor_id r = 1).
  { vm_compute in E. injection E as <- _. eexists. split; reflexivity. }
  destruct Hout as [r [-> Hr]].
  destruct (H Scenario.jane_walk_in Scenario.guard r db' E) as [v Hv].
  exists v. cbn [snd]. now rewrite <- Hr.
Defined.

(** X9. A registration by a known phone number refreshes the visitor's
    record in place: the record the new request points at keeps its id,
    phone number and purpose, takes the name, email and id number of the
    request where these are given and non-empty, and keeps its old value
    where they are not. *)
Theorem registration_refreshes_contact_details
    (visit_data : VisitorRegistrationCreate.t) (db db' : Database)
    (r : VisitRequest.t) (known : Visitor.t) :
  serve (VisitorApi.register_visit_request visit_data) db = (Returned r, db') ->
  visitor_by_phone (VisitorRegistrationCreate.phone_number visit_data) db = Some known ->
  exists v,
    visitor_by_id (VisitRequest.visitor_id r) db' = Some v
    /\ Visitor.id v = Visitor.id known
    /\ Visitor.phone_number v = Visitor.phone_number known
    /\ Visitor.purpose v = Visitor.purpose known
    /\ Visitor.name v
       = (if String.eqb (VisitorRegistrationCreate.name visit_data) ""
          then Visitor.name known else VisitorRegistrationCreate.name visit_data)
    /\ Visitor.email v
       = (if truthy (VisitorRegistrationCreate.email visit_data)
          then VisitorRegistrationCreate.email visit_data else Visitor.email known)
    /\ Visitor.id_number v
       = (if truthy (VisitorRegistrationCreate.id_number visit_data)
          then VisitorRegistrationCreate.id_number visit_data
          else Visitor.id_number known).
Proof.
  intros Hrun Hknown.
  destruct (register_visit_request_filed visit_data db r db' Hrun)
    as [[_ [Hvid _]] [Hsome _]].
  specialize (Hsome known Hknown).
  unfold registering_visitor_id in Hvid. rewrite Hknown in Hvid.
  apply visitor_by_phone_in in Hknown as [Hin _].
  destruct (refresh_visitor_keeps_identity visit_data known) as [Hk Hp].
  exists (VisitorApi.refresh_visitor visit_data known).
  split.
  - unfold visitor_by_id. rewrite Hsome, Hvid.
    destruct (find_some_ex (fun v => Visitor.id v =? Visitor.id known)
                (replace_row Visitor.id (VisitorApi.refresh_visitor visit_data known)
                   (visitors db))
                (VisitorApi.refresh_visitor visit_data known)) as [y Hy].
    { apply replace_row_hit with (x := known); [assumption|congruence]. }
    { now apply Nat.eqb_eq. }
    rewrite Hy. f_equal.
    apply find_key_in in Hy as [Hyin Hyk].
    apply In_replace_row in Hyin as [->|[_ Hne]]; [reflexivity|].
    elim Hne. congruence.
  - split; [assumption|]. split; [assumption|].
    unfold VisitorApi.refresh_visitor.
    destruct (String.eqb (VisitorRegistrationCreate.name visit_data) ""),
      (truthy (VisitorRegistrationCreate.email visit_data)),
      (truthy (VisitorRegistrationCreate.id_number visit_data));
      repeat split; reflexivity.
Qed.

Lemma registration_refreshes_contact_details_witness :
  exists v,
    visitor_by_id 1
      (snd (serve (VisitorApi.register_visit_request
                     (VisitorRegistrationCreate.mk "" Scenario.jane_phone
                        (Some "jane@example.org") None "visit" 7 12%Z 900%Z))
              Cases.db_two_residents)) = Some v
    /\ Visitor.name v = "Jane"
    /\ Visitor.email v = Some "jane@example.org"
    /\ Visitor.purpose v = "delivery".
Proof.
  destruct (serve (VisitorApi.register_visit_request
                     (VisitorRegistrationCreate.mk "" Scenario.jane_phone
                        (Some "jane@example.org") None "visit" 7 12%Z 900%Z))
              Cases.db_two_residents) as [out db'] eqn:E.
  assert (Hout : exists r, out = Returned r /\ VisitRequest.visitor_id r = 1).
  { vm_compute in E. injection E as <- _. eexists. split; reflexivity. }
  destruct Hout as [r [-> Hr]].
  destruct (registration_refreshes_contact_details _ _ _ _ Cases.jane E eq_refl)
    as [v [Hv [_ [_ [Hpurpose [Hname [Hemail _]]]]]]].
  exists v. cbn [snd]. rewrite <- Hr. auto.
Defined.

(** ** Notification fan-out of the lifecycle *)

Lemma approve_visit_request_fan_out generate_qr_code clock request_id current_user db msg db' :
  serve (Resident.approve_visit_request generate_qr_code clock request_id current_user) db
  = (Returned msg, db') ->
  exists added,
    notifications db' = (notifications db ++ added)%list
    /\ map Notification.user_id added = map User.id (security_users db)
    /\ Forall (fun n => Notification.title n = "Visit Request Approved"
                        /\ Notification.notification_type n = "visitor_approved"
                        /\ Notification.is_read n = false) added.
Proof.
  unfold Resident.approve_visit_request.
  destruct (Resident.access_denied current_user); [discriminate|].
  step_handler.
  destruct (Resident.own_request request_id current_user db) as [r|]; [|discriminate].
  destruct (VisitStatus_eqb (VisitRequest.status r) PENDING); [|discriminate].
  cbn [negb]. unfold save_visit_request, commit, modify. step_handler.
  cbn [VisitRequest.set_qr_code VisitRequest.set_approved_at
       VisitRequest.set_status VisitRequest.visitor_id].
  change (visitor_by_id (VisitRequest.visitor_id r) (set_visit_requests db ?x))
    with (visitor_by_id (VisitRequest.visitor_id r) db).
  destruct (visitor_by_id (VisitRequest.visitor_id r) db) as [v|]; [|discriminate].
  step_handler. fan_out_with_recipients. finish_fan_out.
  intros H. injection H as _ <-. exists added. auto.
Qed.

(** X10. Every approved security officer is told of an approval: when an
    approval, or a resident's own registration of a visitor, answers
    normally, the notification table has grown by exactly one unread row
    per user with role security and [is_approved], addressed to them in
    table order; no other notification row is added or changed. *)
Theorem approval_notifies_every_security_officer
    (generate_qr_code : string -> string) (clock : Clock) (db : Database) :
  (forall request_id current_user msg db',
      serve (Resident.approve_visit_request generate_qr_code clock request_id
               current_user) db = (Returned msg, db') ->
      exists added,
        notifications db' = (notifications db ++ added)%list
        /\ map Notification.user_id added = map User.id (security_users db)
        /\ Forall (fun n => Notification.is_read n = false) added)
  /\ (forall visitor_data current_user r db',
      serve (Resident.register_visitor generate_qr_code clock visitor_data
               current_user) db = (Returned r, db') ->
      exists added,
        notifications db' = (notifications db ++ added)%list
        /\ map Notification.user_id added = map User.id (security_users db)).
Proof.
  split.
  - intros request_id current_user msg db' Hrun.
    destruct (approve_visit_request_fan_out _ _ _ _ _ _ _ Hrun)
      as [added [Hn [Hto Hall]]].
    exists added. repeat split; try assumption.
    eapply Forall_impl; [|exact Hall]. intros n [_ [_ H]]. exact H.
  - intros visitor_data current_user r db' Hrun.
    destruct (Resident.access_denied current_user) eqn:Hacc.
    { unfold Resident.register_visitor in Hrun. rewrite Hacc in Hrun. discriminate. }
    destruct (find (blacklist_filter (VisitorCreate.phone_number visitor_data)
                      (User.id current_user)) (blacklist db)) eqn:Hbl.
    { unfold Resident.register_visitor in Hrun. rewrite Hacc in Hrun.
      revert Hrun. step_handler. rewrite Hbl. discriminate. }
    destruct (register_visitor_effect generate_qr_code clock visitor_data current_user
                db Hacc Hbl)
      as [r0 [db0 [added [Hrun0 [_ [_ [_ [_ [_ [_ [Hn Hto]]]]]]]]]]].
    rewrite Hrun0 in Hrun. injection Hrun as _ <-. now exists added.
Qed.

Lemma approval_notifies_every_security_officer_witness :
  exists added,
    notifications Scenario.db_approved = (notifications Scenario.db_pending ++ added)%list
    /\ map Notification.user_id added = [3]
    /\ Forall (fun n => Notification.is_read n = false) added.
Proof.
  apply (proj1 (approval_notifies_every_security_officer Scenario.qr Scenario.clock
                  Scenario.db_pending)
           1 Scenario.r42 "Visit request approved successfully" Scenario.db_approved).
  vm_compute. reflexivity.
Defined.

Lemma cancel_visit_request_fan_out clock request_id phone_number db msg db' :
  serve (VisitorApi.cancel_visit_request clock request_id phone_number) db
  = (Returned msg, db') ->
  exists r n,
    Security.request_by_id request_id db = Some r
    /\ notifications db' = (notifications db ++ [n])%list
    /\ Notification.user_id n = VisitRequest.resident_id r
    /\ Notification.notification_type n = "visit_cancelled"
    /\ Notification.is_read n = false.
Proof.
  unfold VisitorApi.cancel_visit_request. step_handler.
  destruct (Security.request_by_id request_id db) as [r|]; [|discriminate].
  step_handler.
  destruct (VisitorApi.owning_visitor (VisitRequest.visitor_id r) phone_number db)
    as [v|]; [|discriminate].
  destruct (VisitStatus_eqb (VisitRequest.status r) PENDING); [|discriminate].
  cbn [negb]. unfold create_notification, save_visit_request, commit, modify.
  step_handler. intros H. injection H as _ <-.
  exists r. eexists. repeat split.
Qed.

(** X11. The resident is told of what needs or changes their decision: a
    visitor's registration and a recorded walk-in that answer normally
    each add exactly one unread notification addressed to the resident
    the request names, and a cancellation that answers normally adds
    exactly one addressed to the resident of the cancelled request. *)
Theorem resident_is_notified_once
    (clock : Clock) (db : Database) :
  (forall visit_data r db',
      serve (VisitorApi.register_visit_request visit_data) db = (Returned r, db') ->
      exists n,
        notifications db' = (notifications db ++ [n])%list
        /\ Notification.user_id n = VisitRequest.resident_id r
        /\ Notification.is_read n = false)
  /\ (forall visitor_data current_user r db',
      serve (Security.record_walk_in_entry clock visitor_data current_user) db
      = (Returned r, db') ->
      exists n,
        notifications db' = (notifications db ++ [n])%list
        /\ Notification.user_id n = VisitRequest.resident_id r
        /\ Notification.is_read n = false)
  /\ (forall request_id phone_number msg db',
      serve (VisitorApi.cancel_visit_request clock request_id phone_number) db
      = (Returned msg, db') ->
      exists r n,
        Security.request_by_id request_id db = Some r
        /\ notifications db' = (notifications db ++ [n])%list
        /\ Notification.user_id n = VisitRequest.resident_id r
        /\ Notification.is_read n = false).
Proof.
  split; [|split].
  - intros visit_data r db' Hrun.
    destruct (approved_resident (VisitorRegistrationCreate.resident_id visit_data) db)
      as [resident|] eqn:Hres.
    2:{ revert Hrun. unfold VisitorApi.register_visit_request. step_handler.
        rewrite Hres. discriminate. }
    destruct (find (blacklist_filter (VisitorRegistrationCreate.phone_number visit_data)
                      (VisitorRegistrationCreate.resident_id visit_data))
                (blacklist db)) eqn:Hbl.
    { revert Hrun. unfold VisitorApi.register_visit_request. step_handler.
      rewrite Hres. step_handler. rewrite Hbl. discriminate. }
    destruct (VisitorApi.duplicate_pending
                (registering_visitor_id
                   (VisitorRegistrationCreate.phone_number visit_data) db)
                (VisitorRegistrationCreate.resident_id visit_data)
                (VisitorRegistrationCreate.visit_date visit_data) db)
      as [dup|] eqn:Hdup.
    { rewrite (register_visit_request_duplicate visit_data db resident dup Hres Hbl Hdup)
        in Hrun. discriminate. }
    destruct (register_visit_request_run visit_data db resident Hres Hbl Hdup)
      as [r1 [db1 [Hrun1 [_ [_ [_ [_ [Hrid _]]]]]]]].
    destruct (register_visit_request_effect visit_data db resident Hres Hbl Hdup)
      as [r0 [db0 [n [Hrun0 [_ [_ [_ [_ [_ [_ [Hn [Hto [_ Hunread]]]]]]]]]]]]].
    rewrite Hrun0 in Hrun1. injection Hrun1 as <- <-.
    rewrite Hrun0 in Hrun. injection Hrun as <- <-.
    exists n. repeat split; try assumption. congruence.
  - intros visitor_data current_user r db' Hrun.
    destruct (Security.access_denied current_user) eqn:Hacc.
    { unfold Security.record_walk_in_entry in Hrun. rewrite Hacc in Hrun. discriminate. }
    destruct (find (blacklist_filter (VisitorWalkInCreate.phone_number visitor_data)
                      (VisitorWalkInCreate.resident_id visitor_data))
                (blacklist db)) eqn:Hbl.
    { unfold Security.record_walk_in_entry in Hrun. rewrite Hacc in Hrun.
      revert Hrun. step_handler. rewrite Hbl. discriminate. }
    destruct (approved_resident (VisitorWalkInCreate.resident_id visitor_data) db)
      as [resident|] eqn:Hres.
    2:{ unfold Security.record_walk_in_entry in Hrun. rewrite Hacc in Hrun.
        revert Hrun. step_handler. rewrite Hbl. step_handler. rewrite Hres.
        discriminate. }
    destruct (record_walk_in_entry_run clock visitor_data current_user db resident
                Hacc Hbl Hres) as [r1 [db1 [Hrun1 [_ [_ [_ [_ [Hrid _]]]]]]]].
    destruct (record_walk_in_entry_effect clock visitor_data current_user db resident
                Hacc Hbl Hres)
      as [r0 [db0 [n [Hrun0 [_ [_ [_ [_ [_ [_ [Hn [Hto [_ Hunread]]]]]]]]]]]]].
    rewrite Hrun0 in Hrun1. injection Hrun1 as <- <-.
    rewrite Hrun0 in Hrun. injection Hrun as <- <-.
    exists n. repeat split; try assumption. congruence.
  - intros request_id phone_number msg db' Hrun.
    destruct (cancel_visit_request_fan_out clock request_id phone_number db msg db' Hrun)
      as [r [n [Hr [Hn [Hto [_ Hunread]]]]]].
    exists r, n. auto.
Qed.

Lemma resident_is_notified_once_witness :
  exists n,
    notifications Scenario.db_pending = (notifications Scenario.estate ++ [n])%list
    /\ Notification.user_id n = 42
    /\ Notification.is_read n = false.
Proof.
  destruct (proj1 (resident_is_notified_once Scenario.clock Scenario.estate)
              Scenario.jane_today Cases.pending_request Scenario.db_pending)
    as [n Hn].
  - vm_compute. reflexivity.
  - exists n. exact Hn.
Defined.

(** ** After a denial *)

Lemma deny_visit_request_returned clock request_id current_user db msg db' :
  serve (Resident.deny_visit_request clock request_id current_user) db
  = (Returned msg, db') ->
  exists r v,
    Resident.own_request request_id current_user db = Some r
    /\ visitor_by_id (VisitRequest.visitor_id r) db = Some v
    /\ blacklist db'
       = (blacklist db
          ++ [denial_entry clock current_user v
                (next_id (map Blacklist.id (blacklist db)))])%list
    /\ users db' = users db
    /\ notifications db' = notifications db.
Proof.
  unfold Resident.deny_visit_request.
  destruct (Resident.access_denied current_user); [discriminate|].
  step_handler.
  destruct (Resident.own_request request_id current_user db) as [r|]; [|discriminate].
  destruct (VisitStatus_eqb (VisitRequest.status r) PENDING); [|discriminate].
  cbn [negb]. step_handler.
  cbn [VisitRequest.set_denied_at VisitRequest.set_status VisitRequest.visitor_id].
  destruct (visitor_by_id (VisitRequest.visitor_id r) db) as [v|] eqn:Hv;
    [|discriminate].
  unfold save_visit_request, add_blacklist, commit, modify. step_handler.
  finish_fan_out. intros H. injection H as _ <-.
  exists r, v. repeat split. exact Hv.
Qed.

Lemma denial_entry_matches clock current_user v k l :
  exists b,
    find (blacklist_filter (Visitor.phone_number v) (User.id current_user))
         (l ++ [denial_entry clock current_user v k]) = Some b.
Proof.
  apply find_some_ex with (x := denial_entry clock current_user v k).
  - apply in_or_app. right. now left.
  - unfold blacklist_filter, denial_entry.
    cbn [Blacklist.visitor_phone Blacklist.resident_id Blacklist.is_active].
    now rewrite String.eqb_refl, Nat.eqb_refl.
Qed.

(** X12. A denied visitor is barred from that resident: once a denial has
    answered normally, every later attempt to create a request for the
    denied visitor's phone number and the denying resident is refused as
    blacklisted and stores nothing, whether the visitor registers (for
    any date), security records a walk-in, or the resident registers the
    visitor. *)
Theorem denied_visitor_is_barred
    (generate_qr_code : string -> string) (clock clock' : Clock)
    (request_id : nat) (current_user : User.t) (db db' : Database) (msg : string) :
  serve (Resident.deny_visit_request clock request_id current_user) db
  = (Returned msg, db') ->
  exists r v,
    Resident.own_request request_id current_user db = Some r
    /\ visitor_by_id (VisitRequest.visitor_id r) db = Some v
    /\ (forall visit_data resident,
          VisitorRegistrationCreate.phone_number visit_data = Visitor.phone_number v ->
          VisitorRegistrationCreate.resident_id visit_data = User.id current_user ->
          approved_resident (User.id current_user) db' = Some resident ->
          serve (VisitorApi.register_visit_request visit_data) db'
          = (Raised blacklisted_visit_answer, db'))
    /\ (forall visitor_data officer,
          VisitorWalkInCreate.phone_number visitor_data = Visitor.phone_number v ->
          VisitorWalkInCreate.resident_id visitor_data = User.id current_user ->
          Security.access_denied officer = false ->
          serve (Security.record_walk_in_entry clock' visitor_data officer) db'
          = (Raised blacklisted_walk_in_answer, db'))
    /\ (forall visitor_data,
          VisitorCreate.phone_number visitor_data = Visitor.phone_number v ->
          serve (Resident.register_visitor generate_qr_code clock' visitor_data
                   current_user) db'
          = (Raised blacklisted_invite_answer, db')).
Proof.
  intros Hrun.
  assert (Hacc : Resident.access_denied current_user = false).
  { unfold Resident.deny_visit_request in Hrun.
    destruct (Resident.access_denied current_user); [discriminate|reflexivity]. }
  destruct (deny_visit_request_returned clock request_id current_user db msg db' Hrun)
    as [r [v [Hr [Hv [Hbl _]]]]].
  exists r, v. split; [assumption|]. split; [assumption|].
  destruct (denial_entry_matches clock current_user v
              (next_id (map Blacklist.id (blacklist db))) (blacklist db)) as [b Hb].
  rewrite <- Hbl in Hb.
  split; [|split].
  - intros visit_data resident Hp Hrid Hres.
    unfold VisitorApi.register_visit_request. step_handler.
    rewrite Hrid, Hres. step_handler. rewrite Hp, Hb. reflexivity.
  - intros visitor_data officer Hp Hrid Hofficer.
    unfold Security.record_walk_in_entry. rewrite Hofficer. step_handler.
    rewrite Hp, Hrid, Hb. reflexivity.
  - intros visitor_data Hp.
    unfold Resident.register_visitor. rewrite Hacc. step_handler.
    rewrite Hp, Hb. reflexivity.
Qed.

Lemma denied_visitor_is_barred_witness :
  serve (VisitorApi.register_visit_request
           (VisitorRegistrationCreate.mk "Jane" Scenario.jane_phone None None
              "again" 42 30%Z 900%Z))
        Scenario.db_denied_once
  = (Raised blacklisted_visit_answer, Scenario.db_denied_once).
Proof.
  destruct (denied_visitor_is_barred Scenario.qr Scenario.clock Scenario.next_day
              1 Scenario.r42 Scenario.db_two_pending Scenario.db_denied_once
              "Visit request denied and visitor blacklisted")
    as [r [v [Hr [Hv [Hvisit _]]]]].
  - vm_compute. reflexivity.
  - vm_compute in Hr. injection Hr as <-.
    vm_compute in Hv. injection Hv as <-.
    apply (Hvisit _ Scenario.r42); reflexivity.
Defined.

(** ** The blacklist enquiry *)

(** X13. The public blacklist enquiry and the creation gate agree: the
    enquiry always answers, changes nothing, and reports a pair as
    blacklisted exactly when some row for the pair has [is_active] set,
    which is exactly when a visitor's registration for that pair, to an
    approved resident, is refused as blacklisted; the reason it reports
    is that of a row for the pair. *)
Theorem enquiry_agrees_with_gate
    (phone_number : string) (resident_id : nat) (db : Database) :
  exists st,
    serve (VisitorEnquiry.check_blacklist_status phone_number resident_id) db
    = (Returned st, db)
    /\ (VisitorEnquiry.is_blacklisted st = true <->
        exists b, In b (blacklist db)
                  /\ Blacklist.visitor_phone b = phone_number
                  /\ Blacklist.resident_id b = resident_id
                  /\ Blacklist.is_active b = true)
    /\ (forall visit_data resident,
          VisitorRegistrationCreate.phone_number visit_data = phone_number ->
          VisitorRegistrationCreate.resident_id visit_data = resident_id ->
          approved_resident resident_id db = Some resident ->
          (VisitorEnquiry.is_blacklisted st = true <->
           serve (VisitorApi.register_visit_request visit_data) db
           = (Raised blacklisted_visit_answer, db)))
    /\ (forall why, VisitorEnquiry.reason st = Some why ->
          exists b, In b (blacklist db)
                    /\ Blacklist.visitor_phone b = phone_number
                    /\ Blacklist.resident_id b = resident_id
                    /\ Blacklist.is_active b = true
                    /\ Blacklist.reason b = why).
Proof.
  unfold VisitorEnquiry.check_blacklist_status. step_handler.
  destruct (find (blacklist_filter phone_number resident_id) (blacklist db))
    as [b|] eqn:E; step_handler.
  - assert (Hb : exists b, In b (blacklist db)
                           /\ Blacklist.visitor_phone b = phone_number
                           /\ Blacklist.resident_id b = resident_id
                           /\ Blacklist.is_active b = true).
    { apply blacklist_filter_some. now exists b. }
    eexists. split; [reflexivity|]. cbn [VisitorEnquiry.is_blacklisted
                                        VisitorEnquiry.reason].
    split; [tauto|]. split.
    + intros visit_data resident Hp Hr Hres. subst.
      rewrite (register_visit_request_blocked visit_data db resident Hres). tauto.
    + intros why Hwhy. injection Hwhy as <-.
      apply find_some in E as [Hin Hf]. exists b.
      unfold blacklist_filter in Hf.
      apply andb_prop in Hf as [Hf Ha]. apply andb_prop in Hf as [Hp Hr].
      apply String.eqb_eq in Hp. apply Nat.eqb_eq in Hr. auto.
  - assert (Hb : ~ exists b, In b (blacklist db)
                             /\ Blacklist.visitor_phone b = phone_number
                             /\ Blacklist.resident_id b = resident_id
                             /\ Blacklist.is_active b = true).
    { intros H. apply blacklist_filter_some in H as [b Hb]. congruence. }
    eexists. split; [reflexivity|]. cbn [VisitorEnquiry.is_blacklisted
                                        VisitorEnquiry.reason].
    split; [split; [discriminate|tauto]|]. split.
    + intros visit_data resident Hp Hr Hres. subst.
      rewrite (register_visit_request_blocked visit_data db resident Hres).
      split; [discriminate|tauto].
    + discriminate.
Qed.

Lemma enquiry_agrees_with_gate_witness :
  exists st,
    serve (VisitorEnquiry.check_blacklist_status Scenario.jane_phone 42)
          Scenario.db_denied_once = (Returned st, Scenario.db_denied_once)
    /\ VisitorEnquiry.is_blacklisted st = true
    /\ VisitorEnquiry.reason st = Some "Visit request denied by resident".
Proof.
  destruct (enquiry_agrees_with_gate Scenario.jane_phone 42 Scenario.db_denied_once)
    as [st [Hrun [Hiff _]]].
  exists st. split; [exact Hrun|].
  vm_compute in Hrun. injection Hrun as <-. split; reflexivity.
Defined.

(** ** Marking notifications as read *)

Lemma own_notification_in notification_id current_user db n :
  own_notification notification_id current_user db = Some n ->
  In n (notifications db) /\ Notification.id n = notification_id
  /\ Notification.user_id n = User.id current_user.
Proof.
  unfold own_notification. intros H. apply find_some in H as [Hin H].
  apply andb_prop in H as [Hk Hu].
  apply Nat.eqb_eq in Hk. apply Nat.eqb_eq in Hu. auto.
Qed.

Lemma replace_row_twice {A} (key : A -> nat) (row : A) (rows : list A) :
  replace_row key row (replace_row key row rows) = replace_row key row rows.
Proof.
  unfold replace_row. rewrite map_map. apply map_ext. intros x.
  destruct (Nat.eqb_spec (key x) (key row)) as [E|E].
  - now rewrite Nat.eqb_refl.
  - destruct (Nat.eqb_spec (key x) (key row)); [contradiction|reflexivity].
Qed.

Lemma find_in_replace_row {A} (key : A -> nat) (f : A -> bool) (row x : A)
    (rows : list A) :
  find f rows = Some x -> key x = key row -> f row = true ->
  (forall y, In y rows -> f y = true -> key y = key row) ->
  find f (replace_row key row rows) = Some row.
Proof.
  intros Hfind Hk Hrow Honly.
  induction rows as [|a l IH]; simpl in *; [discriminate|].
  destruct (Nat.eqb_spec (key a) (key row)) as [E|E].
  - now rewrite Hrow.
  - destruct (f a) eqn:Ea.
    + elim E. apply Honly; auto.
    + apply IH; [assumption|]. intros y Hy. apply Honly. now right.
Qed.

Lemma mark_notification_as_read_run notification_id current_user db n :
  own_notification notification_id current_user db = Some n ->
  (Resident.access_denied current_user = false ->
   serve (ResidentInbox.mark_notification_as_read notification_id current_user) db
   = (Returned "Notification marked as read",
      set_notifications db
        (replace_row Notification.id (mark_read n) (notifications db))))
  /\ (Security.access_denied current_user = false ->
      serve (SecurityInbox.mark_notification_as_read notification_id current_user) db
      = (Returned "Notification marked as read",
         set_notifications db
           (replace_row Notification.id (mark_read n) (notifications db)))).
Proof.
  intros Hn. split; intros Hacc.
  - unfold ResidentInbox.mark_notification_as_read. rewrite Hacc.
    step_handler. rewrite Hn. unfold commit, modify. step_handler. reflexivity.
  - unfold SecurityInbox.mark_notification_as_read. rewrite Hacc.
    step_handler. rewrite Hn. unfold commit, modify. step_handler. reflexivity.
Qed.

Lemma own_notification_after_mark notification_id current_user db n :
  own_notification notification_id current_user db = Some n ->
  own_notification notification_id current_user
    (set_notifications db (replace_row Notification.id (mark_read n) (notifications db)))
  = Some (mark_read n).
Proof.
  intros Hn. destruct (own_notification_in _ _ _ _ Hn) as [Hin [Hk Hu]].
  unfold own_notification in *. cbn [set_notifications notifications].
  apply find_in_replace_row with (x := n); auto.
  - cbn [mark_read Notification.id Notification.user_id].
    now rewrite Hk, Hu, !Nat.eqb_refl.
  - intros y _ Hy. apply andb_prop in Hy as [Hy _]. apply Nat.eqb_eq in Hy.
    cbn [mark_read Notification.id]. congruence.
Qed.

(** X14. Marking a notification as read is idempotent and touches that
    notification only: for the recipient, the call answers normally,
    sets [is_read] on the rows with that id and leaves title, message,
    type and recipient as they were; every notification with another id,
    and every other table, is unchanged; and a second call answers the
    same and leaves the store exactly as the first call left it.  This
    holds of the resident's and of the security officer's handler. *)
Theorem mark_as_read_is_idempotent
    (notification_id : nat) (current_user : User.t) (db : Database)
    (n : Notification.t) :
  own_notification notification_id current_user db = Some n ->
  let db' := set_notifications db
               (replace_row Notification.id (mark_read n) (notifications db)) in
  (forall x, In x (notifications db) -> Notification.id x <> notification_id ->
             In x (notifications db'))
  /\ (forall x, In x (notifications db') -> Notification.id x = notification_id ->
                Notification.is_read x = true
                /\ Notification.user_id x = Notification.user_id n
                /\ Notification.title x = Notification.title n
                /\ Notification.message x = Notification.message n)
  /\ visit_requests db' = visit_requests db
  /\ blacklist db' = blacklist db
  /\ (Resident.access_denied current_user = false ->
      serve (ResidentInbox.mark_notification_as_read notification_id current_user) db
      = (Returned "Notification marked as read", db')
      /\ serve (ResidentInbox.mark_notification_as_read notification_id current_user) db'
         = (Returned "Notification marked as read", db'))
  /\ (Security.access_denied current_user = false ->
      serve (SecurityInbox.mark_notification_as_read notification_id current_user) db
      = (Returned "Notification marked as read", db')
      /\ serve (SecurityInbox.mark_notification_as_read notification_id current_user) db'
         = (Returned "Notification marked as read", db')).
Proof.
  intros Hn db'.
  destruct (own_notification_in _ _ _ _ Hn) as [Hin [Hk Hu]].
  pose proof (own_notification_after_mark _ _ _ _ Hn) as Hagain.
  assert (Hfix : set_notifications db'
                   (replace_row Notification.id (mark_read (mark_read n))
                      (notifications db')) = db').
  { subst db'. cbn [set_notifications notifications users visitors visit_requests
                    blacklist mark_read Notification.id Notification.user_id
                    Notification.title Notification.message
                    Notification.notification_type].
    change (Notification.mk (Notification.id n) (Notification.user_id n)
              (Notification.title n) (Notification.message n)
              (Notification.notification_type n) true) with (mark_read n).
    now rewrite replace_row_twice. }
  subst db'.
  split; [|split; [|split; [|split; [|split]]]].
  - intros x Hx Hne. cbn [set_notifications notifications].
    apply replace_row_other; [assumption|]. cbn [mark_read Notification.id]. congruence.
  - intros x Hx Hid. cbn [set_notifications notifications] in Hx.
    apply In_replace_row in Hx as [->|[_ Hne]]; [repeat split|].
    elim Hne. cbn [mark_read Notification.id]. congruence.
  - reflexivity.
  - reflexivity.
  - intros Hacc. split.
    + exact (proj1 (mark_notification_as_read_run _ _ _ _ Hn) Hacc).
    + rewrite (proj1 (mark_notification_as_read_run _ _ _ _ Hagain) Hacc).
      now rewrite Hfix.
  - intros Hacc. split.
    + exact (proj2 (mark_notification_as_read_run _ _ _ _ Hn) Hacc).
    + rewrite (proj2 (mark_notification_as_read_run _ _ _ _ Hagain) Hacc).
      now rewrite Hfix.
Qed.

Lemma mark_as_read_is_idempotent_witness :
  serve (ResidentInbox.mark_notification_as_read 1 Scenario.r42)
        (set_notifications Cases.db_inbox
           (replace_row Notification.id (mark_read Cases.for_r42)
              (notifications Cases.db_inbox)))
  = (Returned "Notification marked as read",
     set_notifications Cases.db_inbox
       (replace_row Notification.id (mark_read Cases.for_r42)
          (notifications Cases.db_inbox))).
Proof.
  pose proof (mark_as_read_is_idempotent 1 Scenario.r42 Cases.db_inbox Cases.for_r42
                eq_refl) as H.
  cbv zeta in H. destruct H as [_ [_ [_ [_ [H _]]]]].
  exact (proj2 (H eq_refl)).
Defined.



(** ** Validity of a blacklist entry over time *)

(** X16. How a blacklist entry's validity depends on the time, by the
    model's [is_valid]: an inactive entry is never valid; a permanent
    entry, and a time-bounded entry without an expiry date, is valid at
    every time while active; a time-bounded entry with an expiry date is
    valid up to and including that instant and at no later time; so
    validity, once lost by the passing of time, does not come back. *)
Theorem blacklist_validity_over_time (b : Blacklist.t) (now later : Z) :
  (Blacklist.is_active b = false -> Blacklist.is_valid now b = false)
  /\ (Blacklist.is_permanent b = true \/ Blacklist.expires_at b = None ->
      Blacklist.is_valid now b = Blacklist.is_active b)
  /\ (forall e, Blacklist.is_permanent b = false -> Blacklist.expires_at b = Some e ->
                Blacklist.is_valid now b = Blacklist.is_active b && (now <=? e)%Z)
  /\ ((now <= later)%Z -> Blacklist.is_valid later b = true ->
      Blacklist.is_valid now b = true).
Proof.
  unfold Blacklist.is_valid, Blacklist.is_expired.
  split; [|split; [|split]].
  - intros ->. reflexivity.
  - intros [-> | ->]; destruct (Blacklist.is_permanent b), (Blacklist.is_active b);
      reflexivity.
  - intros e -> ->. destruct (Blacklist.is_active b); [|reflexivity]. simpl.
    destruct (Z.ltb_spec e now), (Z.leb_spec now e); try reflexivity; lia.
  - intros Hle. destruct (Blacklist.is_active b); [|discriminate]. simpl.
    destruct (Blacklist.is_permanent b); [auto|].
    destruct (Blacklist.expires_at b) as [e|]; [|auto].
    destruct (Z.ltb_spec e later), (Z.ltb_spec e now); simpl; try discriminate;
      try reflexivity. lia.
Qed.

Lemma blacklist_validity_over_time_witness :
  Blacklist.is_valid 500%Z Scenario.lapsed_entry = true
  /\ Blacklist.is_valid 501%Z Scenario.lapsed_entry = false
  /\ Blacklist.is_valid 1000%Z Cases.open_ended_ban = true.
Proof.
  pose proof (blacklist_validity_over_time Scenario.lapsed_entry 500%Z 501%Z)
    as [_ [_ [Hbounded _]]].
  pose proof (blacklist_validity_over_time Scenario.lapsed_entry 501%Z 501%Z)
    as [_ [_ [Hbounded' _]]].
  pose proof (blacklist_validity_over_time Cases.open_ended_ban 1000%Z 1000%Z)
    as [_ [Hopen _]].
  split; [|split].
  - rewrite (Hbounded 500%Z eq_refl eq_refl). reflexivity.
  - rewrite (Hbounded' 500%Z eq_refl eq_refl). reflexivity.
  - rewrite (Hopen (or_intror eq_refl)). reflexivity.
Defined.

(** ** The Django views: departure and denial *)

Lemma django_saved_row_is_found pk s r0 r :
  Django.get_visit_request pk s = Some r0 ->
  Django.VisitRequest.id r = pk ->
  Django.get_visit_request pk (Django.save r s) = Some r.
Proof.
  unfold Django.get_visit_request, Django.save. cbn [Django.visit_requests].
  intros H Hk. destruct (find_key_in _ _ _ _ H) as [_ Hk0].
  apply find_in_replace_row with (x := r0); auto.
  - congruence.
  - now apply Nat.eqb_eq.
  - intros y _ Hy. apply Nat.eqb_eq in Hy. congruence.
Qed.

(** X17. A departure is recorded at most once: after [record_exit] has
    answered normally for a request, the stored request has both its
    arrival and its departure time, and any further [record_exit] for the
    same request by security or an administrator is refused with 'Exit
    time already recorded' and leaves the store as it is. *)
Theorem departure_is_recorded_once
    (now later : Z) (request request' : Django.Request)
    (s s' : Django.Store) (r : Django.VisitRequest.t) :
  Django.record_exit now request s = (Django.Ok r, s') ->
  Django.visit_request_id request' = Django.visit_request_id request ->
  Django.IsSecurityOrAdmin request' = true ->
  (exists arrival, Django.VisitRequest.entry_time r = Some arrival)
  /\ Django.VisitRequest.exit_time r = Some now
  /\ Django.record_exit later request' s'
     = (Django.Error HTTP_400_BAD_REQUEST "Exit time already recorded", s').
Proof.
  intros Hrun Hsame Hperm.
  destruct (record_exit_needs_arrival_once now request s r s' Hrun)
    as [k [r0 [arrival [Hk [Hget [_ [_ [Hentry [Hexit ->]]]]]]]]].
  split; [now exists arrival|]. split; [assumption|].
  assert (Hid : Django.VisitRequest.id r = k).
  { unfold Django.record_exit in Hrun.
    destruct (negb (Django.IsSecurityOrAdmin request)); [discriminate|].
    rewrite Hk in Hrun. destruct k as [|k]; [discriminate|].
    cbn [Django.missing] in Hrun. rewrite Hget in Hrun.
    destruct (Django.VisitRequest.entry_time r0); [|discriminate].
    destruct (Django.VisitRequest.exit_time r0); [discriminate|].
    injection Hrun as <- _. cbn [Django.VisitRequest.id].
    now destruct (find_key_in _ _ _ _ Hget). }
  assert (Hpos : Django.missing (Some k) = false).
  { unfold Django.record_exit in Hrun.
    destruct (negb (Django.IsSecurityOrAdmin request)); [discriminate|].
    rewrite Hk in Hrun. destruct (Django.missing (Some k)); [discriminate|reflexivity]. }
  unfold Django.record_exit. rewrite Hperm, Hsame, Hk, Hpos. cbn [negb].
  rewrite (django_saved_row_is_found k s r0 r Hget Hid), Hentry, Hexit.
  reflexivity.
Qed.

Lemma departure_is_recorded_once_witness :
  Django.record_exit 400%Z Scenario.officer (Django.mkStore [Cases.departed] [])
  = (Django.Error HTTP_400_BAD_REQUEST "Exit time already recorded",
     Django.mkStore [Cases.departed] []).
Proof.
  apply (proj2 (proj2 (departure_is_recorded_once 300%Z 400%Z Scenario.officer
                         Scenario.officer Scenario.gate
                         (Django.mkStore [Cases.departed] []) Cases.departed
                         eq_refl eq_refl eq_refl))).
Defined.

(** X18. In the Django view a denial is final and bars the pair: a denial
    that answers OK returns the request as denied, leaves a blacklist
    row for its visitor and resident on file, and any further denial of
    the same request by the owning resident or an administrator is
    refused with 'Visit request is not pending' without another write. *)
Theorem django_denial_is_final
    (request request' : Django.Request) (pk : nat)
    (s s' : Django.Store) (r : Django.VisitRequest.t) :
  Django.deny_visit_request request pk s = (Django.Ok r, s') ->
  Django.IsResidentOrAdmin request' = true ->
  (Django.user_type request' = role_resident ->
   Django.user_id request' = Django.VisitRequest.resident r) ->
  Django.VisitRequest.status r = DENIED
  /\ (exists b, In b (Django.blacklisted_visitors s')
                /\ Django.BlacklistedVisitor.visitor b = Django.VisitRequest.visitor r
                /\ Django.BlacklistedVisitor.resident b = Django.VisitRequest.resident r)
  /\ Django.deny_visit_request request' pk s'
     = (Django.Error HTTP_400_BAD_REQUEST "Visit request is not pending", s').
Proof.
  intros Hrun Hperm Hown. unfold Django.deny_visit_request in Hrun.
  destruct (negb (Django.IsResidentOrAdmin request)); [discriminate|].
  destruct (Django.get_visit_request pk s) as [r0|] eqn:Hget; [|discriminate].
  destruct (_ && _); [discriminate|].
  destruct (negb _); [discriminate|].
  injection Hrun as <- <-.
  set (r := Django.VisitRequest.mk (Django.VisitRequest.id r0)
              (Django.VisitRequest.visitor r0) (Django.VisitRequest.resident r0)
              DENIED (Django.VisitRequest.approval_date r0)
              (Django.VisitRequest.entry_time r0) (Django.VisitRequest.exit_time r0)
              (Django.VisitRequest.security_personnel r0)) in *.
  cbn [Django.VisitRequest.visitor Django.VisitRequest.resident
       Django.VisitRequest.status] in *.
  destruct (find_key_in _ _ _ _ Hget) as [_ Hk0].
  assert (Hfound : Django.get_visit_request pk (Django.save r s) = Some r)
    by (apply django_saved_row_is_found with (r0 := r0); assumption).
  split; [reflexivity|].
  unfold Django.get_or_create.
  destruct (find _ (Django.blacklisted_visitors (Django.save r s))) as [b|] eqn:E.
  - split.
    + apply find_some in E as [Hin Hf]. apply andb_prop in Hf as [Hv Hr].
      apply Nat.eqb_eq in Hv. apply Nat.eqb_eq in Hr. exists b. auto.
    + unfold Django.deny_visit_request. rewrite Hperm, Hfound.
      cbn [negb Django.VisitRequest.resident Django.VisitRequest.status r].
      destruct (Role_eqb (Django.user_type request') role_resident) eqn:Hrole.
      * assert (Hu : Django.user_type request' = role_resident)
          by (destruct (Django.user_type request'); try discriminate; reflexivity).
        rewrite (Hown Hu), Nat.eqb_refl. reflexivity.
      * reflexivity.
  - split.
    + eexists. split; [cbn [Django.blacklisted_visitors]; apply in_or_app; right;
                       left; reflexivity|]. split; reflexivity.
    + unfold Django.deny_visit_request. rewrite Hperm.
      change (Django.get_visit_request pk (Django.mkStore
                (Django.visit_requests (Django.save r s)) ?x))
        with (Django.get_visit_request pk (Django.save r s)).
      rewrite Hfound.
      cbn [negb Django.VisitRequest.resident Django.VisitRequest.status r].
      destruct (Role_eqb (Django.user_type request') role_resident) eqn:Hrole.
      * assert (Hu : Django.user_type request' = role_resident)
          by (destruct (Django.user_type request'); try discriminate; reflexivity).
        rewrite (Hown Hu), Nat.eqb_refl. reflexivity.
      * reflexivity.
Qed.

Lemma django_denial_is_final_witness :
  Django.deny_visit_request Scenario.manager 5
    (snd (Django.deny_visit_request Scenario.manager 5
            (Django.mkStore
               [Django.VisitRequest.mk 5 1 42 PENDING None None None None] [])))
  = (Django.Error HTTP_400_BAD_REQUEST "Visit request is not pending",
     snd (Django.deny_visit_request Scenario.manager 5
            (Django.mkStore
               [Django.VisitRequest.mk 5 1 42 PENDING None None None None] []))).
Proof.
  apply (proj2 (proj2 (django_denial_is_final Scenario.manager Scenario.manager 5
                         (Django.mkStore
                            [Django.VisitRequest.mk 5 1 42 PENDING None None None None]
                            [])
                         _ (Django.VisitRequest.mk 5 1 42 DENIED None None None None)
                         eq_refl eq_refl ltac:(discriminate)))).
Defined.

(** ** Strings *)

Lemma all_chars_keep_chars (p : ascii -> bool) (s : string) :
  all_chars p (keep_chars p s) = true.
Proof.
  induction s as [|c s IH]; simpl; [reflexivity|].
  destruct (p c) eqn:E; simpl; [now rewrite E|assumption].
Qed.

Lemma keep_chars_all (p : ascii -> bool) (s : string) :
  all_chars p s = true -> keep_chars p s = s.
Proof.
  induction s as [|c s IH]; simpl; [reflexivity|].
  intros H. apply andb_prop in H as [Hc Hs]. now rewrite Hc, IH.
Qed.

Lemma all_chars_weaken (p q : ascii -> bool) (s : string) :
  (forall c, p c = true -> q c = true) -> all_chars p s = true -> all_chars q s = true.
Proof.
  intros Hpq. induction s as [|c s IH]; simpl; [reflexivity|].
  intros H. apply andb_prop in H as [Hc Hs]. now rewrite (Hpq c Hc), IH.
Qed.

Lemma length_keep_chars (p : ascii -> bool) (s : string) :
  String.length (keep_chars p s) <= String.length s.
Proof.
  induction s as [|c s IH]; simpl; [lia|]. destruct (p c); simpl; lia.
Qed.

Lemma length_append (a b : string) :
  String.length (a ++ b) = String.length a + String.length b.
Proof. induction a as [|c a IH]; simpl; [reflexivity|now rewrite IH]. Qed.

Lemma length_repeat_char (c : ascii) (n : nat) : String.length (repeat_char c n) = n.
Proof. induction n as [|n IH]; simpl; [reflexivity|now rewrite IH]. Qed.

Lemma length_substring (s : string) :
  forall n m, n + m <= String.length s -> String.length (substring n m s) = m.
Proof.
  induction s as [|c s IH]; intros n m H; simpl in H.
  - assert (n = 0) by lia. assert (m = 0) by lia. subst. reflexivity.
  - destruct n as [|n]; simpl.
    + destruct m as [|m]; simpl; [reflexivity|]. rewrite IH; [reflexivity|lia].
    + apply IH. lia.
Qed.

Lemma substring_full (s : string) : substring 0 (String.length s) s = s.
Proof. induction s as [|c s IH]; simpl; [reflexivity|now rewrite IH]. Qed.

Lemma get_repeat_char (c : ascii) (n i : nat) :
  i < n -> String.get i (repeat_char c n) = Some c.
Proof.
  revert i. induction n as [|n IH]; intros i H; [lia|].
  destruct i as [|i]; simpl; [reflexivity|]. apply IH. lia.
Qed.

Lemma get_substring (s : string) :
  forall n m i, i < m -> String.get i (substring n m s) = String.get (n + i) s.
Proof.
  induction s as [|c s IH]; intros n m i H.
  - destruct n, m; simpl; try lia; destruct i; reflexivity.
  - destruct n as [|n]; simpl.
    + destruct m as [|m]; [lia|]. simpl.
      destruct i as [|i]; [reflexivity|]. rewrite IH; [reflexivity|lia].
    + now rewrite IH.
Qed.

(** ** [VisitorBase.validate_phone_number] *)

(** X19. The schema's phone validator: what it accepts is the input with
    everything but digits removed; an accepted number consists of digits
    only, has at least ten of them and is no longer than the input;
    validating an accepted number again accepts it unchanged; and the
    input is rejected exactly when it holds fewer than ten digits. *)
Theorem validated_phone_is_its_digits (v : string) :
  (forall phone,
      VisitorBase.validate_phone_number v = inl phone ->
      phone = keep_chars isdigit v
      /\ all_chars isdigit phone = true
      /\ 10 <= String.length phone <= String.length v
      /\ VisitorBase.validate_phone_number phone = inl phone)
  /\ ((exists err, VisitorBase.validate_phone_number v = inr err)
      <-> String.length (keep_chars isdigit v) < 10).
Proof.
  unfold VisitorBase.validate_phone_number. split.
  - intros phone.
    destruct (Nat.ltb_spec (String.length (keep_chars isdigit v)) 10) as [Hlt|Hge];
      [discriminate|].
    intros H. injection H as <-.
    pose proof (all_chars_keep_chars isdigit v) as Hall.
    pose proof (length_keep_chars isdigit v) as Hlen.
    repeat split; try assumption.
    rewrite (keep_chars_all isdigit _ Hall).
    destruct (Nat.ltb_spec (String.length (keep_chars isdigit v)) 10); [lia|reflexivity].
  - destruct (Nat.ltb_spec (String.length (keep_chars isdigit v)) 10) as [Hlt|Hge].
    + split; [auto|]. intros _. now eexists.
    + split; [intros [err H]; discriminate|lia].
Qed.

Lemma validated_phone_is_its_digits_witness :
  VisitorBase.validate_phone_number "+254 712-345-678" = inl "254712345678"
  /\ VisitorBase.validate_phone_number "254712345678" = inl "254712345678".
Proof.
  destruct (proj1 (validated_phone_is_its_digits "+254 712-345-678")
              "254712345678" eq_refl) as [_ [_ [_ H]]].
  split; [reflexivity|exact H].
Defined.

(** ** [PhoneHelper] *)

Lemma cleaned_digits (d : string) :
  all_chars isdigit d = true ->
  keep_chars (fun c => isdigit c || Ascii.eqb c "+"%char) d = d.
Proof.
  intros H. apply keep_chars_all.
  apply (all_chars_weaken isdigit); [|assumption].
  intros c ->. reflexivity.
Qed.

Lemma subscriber_head (d : string) :
  (startswith "7" d || startswith "1" d) = true ->
  exists d', d = String "7"%char d' \/ d = String "1"%char d'.
Proof.
  destruct d as [|c d']; [simpl; discriminate|]. unfold startswith. cbn [prefix].
  destruct (ascii_dec "7"%char c) as [<-|]; [intros _; exists d'; auto|].
  destruct (ascii_dec "1"%char c) as [<-|]; [intros _; exists d'; auto|].
  discriminate.
Qed.

Lemma prefix_nil (s : string) : prefix "" s = true.
Proof. now destruct s. Qed.

Lemma format_of_canonical (d : string) :
  String.length d = 9 -> all_chars isdigit d = true ->
  (startswith "7" d || startswith "1" d) = true ->
  PhoneHelper.format_kenyan_phone d = "+254" ++ d
  /\ PhoneHelper.format_kenyan_phone ("0" ++ d) = "+254" ++ d
  /\ PhoneHelper.format_kenyan_phone ("254" ++ d) = "+254" ++ d
  /\ PhoneHelper.format_kenyan_phone ("+254" ++ d) = "+254" ++ d.
Proof.
  intros Hlen Hall Hhead. pose proof (cleaned_digits d Hall) as Hclean.
  unfold PhoneHelper.format_kenyan_phone.
  repeat split.
  - rewrite Hclean, Hlen, Hhead.
    destruct (subscriber_head d Hhead) as [d' [-> | ->]]; reflexivity.
  - cbn [append String.eqb keep_chars].
    change (isdigit "0" || Ascii.eqb "0" "+")%bool with true. cbv iota.
    rewrite Hclean. cbn [startswith prefix].
    destruct (ascii_dec "+" "0"); [discriminate|].
    destruct (ascii_dec "2" "0"); [discriminate|].
    destruct (ascii_dec "0" "0"); [|congruence].
    rewrite prefix_nil.
    cbn [String.length Nat.sub substring]. rewrite Nat.sub_0_r, substring_full.
    reflexivity.
  - cbn [append String.eqb keep_chars].
    change (isdigit "2" || Ascii.eqb "2" "+")%bool with true.
    change (isdigit "5" || Ascii.eqb "5" "+")%bool with true.
    change (isdigit "4" || Ascii.eqb "4" "+")%bool with true. cbv iota.
    rewrite Hclean. cbn [startswith prefix].
    destruct (ascii_dec "+" "2"); [discriminate|].
    destruct (ascii_dec "2" "2"); [|congruence].
    destruct (ascii_dec "5" "5"); [|congruence].
    destruct (ascii_dec "4" "4"); [|congruence].
    rewrite prefix_nil. reflexivity.
  - cbn [append String.eqb keep_chars].
    change (isdigit "+" || Ascii.eqb "+" "+")%bool with true.
    change (isdigit "2" || Ascii.eqb "2" "+")%bool with true.
    change (isdigit "5" || Ascii.eqb "5" "+")%bool with true.
    change (isdigit "4" || Ascii.eqb "4" "+")%bool with true. cbv iota.
    rewrite Hclean. cbn [startswith prefix].
    destruct (ascii_dec "+" "+"); [|congruence].
    destruct (ascii_dec "2" "2"); [|congruence].
    destruct (ascii_dec "5" "5"); [|congruence].
    destruct (ascii_dec "4" "4"); [|congruence].
    rewrite prefix_nil. reflexivity.
Qed.

Lemma valid_when_canonical (phone d : string) :
  PhoneHelper.format_kenyan_phone phone = "+254" ++ d ->
  String.length d = 9 -> all_chars isdigit d = true ->
  (startswith "7" d || startswith "1" d) = true ->
  PhoneHelper.is_valid_kenyan_phone phone = true.
Proof.
  intros Hf Hlen Hall Hhead. unfold PhoneHelper.is_valid_kenyan_phone. rewrite Hf.
  cbn [append String.length startswith prefix]. rewrite Hlen.
  destruct (ascii_dec "+" "+"); [|congruence].
  destruct (ascii_dec "2" "2"); [|congruence].
  destruct (ascii_dec "5" "5"); [|congruence].
  destruct (ascii_dec "4" "4"); [|congruence].
  rewrite prefix_nil. cbn [Nat.eqb negb orb Nat.sub substring].
  assert (Hsub : substring 0 9 d = d) by (rewrite <- Hlen; apply substring_full).
  rewrite Hsub. unfold str_isdigit. rewrite Hall, Hlen.
  destruct (subscriber_head d Hhead) as [d' [-> | ->]]; reflexivity.
Qed.

(** X20. The four usual spellings of a Kenyan subscriber number are one
    number to [PhoneHelper]: for nine digits that start with 7 or 1, the
    bare digits, the digits after a leading 0, after 254 and after +254
    are all formatted to +254 followed by the digits, and all four are
    accepted as valid. *)
Theorem kenyan_spellings_normalise (d : string) :
  String.length d = 9 -> all_chars isdigit d = true ->
  (startswith "7" d || startswith "1" d) = true ->
  forall phone, In phone [d; "0" ++ d; "254" ++ d; "+254" ++ d] ->
  PhoneHelper.format_kenyan_phone phone = "+254" ++ d
  /\ PhoneHelper.is_valid_kenyan_phone phone = true.
Proof.
  intros Hlen Hall Hhead phone Hin.
  destruct (format_of_canonical d Hlen Hall Hhead) as [H1 [H2 [H3 H4]]].
  assert (Hf : PhoneHelper.format_kenyan_phone phone = "+254" ++ d).
  { destruct Hin as [<-|[<-|[<-|[<-|[]]]]]; assumption. }
  split; [assumption|]. now apply valid_when_canonical with (d := d).
Qed.

Lemma kenyan_spellings_normalise_witness :
  PhoneHelper.format_kenyan_phone "0712345678" = "+254712345678"
  /\ PhoneHelper.is_valid_kenyan_phone "0712345678" = true.
Proof.
  apply (kenyan_spellings_normalise "712345678" eq_refl eq_refl eq_refl "0712345678").
  right. left. reflexivity.
Defined.

(** ** [StringHelper.mask_phone_number] *)

(** X21. Masking a phone number keeps its length and shows its ends only:
    the result is as long as the input; from seven characters on, the
    first three and the last three characters are those of the input and
    every character in between is an asterisk; a number of fewer than
    four characters, and one of exactly four, comes back unmasked. *)
Theorem mask_shows_the_ends_only (phone : string) :
  String.length (StringHelper.mask_phone_number phone) = String.length phone
  /\ (String.length phone <= 4 -> StringHelper.mask_phone_number phone = phone)
  /\ (7 <= String.length phone ->
      forall i, i < String.length phone ->
      String.get i (StringHelper.mask_phone_number phone)
      = if (i <? 3) || (String.length phone - 3 <=? i)
        then String.get i phone else Some "*"%char).
Proof.
  unfold StringHelper.mask_phone_number.
  remember (String.length phone) as n eqn:Hn.
  assert (Hempty : String.eqb phone "" = true -> n = 0).
  { intros H. apply String.eqb_eq in H. subst. reflexivity. }
  split; [|split].
  - destruct (String.eqb phone ""); [cbn [orb]; congruence|]. cbn [orb].
    destruct (Nat.ltb_spec n 4); [congruence|].
    destruct (Nat.leb_spec n 6).
    + rewrite !length_append, length_repeat_char, !length_substring by lia. lia.
    + rewrite !length_append, length_repeat_char, !length_substring by lia. lia.
  - intros Hle. destruct (String.eqb phone ""); [reflexivity|]. cbn [orb].
    destruct (Nat.ltb_spec n 4); [reflexivity|].
    assert (H4 : n = 4) by lia.
    destruct (Nat.leb_spec n 6); [|lia].
    rewrite H4. cbn [Nat.sub repeat_char]. rewrite H4 in Hn. clear -Hn.
    destruct phone as [|a [|b [|c [|d [|e rest]]]]]; try discriminate.
    reflexivity.
  - intros Hge i Hi.
    destruct (String.eqb phone "") eqn:E; [specialize (Hempty eq_refl); lia|].
    cbn [orb].
    destruct (Nat.ltb_spec n 4); [lia|].
    destruct (Nat.leb_spec n 6); [lia|].
    assert (Hhead : String.length (substring 0 3 phone) = 3)
      by (apply length_substring; lia).
    assert (Hstars : String.length (repeat_char "*"%char (n - 6)) = n - 6)
      by apply length_repeat_char.
    destruct (Nat.ltb_spec i 3) as [Hlow|Hmid]; cbn [orb].
    + rewrite <- append_correct1 by lia.
      rewrite get_substring by lia. reflexivity.
    + replace i with ((i - 3) + String.length (substring 0 3 phone)) at 1 by lia.
      rewrite <- append_correct2.
      destruct (Nat.leb_spec (n - 3) i) as [Hhigh|Hstar].
      * replace (i - 3) with ((i - (n - 3))
                              + String.length (repeat_char "*"%char (n - 6))) by lia.
        rewrite <- append_correct2, get_substring by lia.
        f_equal. lia.
      * rewrite <- append_correct1 by lia.
        apply get_repeat_char. lia.
Qed.

Lemma mask_shows_the_ends_only_witness :
  StringHelper.mask_phone_number "1234" = "1234"
  /\ String.get 5 (StringHelper.mask_phone_number "+254712345678") = Some "*"%char.
Proof.
  pose proof (mask_shows_the_ends_only "1234") as [_ [Hshort _]].
  pose proof (mask_shows_the_ends_only "+254712345678") as [_ [_ Hlong]].
  split.
  - apply Hshort. simpl. lia.
  - rewrite (Hlong ltac:(simpl; lia) 5 ltac:(simpl; lia)). reflexivity.
Defined.

(** ** From approval to the gate *)

Lemma find_replaced_row {A} (key : A -> nat) (f : A -> bool) (row r : A)
    (rows : list A) :
  In r rows -> key r = key row -> f row = true ->
  (forall y, In y rows -> key y <> key row -> f y = false) ->
  find f (replace_row key row rows) = Some row.
Proof.
  intros Hin Hk Hrow Hothers.
  induction rows as [|a l IH]; simpl in *; [contradiction|].
  destruct (Nat.eqb_spec (key a) (key row)) as [E|E].
  - now rewrite Hrow.
  - rewrite (Hothers a (or_introl eq_refl) E).
    destruct Hin as [->|Hin]; [congruence|].
    apply IH; [assumption|]. intros y Hy. apply Hothers. now right.
Qed.

(** X22. The token an approval issues opens the gate on the day of the
    visit: when an approval has answered normally and no request on file
    carried the issued token before, a verification of that token by an
    approved security officer returns the approved request if the visit
    is scheduled for the day of the verification, and is refused as not
    scheduled for today on any other day. *)
Theorem approved_token_verifies
    (generate_qr_code : string -> string) (clock at_gate : Clock)
    (request_id : nat) (current_user officer : User.t)
    (db db' : Database) (msg : string) (r : VisitRequest.t) :
  serve (Resident.approve_visit_request generate_qr_code clock request_id
           current_user) db = (Returned msg, db') ->
  Resident.own_request request_id current_user db = Some r ->
  (forall x, In x (visit_requests db) ->
             VisitRequest.qr_code x
             <> Some (generate_qr_code
                        (Resident.qr_payload clock (VisitRequest.visitor_id r)
                           (User.id current_user)))) ->
  Security.access_denied officer = false ->
  exists approved,
    VisitRequest.id approved = request_id
    /\ VisitRequest.status approved = APPROVED
    /\ VisitRequest.visit_date approved = VisitRequest.visit_date r
    /\ serve (Security.verify_visitor_qr at_gate
                (generate_qr_code
                   (Resident.qr_payload clock (VisitRequest.visitor_id r)
                      (User.id current_user))) officer) db'
       = if (VisitRequest.visit_date r =? today at_gate)%Z
         then (Returned (verified db' approved), db')
         else (Raised not_today_answer, db').
Proof.
  intros Hrun Hr Hfresh Hofficer.
  assert (Hacc : Resident.access_denied current_user = false).
  { unfold Resident.approve_visit_request in Hrun.
    destruct (Resident.access_denied current_user); [discriminate|reflexivity]. }
  assert (Hs : VisitRequest.status r = PENDING).
  { unfold Resident.approve_visit_request in Hrun. rewrite Hacc in Hrun.
    revert Hrun. step_handler. rewrite Hr.
    destruct (VisitStatus_eqb (VisitRequest.status r) PENDING) eqn:E;
      [intros _; now apply VisitStatus_eqb_eq|discriminate]. }
  destruct (visitor_by_id (VisitRequest.visitor_id r) db) as [v|] eqn:Hv.
  2:{ unfold Resident.approve_visit_request in Hrun. rewrite Hacc in Hrun.
      revert Hrun. step_handler. rewrite Hr, Hs. cbn [negb VisitStatus_eqb].
      unfold save_visit_request, commit, modify. step_handler.
      cbn [VisitRequest.set_qr_code VisitRequest.set_approved_at
           VisitRequest.set_status VisitRequest.visitor_id].
      change (visitor_by_id (VisitRequest.visitor_id r) (set_visit_requests db ?x))
        with (visitor_by_id (VisitRequest.visitor_id r) db).
      rewrite Hv. discriminate. }
  destruct (approve_visit_request_run generate_qr_code clock request_id current_user
              db r v Hacc Hr Hs Hv) as [db0 [Hrun0 [Hreq _]]].
  rewrite Hrun0 in Hrun. injection Hrun as _ <-.
  set (token := generate_qr_code
                  (Resident.qr_payload clock (VisitRequest.visitor_id r)
                     (User.id current_user))) in *.
  set (approved := VisitRequest.set_qr_code
                     (VisitRequest.set_approved_at (VisitRequest.set_status r APPROVED)
                        (Some (utcnow clock))) (Some token)) in *.
  assert (Hin : In r (visit_requests db) /\ VisitRequest.id r = request_id).
  { unfold Resident.own_request in Hr. apply find_some in Hr as [Hin Hf].
    apply andb_prop in Hf as [Hf _]. apply Nat.eqb_eq in Hf. auto. }
  destruct Hin as [Hin Hid].
  assert (Hfound : Security.approved_with_qr token db0 = Some approved).
  { unfold Security.approved_with_qr. rewrite Hreq.
    apply find_replaced_row with (r := r); [assumption|reflexivity| |].
    - cbn [approved VisitRequest.set_qr_code VisitRequest.qr_code
           VisitRequest.status VisitRequest.set_approved_at VisitRequest.set_status].
      now rewrite String.eqb_refl.
    - intros y Hy _. specialize (Hfresh y Hy).
      destruct (VisitRequest.qr_code y) as [q|]; [|reflexivity].
      destruct (String.eqb_spec q token) as [->|]; [now elim Hfresh|reflexivity]. }
  exists approved. split; [exact Hid|]. split; [reflexivity|]. split; [reflexivity|].
  rewrite (verify_run at_gate token officer db0 Hofficer), Hfound. reflexivity.
Qed.

Lemma approved_token_verifies_witness :
  exists approved,
    VisitRequest.id approved = 1
    /\ VisitRequest.status approved = APPROVED
    /\ VisitRequest.visit_date approved = 10%Z
    /\ serve (Security.verify_visitor_qr Scenario.next_day Scenario.token Scenario.guard)
             Scenario.db_approved
       = (Raised not_today_answer, Scenario.db_approved).
Proof.
  apply (approved_token_verifies Scenario.qr Scenario.clock Scenario.next_day 1
           Scenario.r42 Scenario.guard Scenario.db_pending Scenario.db_approved
           "Visit request approved successfully" Cases.pending_request).
  - vm_compute. reflexivity.
  - reflexivity.
  - intros x Hx. vm_compute in Hx. destruct Hx as [<-|[]]. discriminate.
  - reflexivity.
Defined.

(** ** Lifting a ban *)



